(** * Real-Time Fraud Analytics: the ensemble decision engine

    A shallow embedding of [src/fraud_detector.py] (class [FraudDetector])
    together with the exception behaviour of [FeatureEngineer.transform]
    from [src/features/feature_engineering.py].

    Modelling conventions.
    - Python floats are exact rationals ([Q]); [==] is equality of values.
      Order and range facts carry over to the doubles of the interpreter;
      where a property names a decimal value, the expression is evaluated
      in binary64 as well ([Binary64]).
    - A [datetime] is its wall-clock reading in microseconds since
      [datetime.min] plus an optional UTC offset ([None] = naive).
    - A Python exception leaves every mutation made before it in place, so
      stateful methods live in a state monad whose result is either a value
      or a raised exception, the state being returned in both cases.
    - Ambient nondeterminism ([datetime.now()], [np.random], the two model
      objects) is passed explicitly as an [oracle], one per [predict] call. *)

From Stdlib Require Import PrimFloat Sorted.
From Stdlib Require Import QArith Lqa ZArith.
From stdpp Require Import gmap strings list.

(** A decimal literal in [float_scope] denotes the nearest double, as it
    does in Python. *)
#[local] Set Warnings "-inexact-float".

(** ** Exceptions and outcomes *)

Inductive exn : Type :=
  | ValueError
  | KeyError (key : string)
  | TypeError
  | AttributeError
  | OverflowError.

Inductive outcome (A : Type) : Type :=
  | Ok (a : A)
  | Raise (e : exn).
Arguments Ok {A} a.
Arguments Raise {A} e.

#[global] Instance outcome_ret : MRet outcome := fun A a => Ok a.
#[global] Instance outcome_bind : MBind outcome := fun A B f c =>
  match c with
  | Ok a => f a
  | Raise e => Raise e
  end.

(** [d[key]] on a dict field that may be absent. *)
Definition subscript {A : Type} (key : string) (field : option A) : outcome A :=
  match field with
  | Some a => Ok a
  | None => Raise (KeyError key)
  end.

(** A list comprehension [[t for t in l if p(t)]] whose test may raise:
    elements are tested in order and the first exception aborts it. *)
Fixpoint comprehension {A : Type} (p : A -> outcome bool) (l : list A)
  : outcome (list A) :=
  match l with
  | [] => Ok []
  | t :: rest =>
      b ← p t;
      kept ← comprehension p rest;
      Ok (if b : bool then t :: kept else kept)
  end.

(** ** Rational comparisons returning [bool] *)

Definition Qgeb (a b : Q) : bool := Qle_bool b a.
Definition Qgtb (a b : Q) : bool := negb (Qle_bool a b).
Definition Qltb (a b : Q) : bool := negb (Qle_bool b a).

(** ** datetime and timedelta *)

Module Datetime.

(** [wall]: microseconds of the wall-clock fields since [datetime.min];
    [utcoffset]: [None] for a naive value, [Some o] (microseconds) for an
    aware one. *)
Record datetime : Type := mk_datetime {
  wall : Z;
  utcoffset : option Z
}.

(** [timedelta(days=d, hours=h)] in microseconds. *)
Definition timedelta (days hours : Z) : Z :=
  ((days * 86400 + hours * 3600) * 1000000)%Z.

(** One past the wall-clock reading of [datetime.max]
    ([date.max.toordinal() = 3652059]). *)
Definition wall_limit : Z := (3652059 * 86400 * 1000000)%Z.

Definition in_range (w : Z) : bool := ((0 <=? w) && (w <? wall_limit))%Z.

(** [d - delta]: the offset is kept, and a result outside
    [datetime.min .. datetime.max] raises [OverflowError]. *)
Definition sub (d : datetime) (delta : Z) : outcome datetime :=
  let w := (wall d - delta)%Z in
  if in_range w then Ok (mk_datetime w (utcoffset d))
  else Raise OverflowError.

(** [a >= b]: naive values compare by wall clock, aware ones by instant,
    and mixing the two raises [TypeError]. *)
Definition ge (a b : datetime) : outcome bool :=
  match utcoffset a, utcoffset b with
  | None, None => Ok (wall b <=? wall a)%Z
  | Some oa, Some ob => Ok (wall b - ob <=? wall a - oa)%Z
  | _, _ => Raise TypeError
  end.

(** [datetime.now()]: a naive value. *)
Definition naive (w : Z) : datetime := mk_datetime w None.

End Datetime.
Export Datetime.

(** ** Data model *)

(** The Python value stored under the key ['timestamp'].  A [str] is
    represented by what [datetime.fromisoformat(s.replace('Z', '+00:00'))]
    makes of it: [None] when it raises [ValueError]. *)
Inductive ts_value : Type :=
  | TsNone
  | TsStr (parsed : option datetime)
  | TsDatetime (d : datetime).

(** A raw transaction dict; [None] is an absent key. *)
Record transaction : Type := mk_transaction {
  transaction_id : option string;
  user_id : option string;
  merchant_id : option string;
  amount : option Q;
  timestamp : option ts_value
}.

Definition set_timestamp (t : transaction) (v : ts_value) : transaction :=
  mk_transaction (transaction_id t) (user_id t) (merchant_id t) (amount t)
                 (Some v).

(** An entry of [transaction_history[user_id]]. *)
Record txn_record : Type := mk_record {
  h_timestamp : ts_value;
  h_amount : Q;
  h_merchant_id : option string
}.

Record user_meta : Type := mk_user_meta {
  account_age_days : option Z;
  total_transactions : option Z;
  avg_transaction_amount : option Q;
  country : option string;
  user_is_verified : option bool
}.

Record merchant_meta : Type := mk_merchant_meta {
  merchant_category : option string;
  risk_score : option Q;
  merchant_is_verified : option bool
}.

(** The dict returned by [calculate_velocity_features].  The average is
    [None] for NaN, which is what [np.mean] gives on an empty list. *)
Record velocity : Type := mk_velocity {
  txn_count_1h : nat;
  txn_count_24h : nat;
  txn_count_7d : nat;
  total_amount_1h : Q;
  total_amount_24h : Q;
  total_amount_7d : Q;
  avg_amount_24h : option Q
}.

(** The copy of the transaction that [enrich_transaction] returns and
    [predict] extends with the velocity keys. *)
Record enriched : Type := mk_enriched {
  e_txn : transaction;
  e_user_metadata : option user_meta;
  e_merchant_metadata : option merchant_meta;
  e_velocity : option velocity
}.

Inductive risk : Type := LOW | MEDIUM | HIGH.

(** The dict returned by [predict] ([processing_time_ms] is wall-clock
    time and is left out; [r_timestamp] is the value whose [isoformat()]
    is reported). *)
Record result : Type := mk_result {
  r_transaction_id : string;
  fraud_score : Q;
  xgboost_score : Q;
  autoencoder_score : Q;
  is_fraud : bool;
  risk_level : risk;
  risk_factors : list string;
  r_timestamp : datetime
}.

(** A slot of the list returned by [batch_predict]. *)
Inductive slot : Type :=
  | Scored (r : result)
  | Failed (txn_id : string) (error : exn).

(** The detector object: configuration and the three shared dicts. *)
Record FraudDetector : Type := mk_detector {
  xgboost_weight : Q;
  autoencoder_weight : Q;
  fraud_threshold : Q;
  high_risk_threshold : Q;
  transaction_history : gmap string (list txn_record);
  user_metadata : gmap (option string) user_meta;
  merchant_metadata : gmap (option string) merchant_meta
}.

(** [FraudDetector(wx, wa, ft, ht)]: the three dicts start empty. *)
Definition init (wx wa ft ht : Q) : FraudDetector :=
  mk_detector wx wa ft ht ∅ ∅ ∅.

Definition set_history (h : gmap string (list txn_record)) (self : FraudDetector)
  : FraudDetector :=
  mk_detector (xgboost_weight self) (autoencoder_weight self)
    (fraud_threshold self) (high_risk_threshold self)
    h (user_metadata self) (merchant_metadata self).

Definition set_user_metadata (m : gmap (option string) user_meta)
  (self : FraudDetector) : FraudDetector :=
  mk_detector (xgboost_weight self) (autoencoder_weight self)
    (fraud_threshold self) (high_risk_threshold self)
    (transaction_history self) m (merchant_metadata self).

Definition set_merchant_metadata (m : gmap (option string) merchant_meta)
  (self : FraudDetector) : FraudDetector :=
  mk_detector (xgboost_weight self) (autoencoder_weight self)
    (fraud_threshold self) (high_risk_threshold self)
    (transaction_history self) (user_metadata self) m.

(** What the environment answers during one [predict] call. *)
Record oracle : Type := mk_oracle {
  clock_now : Z;                 (* datetime.now() *)
  lookup_user : user_meta;       (* simulated lookup on a user cache miss *)
  lookup_merchant : merchant_meta;
  xgb_out : Q;                   (* xgboost_model.predict_proba(features) *)
  ae_out : Q;                    (* autoencoder_model.predict_anomaly_score *)
  geo_draw : Q                   (* np.random.random() in the explainer *)
}.

(** ** The state-and-exception monad of the detector's methods *)

Definition M (A : Type) : Type := FraudDetector -> outcome A * FraudDetector.

Definition ret {A : Type} (a : A) : M A := fun self => (Ok a, self).

Definition bind {A B : Type} (c : M A) (k : A -> M B) : M B :=
  fun self =>
    match c self with
    | (Ok a, self') => k a self'
    | (Raise e, self') => (Raise e, self')
    end.

Definition lift {A : Type} (o : outcome A) : M A := fun self => (o, self).
Definition reads {A : Type} (f : FraudDetector -> outcome A) : M A :=
  fun self => (f self, self).
Definition modify (f : FraudDetector -> FraudDetector) : M unit :=
  fun self => (Ok tt, f self).

(** [try: c  except Exception as e: h(e)]. *)
Definition try_except {A : Type} (c : M A) (h : exn -> M A) : M A :=
  fun self =>
    match c self with
    | (Ok a, self') => (Ok a, self')
    | (Raise e, self') => h e self'
    end.

Declare Scope det_scope.
Delimit Scope det_scope with det.
Notation "x <- c ;; k" := (bind c (fun x => k))
  (at level 100, c at next level, right associativity) : det_scope.
Notation "c ;; k" := (bind c (fun _ => k))
  (at level 100, right associativity) : det_scope.

(** ** FeatureEngineer.transform

    The numeric vector is read only by the two model objects, whose
    answers come from the oracle; what matters to the detector is whether
    [transform] raises.  [_extract_transaction_features] reads
    [timestamp.hour], and [_extract_derived_features] computes
    [datetime.now() - timestamp] with a naive [now]. *)
Definition transform (e : enriched) : outcome unit :=
  match timestamp (e_txn e) with
  | None => Ok tt                               (* .get default: now() *)
  | Some (TsDatetime d) =>
      match utcoffset d with
      | None => Ok tt
      | Some _ => Raise TypeError               (* naive - aware *)
      end
  | Some TsNone | Some (TsStr _) => Raise AttributeError
  end.

(** ** FraudDetector methods *)

Module Detector.

Local Open Scope det_scope.

(** Values that may stand where a [datetime] is expected. *)
Definition ts_sub (v : ts_value) (delta : Z) : outcome datetime :=
  match v with
  | TsDatetime d => Datetime.sub d delta
  | _ => Raise TypeError
  end.

Definition ts_ge (v : ts_value) (bound : datetime) : outcome bool :=
  match v with
  | TsDatetime d => Datetime.ge d bound
  | _ => Raise TypeError
  end.

(** [sum(t['amount'] for t in txns)]: a left fold from 0. *)
Definition sum_amounts (txns : list txn_record) : Q :=
  fold_left (fun acc t => acc + h_amount t)%Q txns 0%Q.

(** [np.mean]: NaN on an empty list. *)
Definition np_mean (txns : list txn_record) : option Q :=
  match txns with
  | [] => None
  | _ => Some (sum_amounts txns / inject_Z (Z.of_nat (length txns)))%Q
  end.

Definition zero_velocity : velocity :=
  mk_velocity 0 0 0 0%Q 0%Q 0%Q (Some 0%Q).

Definition in_window (bound : datetime) (t : txn_record) : outcome bool :=
  ts_ge (h_timestamp t) bound.

Definition calculate_velocity_features (uid : string) (current_time : ts_value)
  (self : FraudDetector) : outcome velocity :=
  match transaction_history self !! uid with
  | None => Ok zero_velocity
  | Some history =>
      one_hour_ago ← ts_sub current_time (timedelta 0 1);
      one_day_ago ← ts_sub current_time (timedelta 1 0);
      seven_days_ago ← ts_sub current_time (timedelta 7 0);
      txns_1h ← comprehension (in_window one_hour_ago) history;
      txns_24h ← comprehension (in_window one_day_ago) history;
      txns_7d ← comprehension (in_window seven_days_ago) history;
      Ok (mk_velocity
            (length txns_1h) (length txns_24h) (length txns_7d)
            (sum_amounts txns_1h) (sum_amounts txns_24h)
            (sum_amounts txns_7d)
            (match txns_24h with
             | [] => Some 0%Q
             | _ => np_mean txns_24h
             end))
  end.

(** The history list of [uid], which the caller has made sure exists. *)
Definition history_of (uid : string) (self : FraudDetector) : list txn_record :=
  default [] (transaction_history self !! uid).

Definition update_transaction_history (uid : string) (txn : transaction)
  : M unit :=
  modify (fun self =>
    match transaction_history self !! uid with
    | None => set_history (<[uid := []]> (transaction_history self)) self
    | Some _ => self
    end) ;;
  ts <- lift (subscript "timestamp" (timestamp txn)) ;;
  amt <- lift (subscript "amount" (amount txn)) ;;
  modify (fun self =>
    set_history
      (<[uid := history_of uid self ++ [mk_record ts amt (merchant_id txn)]]>
         (transaction_history self)) self) ;;
  cutoff <- lift (ts_sub ts (timedelta 7 0)) ;;
  kept <- reads (fun self => comprehension (in_window cutoff) (history_of uid self)) ;;
  modify (fun self =>
    set_history (<[uid := kept]> (transaction_history self)) self).

Definition enrich_transaction (env : oracle) (txn : transaction) : M enriched :=
  um <- (fun self =>
    match user_metadata self !! user_id txn with
    | Some meta => (Ok meta, self)
    | None =>
        (Ok (lookup_user env),
         set_user_metadata
           (<[user_id txn := lookup_user env]> (user_metadata self)) self)
    end) ;;
  mm <- (fun self =>
    match merchant_metadata self !! merchant_id txn with
    | Some meta => (Ok meta, self)
    | None =>
        (Ok (lookup_merchant env),
         set_merchant_metadata
           (<[merchant_id txn := lookup_merchant env]> (merchant_metadata self))
           self)
    end) ;;
  ret (mk_enriched txn (Some um) (Some mm) None).

(** [enriched_txn.update(velocity_features)]. *)
Definition with_velocity (e : enriched) (v : velocity) : enriched :=
  mk_enriched (e_txn e) (e_user_metadata e) (e_merchant_metadata e) (Some v).

Definition velocity_factor : string := "High velocity spending (>5 txns/hour)".
Definition geographic_factor : string := "Geographic anomaly detected".
Definition no_factor : string := "No specific risk factors identified".

(** The rule blocks of [_identify_risk_factors], in source order, up to
    the user checks. *)
Definition rule_factors (e : enriched) : list string :=
  let amt := default 0%Q (amount (e_txn e)) in
  let avg_amount :=
    match e_velocity e with
    | Some v => avg_amount_24h v
    | None => Some 0%Q
    end in
  let unusual :=
    match avg_amount with
    | Some avg => Qgtb avg 0 && Qgtb amt (avg * 3)
    | None => false                           (* comparisons with NaN *)
    end in
  let count_1h :=
    match e_velocity e with
    | Some v => txn_count_1h v
    | None => 0%nat
    end in
  let mrisk := default 0%Q (e_merchant_metadata e ≫= risk_score) in
  let mverified := default true (e_merchant_metadata e ≫= merchant_is_verified) in
  let age := default 1000%Z (e_user_metadata e ≫= account_age_days) in
  let uverified := default true (e_user_metadata e ≫= user_is_verified) in
  (if unusual then ["Unusual transaction amount (3x average)"]
   else if Qgtb amt 1000 then ["High transaction amount"] else [])
  ++ (if (5 <? count_1h)%nat then [velocity_factor] else [])
  ++ (if Qgtb mrisk 0.7 then ["High-risk merchant"] else [])
  ++ (if negb mverified then ["Unverified merchant"] else [])
  ++ (if (age <? 30)%Z then ["New user account (<30 days)"] else [])
  ++ (if negb uverified then ["Unverified user account"] else []).

(** [draw] is the value of [np.random.random()] in the last block. *)
Definition _identify_risk_factors (e : enriched) (draw : Q) : list string :=
  let factors :=
    rule_factors e ++ (if Qltb draw 0.1 then [geographic_factor] else []) in
  match factors with
  | [] => [no_factor]
  | _ => factors
  end.

(** Step 5 of [predict]. *)
Definition ensemble (self : FraudDetector) (xgb ae : Q) : Q :=
  (xgboost_weight self * xgb + autoencoder_weight self * ae)%Q.

(** Step 6 of [predict]. *)
Definition classify (self : FraudDetector) (score : Q) : risk :=
  if Qgeb score (high_risk_threshold self) then HIGH
  else if Qgeb score (fraud_threshold self) then MEDIUM
  else LOW.

(** The ['timestamp'] normalisation at the top of [predict]; the dict is
    updated in place, so later steps see the parsed value. *)
Definition parse_timestamp (env : oracle) (txn : transaction)
  : outcome transaction :=
  match timestamp txn with
  | Some (TsStr (Some d)) => Ok (set_timestamp txn (TsDatetime d))
  | Some (TsStr None) => Raise ValueError
  | None => Ok (set_timestamp txn (TsDatetime (naive (clock_now env))))
  | Some _ => Ok txn
  end.

Definition isoformat_source (v : ts_value) : outcome datetime :=
  match v with
  | TsDatetime d => Ok d
  | _ => Raise AttributeError
  end.

Definition predict (env : oracle) (raw : transaction) : M result :=
  txn <- lift (parse_timestamp env raw) ;;
  enriched_txn <- enrich_transaction env txn ;;
  uid <- lift (subscript "user_id" (user_id txn)) ;;
  ts <- lift (subscript "timestamp" (timestamp txn)) ;;
  velocity_features <- reads (calculate_velocity_features uid ts) ;;
  let enriched_txn := with_velocity enriched_txn velocity_features in
  lift (transform enriched_txn) ;;
  let xgb := xgb_out env in
  let ae := ae_out env in
  score <- reads (fun self => Ok (ensemble self xgb ae)) ;;
  fraud <- reads (fun self => Ok (Qgeb score (fraud_threshold self))) ;;
  level <- reads (fun self => Ok (classify self score)) ;;
  let factors := _identify_risk_factors enriched_txn (geo_draw env) in
  update_transaction_history uid txn ;;
  stamp <- lift (isoformat_source ts) ;;
  ret (mk_result (default "UNKNOWN" (transaction_id txn))
         score xgb ae fraud level factors stamp).

Definition error_slot (txn : transaction) (e : exn) : slot :=
  Failed (default "UNKNOWN" (transaction_id txn)) e.

(** The loop of [batch_predict]; [k] counts the [predict] calls made so
    far, so the k-th call consults [envs k]. *)
Fixpoint batch_loop (envs : nat -> oracle) (k : nat)
  (transactions : list transaction) (results : list slot) : M (list slot) :=
  match transactions with
  | [] => ret results
  | txn :: rest =>
      s <- try_except
             (r <- predict (envs k) txn ;; ret (Scored r))
             (fun e => ret (error_slot txn e)) ;;
      batch_loop envs (S k) rest (results ++ [s])
  end.

Definition batch_predict (envs : nat -> oracle)
  (transactions : list transaction) : M (list slot) :=
  batch_loop envs 0 transactions [].

End Detector.
Export Detector.

(** ** Steps 5 and 6 of [predict] in binary64

    The detector above computes with exact rationals, which keeps every
    order and range fact of the code.  The interpreter evaluates the same
    expressions in IEEE-754 doubles; these are lines 240-253 with the
    double operations, for the properties that name a decimal value. *)

Module Binary64.

Definition ensemble (xgboost_weight autoencoder_weight : float)
  (xgboost_score autoencoder_score : float) : float :=
  (xgboost_weight * xgboost_score
   + autoencoder_weight * autoencoder_score)%float.

(** [a >= b] on doubles. *)
Definition ge (a b : float) : bool := (b <=? a)%float.

Definition flag (fraud_threshold fraud_score : float) : bool :=
  ge fraud_score fraud_threshold.

Definition classify (fraud_threshold high_risk_threshold : float)
  (fraud_score : float) : risk :=
  if ge fraud_score high_risk_threshold then HIGH
  else if ge fraud_score fraud_threshold then MEDIUM
  else LOW.

End Binary64.

(** ** Vocabulary of the properties *)

(** The constructor arguments of a detector, as opposed to its dicts. *)
Definition same_config (a b : FraudDetector) : Prop :=
  xgboost_weight a = xgboost_weight b /\
  autoencoder_weight a = autoencoder_weight b /\
  fraud_threshold a = fraud_threshold b /\
  high_risk_threshold a = high_risk_threshold b.

(** Severity order of the tiers: LOW < MEDIUM < HIGH. *)
Definition severity (l : risk) : nat :=
  match l with
  | LOW => 0
  | MEDIUM => 1
  | HIGH => 2
  end.

(** Clamping to [0,1], as the specification words the decision rule. *)
Definition clamp01 (x : Q) : Q :=
  if Qle_bool x 0 then 0%Q else if Qle_bool 1 x then 1%Q else x.

(** The point on the time line that [Datetime.ge] compares. *)
Definition instant (d : datetime) : Z := (wall d - default 0 (utcoffset d))%Z.

(** Both naive or both aware. *)
Definition comparable (a b : datetime) : bool :=
  match utcoffset a, utcoffset b with
  | None, None | Some _, Some _ => true
  | _, _ => false
  end.

(** A stored record whose timestamp is a datetime comparable with [now]
    and lying in the closed hour that ends at [now]. *)
Definition in_last_hour (now : datetime) (t : txn_record) : bool :=
  match h_timestamp t with
  | TsDatetime d =>
      comparable d now &&
      (instant now - timedelta 0 1 <=? instant d)%Z &&
      (instant d <=? instant now)%Z
  | _ => false
  end.

(** A stored record whose timestamp is a datetime that [now] can be
    compared with. *)
Definition comparable_record (now : datetime) (t : txn_record) : Prop :=
  exists d, h_timestamp t = TsDatetime d /\ comparable d now = true.

(** A stored record that [now] can be compared with and that is not
    later than [now]. *)
Definition not_after (now : datetime) (t : txn_record) : Prop :=
  exists d, h_timestamp t = TsDatetime d /\
            comparable d now = true /\ (instant d <= instant now)%Z.

(** A stored record stamped at or after [now - delta]. *)
Definition since (now : datetime) (delta : Z) (t : txn_record) : bool :=
  match h_timestamp t with
  | TsDatetime d => (instant now - delta <=? instant d)%Z
  | _ => false
  end.

(** The slot that [batch_predict] files for one [predict] outcome. *)
Definition slot_of (txn : transaction) (o : outcome result) : slot :=
  match o with
  | Ok r => Scored r
  | Raise e => error_slot txn e
  end.

(** The detector after [predict] has been called, successfully or not, on
    each of [transactions] in turn, the first call being number [k]. *)
Fixpoint run_state (envs : nat -> oracle) (k : nat)
  (transactions : list transaction) (self : FraudDetector) : FraudDetector :=
  match transactions with
  | [] => self
  | txn :: rest => run_state envs (S k) rest (snd (predict (envs k) txn self))
  end.

(** The slots of a batch, one per transaction and in input order, each
    made from the outcome of [predict] on the detector left by the calls
    before it. *)
Fixpoint batch_slots (envs : nat -> oracle) (k : nat)
  (transactions : list transaction) (self : FraudDetector) : list slot :=
  match transactions with
  | [] => []
  | txn :: rest =>
      slot_of txn (fst (predict (envs k) txn self))
      :: batch_slots envs (S k) rest (snd (predict (envs k) txn self))
  end.

(** The detector as the [i]-th item of a batch finds it. *)
Definition state_before (envs : nat -> oracle)
  (transactions : list transaction) (i : nat) (self : FraudDetector)
  : FraudDetector :=
  run_state envs 0 (take i transactions) self.

(** ** Sample data *)

Module Samples.

Local Open Scope Q_scope.
Local Open Scope string_scope.

(** [FraudDetector()] with the default arguments. *)
Definition default_detector : FraudDetector := init 0.7 0.3 0.5 0.75.

Definition alice : user_meta :=
  mk_user_meta (Some 365%Z) (Some 50%Z) (Some 120) (Some "US") (Some true).
Definition shop : merchant_meta :=
  mk_merchant_meta (Some "retail") (Some 0.2) (Some true).

(** 2024-01-01T00:00:00 as microseconds since [datetime.min]
    ([date(2024,1,1).toordinal() = 738886]). *)
Definition new_year : Z := ((738886 - 1) * 86400 * 1000000)%Z.

Definition answers (xgb ae draw : Q) : oracle :=
  mk_oracle new_year alice shop xgb ae draw.

(** Scenario U1: amount 150, no timestamp key, no history. *)
Definition txn_u1 : transaction :=
  mk_transaction (Some "TXN1") (Some "U1") (Some "M1") (Some 150) None.

(** The same without the ['user_id'] key. *)
Definition txn_no_user : transaction :=
  mk_transaction (Some "TXN2") None (Some "M1") (Some 150) None.

(** What the HTTP layer hands over when the timestamp is omitted:
    the key is present and holds [None]. *)
Definition txn_null_timestamp : transaction :=
  mk_transaction (Some "TXN3") (Some "U1") (Some "M1") (Some 150)
                 (Some TsNone).

(** A timestamp string that [fromisoformat] rejects. *)
Definition txn_bad_timestamp : transaction :=
  mk_transaction (Some "TXN4") (Some "U1") (Some "M1") (Some 150)
                 (Some (TsStr None)).

(** Weights that do not sum to 1, and a negative weight. *)
Definition heavy_detector : FraudDetector := init 1 1 0.5 0.75.
Definition negative_detector : FraudDetector := init (-1) 1 0.5 0.75.

(** Thresholds in the wrong order. *)
Definition inverted_detector : FraudDetector := init 0.7 0.3 0.5 0.3.

(** Scenario U2: six purchases of 20, ten minutes apart, the last one
    five minutes before [new_year]. *)
Definition minute : Z := 60000000%Z.
Definition purchase (minutes_ago : Z) : txn_record :=
  mk_record (TsDatetime (naive (new_year - minutes_ago * minute))) 20 (Some "M1").
Definition history_u2 : list txn_record :=
  [purchase 55; purchase 45; purchase 35; purchase 25; purchase 15; purchase 5].
Definition detector_u2 : FraudDetector :=
  set_history {["U2" := history_u2]} default_detector.
Definition txn_u2 : transaction :=
  mk_transaction (Some "TXN7") (Some "U2") (Some "M1") (Some 20)
                 (Some (TsDatetime (naive new_year))).

(** An enriched transaction on which no rule fires. *)
Definition quiet : enriched :=
  mk_enriched txn_u1 (Some alice) (Some shop) (Some zero_velocity).

End Samples.

(** ** FraudDetector.get_stats *)

Module Stats.

(** The dict returned by [get_stats], the two nested dicts flattened. *)
Record detector_stats : Type := mk_stats {
  users_tracked : nat;
  merchants_tracked : nat;
  users_with_history : nat;
  total_historical_transactions : nat;
  weight_xgboost : Q;
  weight_autoencoder : Q;
  threshold_fraud : Q;
  threshold_high_risk : Q
}.

(** [sum(len(history) for history in self.transaction_history.values())]. *)
Definition count_records (histories : gmap string (list txn_record)) : nat :=
  map_fold (fun _ history acc => acc + length history) 0 histories.

Definition get_stats (self : FraudDetector) : detector_stats :=
  mk_stats (size (user_metadata self))
           (size (merchant_metadata self))
           (size (transaction_history self))
           (count_records (transaction_history self))
           (xgboost_weight self) (autoencoder_weight self)
           (fraud_threshold self) (high_risk_threshold self).

End Stats.
Export Stats.

(** ** More vocabulary *)

(** A stored record stamped with a naive datetime. *)
Definition naive_record (t : txn_record) : Prop :=
  exists d, h_timestamp t = TsDatetime d /\ utcoffset d = None.

(** Every stored record of every entity is stamped with a naive datetime. *)
Definition naive_histories (self : FraudDetector) : Prop :=
  forall uid history,
    transaction_history self !! uid = Some history ->
    Forall naive_record history.

(** The record that [update_transaction_history] appends. *)
Definition record_of (txn : transaction) (ts : ts_value) (amt : Q) : txn_record :=
  mk_record ts amt (merchant_id txn).

(** Two entries of the explainer, by name. *)
Definition unusual_entry : string := "Unusual transaction amount (3x average)".
Definition high_entry : string := "High transaction amount".

(** ** The HTTP layer ([src/api_server.py]) *)

Module Api.

(** The global [stats] dict ([uptime_start] is a clock reading and is
    left out). *)
Record server_stats : Type := mk_server_stats {
  total_requests : nat;
  fraud_detected : nat;
  legitimate_transactions : nat;
  avg_processing_time_ms : Q
}.

(** The initial value of [stats], also set by [reset_statistics]. *)
Definition reset_stats : server_stats := mk_server_stats 0 0 0 0%Q.

(** [result.get('is_fraud')] as a truth value: an error slot holds
    [None]. *)
Definition get_is_fraud (s : slot) : bool :=
  match s with
  | Scored r => is_fraud r
  | Failed _ _ => false
  end.

(** [result.get('processing_time_ms', 0)]: [elapsed] is the time a result
    dict carries; an error slot has no such key. *)
Definition get_processing_time (s : slot) (elapsed : Q) : Q :=
  match s with
  | Scored _ => elapsed
  | Failed _ _ => 0%Q
  end.

(** [result.get('fraud_score', 0)]. *)
Definition get_fraud_score (s : slot) : Q :=
  match s with
  | Scored r => fraud_score r
  | Failed _ _ => 0%Q
  end.

Definition update_stats (s : slot) (elapsed : Q) (st : server_stats)
  : server_stats :=
  let n := S (total_requests st) in
  let current_avg := avg_processing_time_ms st in
  let new_time := get_processing_time s elapsed in
  mk_server_stats
    n
    (if get_is_fraud s then S (fraud_detected st) else fraud_detected st)
    (if get_is_fraud s then legitimate_transactions st
     else S (legitimate_transactions st))
    ((current_avg * inject_Z (Z.of_nat n - 1) + new_time)
     / inject_Z (Z.of_nat n))%Q.

(** The background tasks that an endpoint queued, run in order; the k-th
    result carries the processing time [elapsed k]. *)
Fixpoint run_tasks (elapsed : nat -> Q) (k : nat) (results : list slot)
  (st : server_stats) : server_stats :=
  match results with
  | [] => st
  | s :: rest => run_tasks elapsed (S k) rest (update_stats s (elapsed k) st)
  end.

(** The [fraud_rate] entry of [get_statistics]. *)
Definition fraud_rate (st : server_stats) : Q :=
  if (0 <? total_requests st)%nat
  then (inject_Z (Z.of_nat (fraud_detected st))
        / inject_Z (Z.of_nat (total_requests st)))%Q
  else 0%Q.

(** A validated [Transaction] request body.  [req_timestamp] is [None]
    when the field was omitted and otherwise what [fromisoformat] makes of
    the string; [transaction_type] only feeds the feature vector. *)
Record request : Type := mk_request {
  req_transaction_id : string;
  req_user_id : string;
  req_merchant_id : string;
  req_amount : Q;
  req_timestamp : option (option datetime)
}.

(** [transaction.model_dump()]: every field becomes a key, an omitted
    timestamp becomes [None]. *)
Definition model_dump (req : request) : transaction :=
  mk_transaction (Some (req_transaction_id req)) (Some (req_user_id req))
    (Some (req_merchant_id req)) (Some (req_amount req))
    (Some (match req_timestamp req with
           | None => TsNone
           | Some parsed => TsStr parsed
           end)).

(** What an endpoint can raise besides what the detector raises. *)
Inductive api_exn : Type :=
  | DetectorError (e : exn)
  | ZeroDivisionError.

(** [HTTPException(status_code, detail)], the detail being a fixed text or
    [str(e)]. *)
Inductive detail : Type :=
  | Text (message : string)
  | StrOf (e : api_exn).

Inductive http (A : Type) : Type :=
  | Http200 (body : A)
  | HttpError (status_code : nat) (what : detail).
Arguments Http200 {A} body.
Arguments HttpError {A} status_code what.

(** The module-level detector and statistics. *)
Record server : Type := mk_server {
  fraud_detector : FraudDetector;
  stats : server_stats
}.

Definition check_fraud (env : oracle) (elapsed : Q) (req : request)
  (srv : server) : http result * server :=
  match predict env (model_dump req) (fraud_detector srv) with
  | (Ok r, d) =>
      (Http200 r, mk_server d (update_stats (Scored r) elapsed (stats srv)))
  | (Raise e, d) =>
      (HttpError 500 (StrOf (DetectorError e)), mk_server d (stats srv))
  end.

(** The body of a successful batch response, the summary flattened. *)
Record batch_body : Type := mk_batch_body {
  total_transactions : nat;
  results : list slot;
  summary_fraud_detected : nat;
  summary_legitimate : nat;
  summary_avg_fraud_score : Q
}.

(** [sum(1 for r in results if r.get('is_fraud'))] and its negation. *)
Definition count_fraud (results : list slot) : nat :=
  length (List.filter get_is_fraud results).
Definition count_legitimate (results : list slot) : nat :=
  length (List.filter (fun r => negb (get_is_fraud r)) results).

(** [sum(r.get('fraud_score', 0) for r in results)]. *)
Definition sum_scores (results : list slot) : Q :=
  fold_left (fun acc r => acc + get_fraud_score r)%Q results 0%Q.

(** [x / len(results)]: Python raises on a zero divisor. *)
Definition divide_by_len (x : Q) (n : nat) : api_exn + Q :=
  match n with
  | 0 => inl ZeroDivisionError
  | _ => inr (x / inject_Z (Z.of_nat n))%Q
  end.

Definition batch_check_fraud (envs : nat -> oracle) (elapsed : nat -> Q)
  (transactions : list request) (srv : server) : http batch_body * server :=
  if (1000 <? length transactions)%nat then
    (HttpError 400 (Text "Maximum 1000 transactions per batch request"), srv)
  else
    match batch_predict envs (map model_dump transactions)
            (fraud_detector srv) with
    | (Ok results, d) =>
        match divide_by_len (sum_scores results) (length results) with
        | inr avg =>
            (Http200 (mk_batch_body (length results) results
                        (count_fraud results) (count_legitimate results) avg),
             mk_server d (run_tasks elapsed 0 results (stats srv)))
        | inl e => (HttpError 500 (StrOf e), mk_server d (stats srv))
        end
    | (Raise e, d) =>
        (HttpError 500 (StrOf (DetectorError e)), mk_server d (stats srv))
    end.

End Api.

(** ** The stand-alone demo ([src/api_server_demo.py]) *)

Module Demo.

Local Open Scope Q_scope.

(** Python's [min(a, b)] and [max(a, b)] on two numbers. *)
Definition py_min (a b : Q) : Q := if Qltb b a then b else a.
Definition py_max (a b : Q) : Q := if Qgtb b a then b else a.

(** What [random] and the clock answer during one call. *)
Record draws : Type := mk_draws {
  draw_merchant : Q;     (* random.random() of the merchant rule *)
  draw_geographic : Q;   (* random.random() of the geographic rule *)
  noise_xgboost : Q;     (* random.uniform(-0.1, 0.1) *)
  noise_autoencoder : Q; (* random.uniform(-0.15, 0.15) *)
  demo_now : Z           (* datetime.now() *)
}.

(** One [if] block of the rule part: add the weight and append the
    factor when the rule fires. *)
Definition rule (fired : bool) (weight : Q) (name : string)
  (acc : Q * list string) : Q * list string :=
  if fired then (fst acc + weight, snd acc ++ [name]) else acc.

(** The rule part of [detect_fraud_simple]: the accumulated score and the
    factors after the four blocks, in source order. *)
Definition rules (amt : Q) (d : draws) : Q * list string :=
  let acc := (0, []) in
  let acc := rule (Qgtb amt 1000) 0.3 "High transaction amount (>$1000)" acc in
  let acc :=
    rule (Qgtb amt 2000) 0.3 "Very high transaction amount (>$2000)" acc in
  let acc := rule (Qltb (draw_merchant d) 0.2) 0.2 "Unusual merchant category" acc in
  let acc :=
    rule (Qltb (draw_geographic d) 0.15) 0.15 "Geographic anomaly detected" acc in
  acc.

Definition detect_fraud_simple (txn : transaction) (d : draws) : result :=
  let amt := default 0 (amount txn) in
  let (fraud_score, risk_factors) := rules amt d in
  let xgboost_score := py_min (fraud_score + noise_xgboost d) 1 in
  let autoencoder_score := py_min (fraud_score + noise_autoencoder d) 1 in
  let fraud_score := 0.7 * xgboost_score + 0.3 * autoencoder_score in
  let fraud_score := py_max 0 (py_min 1 fraud_score) in
  let risk_level :=
    if Qgeb fraud_score 0.75 then HIGH
    else if Qgeb fraud_score 0.5 then MEDIUM
    else LOW in
  let is_fraud := Qgeb fraud_score 0.5 in
  let risk_factors :=
    match risk_factors with
    | [] => ["No specific risk factors identified"]
    | _ => risk_factors
    end in
  mk_result (default "UNKNOWN" (transaction_id txn))
    fraud_score xgboost_score autoencoder_score is_fraud risk_level
    risk_factors (naive (demo_now d)).

End Demo.

(** ** The anomaly score ([src/models/autoencoder_model.py]) *)

Module Autoencoder.

(** [np.mean] of a row: NaN ([None]) when the row is empty. *)
Definition mean (row : list Q) : option Q :=
  match row with
  | [] => None
  | _ => Some (fold_left Qplus row 0 / inject_Z (Z.of_nat (length row)))%Q
  end.

(** [np.mean(np.square(x_scaled - reconstruction), axis=1)] for one row;
    the network's output layer has as many units as its input. *)
Definition reconstruction_error (x_scaled reconstruction : list Q)
  : option Q :=
  mean (zip_with (fun a b => (a - b) * (a - b))%Q x_scaled reconstruction).

(** The normalisation shared by [predict_anomaly_score] and
    [predict_batch]; [min] with NaN as first argument stays NaN. *)
Definition normalise (reconstruction_threshold : option Q)
  (error : option Q) : option Q :=
  match error with
  | None => None
  | Some err =>
      match reconstruction_threshold with
      | Some thr =>
          if Qgtb thr 0 then Some (Demo.py_min (err / thr) 1)
          else Some (Demo.py_min err 1)
      | None => Some (Demo.py_min err 1)
      end
  end.

(** [predict_anomaly_score]: [x_scaled] and [reconstruction] are what the
    scaler and the network return for the row, [draw] what
    [np.random.random()] returns for an untrained model. *)
Definition predict_anomaly_score (is_trained : bool)
  (reconstruction_threshold : option Q) (draw : Q)
  (x_scaled reconstruction : list Q) : option Q :=
  if is_trained
  then normalise reconstruction_threshold
         (reconstruction_error x_scaled reconstruction)
  else Some draw.

(** [predict_batch] over the rows of a matrix, one draw per row when the
    model is untrained. *)
Definition predict_batch (is_trained : bool)
  (reconstruction_threshold : option Q)
  (rows : list (Q * (list Q * list Q))) : list (option Q) :=
  if is_trained
  then map (fun row =>
              normalise reconstruction_threshold
                (reconstruction_error (fst (snd row)) (snd (snd row)))) rows
  else map (fun row => Some (fst row)) rows.

End Autoencoder.

(** ** Rates from a confusion matrix ([src/utils/metrics.py]) *)

Module Metrics.




End Metrics.

(** The processing times that the results of a batch contribute to the
    running average, the first result being number [k]. *)
Fixpoint total_time (elapsed : nat -> Q) (k : nat) (results : list slot) : Q :=
  match results with
  | [] => 0%Q
  | s :: rest =>
      (Api.get_processing_time s (elapsed k) + total_time elapsed (S k) rest)%Q
  end.

(** ** The velocity block of the feature vector
    ([src/features/feature_engineering.py]) *)

Module Features.

(** An entry of a feature list: a number or NaN. *)
Inductive cell : Type :=
  | Num (q : Q)
  | NaN.

(** [x / y] on two Python numbers; [None] stands for the
    [ZeroDivisionError] of a zero divisor. *)
Definition true_div (x y : Q) : option Q :=
  if Qeq_bool y 0 then None else Some (x / y)%Q.

Definition of_count (n : nat) : Q := inject_Z (Z.of_nat n).

(** [txn.get(key, d)] for a key of the velocity dict, which [predict]
    merges into the enriched transaction as a whole. *)
Definition get {A : Type} (txn : enriched) (key : velocity -> A) (d : A) : A :=
  match e_velocity txn with
  | Some v => key v
  | None => d
  end.

Definition of_float (x : option Q) : cell :=
  match x with
  | Some q => Num q
  | None => NaN
  end.

(** [_extract_velocity_features]: the ten entries in source order, or
    [None] when one of the three divisions raises. *)
Definition _extract_velocity_features (txn : enriched) : option (list cell) :=
  amount_vs_avg ←
    match get txn avg_amount_24h (Some 1%Q) with
    | Some avg =>
        Num <$> true_div (default 0%Q (amount (e_txn txn))) (Demo.py_max avg 1)
    | None => Some NaN                    (* max(nan, 1) is nan *)
    end;
  velocity_1h_24h ←
    true_div (of_count (get txn txn_count_1h 0))
             (of_count (Nat.max (get txn txn_count_24h 1) 1));
  velocity_24h_7d ←
    true_div (of_count (get txn txn_count_24h 0))
             (of_count (Nat.max (get txn txn_count_7d 1) 1));
  Some [Num (of_count (get txn txn_count_1h 0));
        Num (of_count (get txn txn_count_24h 0));
        Num (of_count (get txn txn_count_7d 0));
        Num (get txn total_amount_1h 0%Q);
        Num (get txn total_amount_24h 0%Q);
        Num (get txn total_amount_7d 0%Q);
        of_float (get txn avg_amount_24h (Some 0%Q));
        amount_vs_avg;
        Num velocity_1h_24h;
        Num velocity_24h_7d].

End Features.

(** ** Feature importance ([src/models/xgboost_model.py]) *)

Module XGBoost.

(** [sorted(items, key=lambda x: x[1], reverse=True)] is a stable sort by
    descending importance; it is written here as an insertion sort, an
    item going before the first one that is not strictly more
    important. *)
Fixpoint insert_desc (x : string * Q) (l : list (string * Q))
  : list (string * Q) :=
  match l with
  | [] => [x]
  | h :: t => if Qgtb (snd h) (snd x) then h :: insert_desc x t else x :: l
  end.

Definition sorted_desc (items : list (string * Q)) : list (string * Q) :=
  foldr insert_desc [] items.

(** The slice [l[:n]]; a negative [n] counts from the end. *)
Definition slice_to {A : Type} (l : list A) (n : Z) : list A :=
  if (n <? 0)%Z then take (length l - Z.to_nat (- n)) l
  else take (Z.to_nat n) l.

(** [get_feature_importance]: [feature_importance] is [None] before
    training and otherwise the items of the dict; the dict returned is
    given by its items in insertion order. *)
Definition get_feature_importance
  (feature_importance : option (list (string * Q))) (top_n : Z)
  : list (string * Q) :=
  match feature_importance with
  | None => []
  | Some items => slice_to (sorted_desc items) top_n
  end.

(** The order of the dict returned: [a] comes before [b]. *)
Definition at_least_as_important (a b : string * Q) : Prop :=
  (snd b <= snd a)%Q.

End XGBoost.

(** ** Business metrics ([src/utils/metrics.py]) *)

Module Business.



End Business.

(** * Properties *)

(** ** Reasoning about the monad *)

Lemma bind_Ok_inv {A B : Type} (c : M A) (k : A -> M B) self b self' :
  bind c k self = (Ok b, self') ->
  exists a mid, c self = (Ok a, mid) /\ k a mid = (Ok b, self').
Proof.
  unfold bind. destruct (c self) as [[a|e] mid]; intros H.
  - exists a, mid. split; [reflexivity | exact H].
  - discriminate H.
Qed.

Lemma bind_inv {A B : Type} (c : M A) (k : A -> M B) self o self' :
  bind c k self = (o, self') ->
  (exists e, c self = (Raise e, self') /\ o = Raise e) \/
  exists a mid, c self = (Ok a, mid) /\ k a mid = (o, self').
Proof.
  unfold bind. destruct (c self) as [[a|e] mid]; intros H.
  - right. exists a, mid. split; [reflexivity | exact H].
  - left. exists e. inversion H. split; reflexivity.
Qed.

Lemma lift_inv {A : Type} (o : outcome A) self o' self' :
  lift o self = (o', self') -> o' = o /\ self' = self.
Proof. unfold lift. intros H. inversion H. split; reflexivity. Qed.

Lemma reads_inv {A : Type} (f : FraudDetector -> outcome A) self o' self' :
  reads f self = (o', self') -> o' = f self /\ self' = self.
Proof. unfold reads. intros H. inversion H. split; reflexivity. Qed.

Lemma same_config_refl a : same_config a a.
Proof. repeat split. Qed.

Lemma same_config_trans a b c :
  same_config a b -> same_config b c -> same_config a c.
Proof.
  unfold same_config. intros (?&?&?&?) (?&?&?&?).
  repeat split; congruence.
Qed.

Lemma enrich_transaction_Ok env txn self :
  exists e self',
    enrich_transaction env txn self = (Ok e, self') /\
    same_config self self' /\
    transaction_history self' = transaction_history self /\
    e_txn e = txn /\ e_velocity e = None /\
    e_user_metadata e = user_metadata self' !! user_id txn /\
    e_merchant_metadata e = merchant_metadata self' !! merchant_id txn /\
    user_metadata self ⊆ user_metadata self' /\
    merchant_metadata self ⊆ merchant_metadata self'.
Proof.
  unfold enrich_transaction, bind, ret.
  destruct (user_metadata self !! user_id txn) as [um|] eqn:Hu;
  destruct (merchant_metadata self !! merchant_id txn) as [mm|] eqn:Hm;
  cbn; rewrite ?Hm; cbn; do 2 eexists; (split; [reflexivity|]); cbn;
  rewrite ?lookup_insert_eq;
  repeat split; try done; by apply insert_subseteq.
Qed.


(** What a successful [predict] call went through. *)
Lemma predict_Ok_inv env raw self r self' :
  predict env raw self = (Ok r, self') ->
  exists txn e mid uid ts v,
    parse_timestamp env raw = Ok txn /\
    enrich_transaction env txn self = (Ok e, mid) /\
    user_id txn = Some uid /\
    timestamp txn = Some ts /\
    calculate_velocity_features uid ts mid = Ok v /\
    transform (with_velocity e v) = Ok tt /\
    update_transaction_history uid txn mid = (Ok tt, self') /\
    r_transaction_id r = default "UNKNOWN"%string (transaction_id txn) /\
    fraud_score r = ensemble mid (xgb_out env) (ae_out env) /\
    xgboost_score r = xgb_out env /\
    autoencoder_score r = ae_out env /\
    is_fraud r = Qgeb (fraud_score r) (fraud_threshold mid) /\
    risk_level r = classify mid (fraud_score r) /\
    risk_factors r = _identify_risk_factors (with_velocity e v) (geo_draw env) /\
    ts = TsDatetime (r_timestamp r).
Proof.
  unfold predict. intros H.
  apply bind_Ok_inv in H as (txn & s0 & Hparse & H).
  apply lift_inv in Hparse as [Hparse ->].
  apply bind_Ok_inv in H as (e & mid & Henrich & H).
  apply bind_Ok_inv in H as (uid & s1 & Huid & H).
  apply lift_inv in Huid as [Huid ->].
  apply bind_Ok_inv in H as (ts & s2 & Hts & H).
  apply lift_inv in Hts as [Hts ->].
  apply bind_Ok_inv in H as (v & s3 & Hv & H).
  apply reads_inv in Hv as [Hv ->].
  apply bind_Ok_inv in H as (u & s4 & Htr & H).
  apply lift_inv in Htr as [Htr ->].
  apply bind_Ok_inv in H as (score & s5 & Hscore & H).
  apply reads_inv in Hscore as [Hscore ->].
  apply bind_Ok_inv in H as (fraud & s6 & Hfraud & H).
  apply reads_inv in Hfraud as [Hfraud ->].
  apply bind_Ok_inv in H as (level & s7 & Hlevel & H).
  apply reads_inv in Hlevel as [Hlevel ->].
  apply bind_Ok_inv in H as (u' & s8 & Hupd & H).
  apply bind_Ok_inv in H as (stamp & s9 & Hstamp & H).
  apply lift_inv in Hstamp as [Hstamp ->].
  unfold ret in H.
  destruct (user_id txn) as [uid'|] eqn:Euid; [|discriminate].
  destruct (timestamp txn) as [ts'|] eqn:Ets; [|discriminate].
  cbn in Huid, Hts.
  destruct u, u'.
  destruct ts; try discriminate. cbn in Hstamp.
  exists txn, e, mid, uid, (TsDatetime d), v.
  simplify_eq. cbn. repeat split; auto.
Qed.

Lemma predict_config env raw self r self' :
  predict env raw self = (Ok r, self') ->
  fraud_score r = ensemble self (xgboost_score r) (autoencoder_score r) /\
  is_fraud r = Qgeb (fraud_score r) (fraud_threshold self) /\
  risk_level r = classify self (fraud_score r).
Proof.
  intros H. apply predict_Ok_inv in H
    as (txn & e & mid & uid & ts & v & _ & He & _ & _ & _ & _ & _ & _
        & Hs & Hx & Ha & Hf & Hl & _).
  destruct (enrich_transaction_Ok env txn self)
    as (e' & mid' & He' & (Hwx & Hwa & Hft & Hht) & _).
  rewrite He in He'. inversion He'; subst e' mid'.
  rewrite Hx, Ha, Hf, Hl, Hs. unfold ensemble, classify.
  rewrite Hwx, Hwa, Hft, Hht. repeat split.
Qed.

Lemma fst_predict_Ok env raw self r :
  fst (predict env raw self) = Ok r ->
  exists self', predict env raw self = (Ok r, self').
Proof.
  destruct (predict env raw self) as [o self'] eqn:E. cbn.
  intros ->. exists self'. reflexivity.
Qed.

(** ** The decision rule *)

Lemma Qgeb_true a b : Qgeb a b = true <-> (b <= a)%Q.
Proof. unfold Qgeb. apply Qle_bool_iff. Qed.

Lemma Qgeb_false a b : Qgeb a b = false <-> (a < b)%Q.
Proof.
  unfold Qgeb. destruct (Qle_bool b a) eqn:E.
  - apply Qle_bool_iff in E. split; [discriminate | intros; lra].
  - split; [intros _ | reflexivity].
    apply Qnot_le_lt. intros Hle. apply Qle_bool_iff in Hle. congruence.
Qed.

Lemma classify_HIGH self s :
  classify self s = HIGH <-> (high_risk_threshold self <= s)%Q.
Proof.
  unfold classify.
  destruct (Qgeb s (high_risk_threshold self)) eqn:Eh.
  - apply Qgeb_true in Eh. tauto.
  - apply Qgeb_false in Eh.
    destruct (Qgeb s (fraud_threshold self)); split;
      try discriminate; intros; lra.
Qed.

Lemma classify_MEDIUM self s :
  classify self s = MEDIUM <->
  (fraud_threshold self <= s)%Q /\ (s < high_risk_threshold self)%Q.
Proof.
  unfold classify.
  destruct (Qgeb s (high_risk_threshold self)) eqn:Eh.
  - apply Qgeb_true in Eh. split; [discriminate | intros; lra].
  - apply Qgeb_false in Eh.
    destruct (Qgeb s (fraud_threshold self)) eqn:Ef.
    + apply Qgeb_true in Ef. tauto.
    + apply Qgeb_false in Ef. split; [discriminate | intros; lra].
Qed.

Lemma classify_LOW self s :
  classify self s = LOW <->
  (s < high_risk_threshold self)%Q /\ (s < fraud_threshold self)%Q.
Proof.
  unfold classify.
  destruct (Qgeb s (high_risk_threshold self)) eqn:Eh.
  - apply Qgeb_true in Eh. split; [discriminate | intros; lra].
  - apply Qgeb_false in Eh.
    destruct (Qgeb s (fraud_threshold self)) eqn:Ef.
    + apply Qgeb_true in Ef. split; [discriminate | intros; lra].
    + apply Qgeb_false in Ef. tauto.
Qed.

Lemma classify_monotone self s s' :
  (s <= s')%Q -> severity (classify self s) <= severity (classify self s').
Proof.
  intros Hle.
  destruct (classify self s) eqn:E; cbn; [lia | |].
  - apply classify_MEDIUM in E as [Hf Hh].
    destruct (classify self s') eqn:E'; cbn; try lia.
    apply classify_LOW in E'. lra.
  - apply classify_HIGH in E.
    assert (classify self s' = HIGH) as -> by (apply classify_HIGH; lra).
    cbn. lia.
Qed.

Lemma predict_scores env raw self r :
  fst (predict env raw self) = Ok r ->
  fraud_score r = ensemble self (xgb_out env) (ae_out env) /\
  xgboost_score r = xgb_out env /\
  autoencoder_score r = ae_out env.
Proof.
  intros H. apply fst_predict_Ok in H as [self' H].
  pose proof (predict_config _ _ _ _ _ H) as (Hs & _ & _).
  apply predict_Ok_inv in H
    as (_ & _ & _ & _ & _ & _ & _ & _ & _ & _ & _ & _ & _ & _
        & _ & Hx & Ha & _).
  rewrite Hx, Ha in Hs. auto.
Qed.

(** C1 (as amended): the [fraud_score] of every result of [predict] is the
    plain weighted sum [xgboost_weight * xgboost_score + autoencoder_weight
    * autoencoder_score]; nothing clamps it.  It lies in [0,1] when both
    component scores lie in [0,1] and the weights are non-negative and sum
    to at most 1. *)
Theorem predict_score_is_weighted_sum env raw self r :
  fst (predict env raw self) = Ok r ->
  (fraud_score r ==
     xgboost_weight self * xgboost_score r
     + autoencoder_weight self * autoencoder_score r)%Q /\
  xgboost_score r = xgb_out env /\
  autoencoder_score r = ae_out env /\
  ((0 <= xgboost_weight self)%Q -> (0 <= autoencoder_weight self)%Q ->
   (xgboost_weight self + autoencoder_weight self <= 1)%Q ->
   (0 <= xgb_out env <= 1)%Q -> (0 <= ae_out env <= 1)%Q ->
   (0 <= fraud_score r <= 1)%Q).
Proof.
  intros H. apply predict_scores in H as (Hs & Hx & Ha).
  unfold ensemble in Hs. rewrite Hs, Hx, Ha.
  split; [reflexivity|]. split; [reflexivity|]. split; [reflexivity|].
  intros. split; nra.
Qed.

Lemma predict_score_is_weighted_sum_witness :
  exists r,
    fst (predict (Samples.answers 0.9 0.2 0.5) Samples.txn_u1
           Samples.default_detector) = Ok r /\
    (fraud_score r == 0.69)%Q /\ (0 <= fraud_score r <= 1)%Q.
Proof.
  eexists. split; [vm_compute; reflexivity|].
  edestruct (predict_score_is_weighted_sum (Samples.answers 0.9 0.2 0.5)
               Samples.txn_u1 Samples.default_detector)
    as (Hsum & _ & _ & Hrange); [vm_compute; reflexivity|].
  split.
  - rewrite Hsum. vm_compute. reflexivity.
  - apply Hrange; vm_compute; intuition discriminate.
Defined.

(** C1, refuted as stated: with weights 1 and 1 and component scores 0.9
    and 0.8, [predict] reports 1.7, which is neither in [0,1] nor the
    clamped sum. *)
Lemma predict_score_not_clamped :
  exists r,
    fst (predict (Samples.answers 0.9 0.8 0.5) Samples.txn_u1
           Samples.heavy_detector) = Ok r /\
    (fraud_score r == 1.7)%Q /\
    ~ (fraud_score r <= 1)%Q /\
    ~ (fraud_score r ==
         clamp01 (xgboost_weight Samples.heavy_detector * 0.9
                  + autoencoder_weight Samples.heavy_detector * 0.8))%Q.
Proof.
  eexists. split; [vm_compute; reflexivity|].
  repeat split; vm_compute; congruence.
Qed.

(** C2 (as amended): with weights 0.7 and 0.3 and thresholds 0.5 and
    0.75, component scores (0.9, 0.2) give ensemble score 0.69, tier MEDIUM
    and the fraud flag set, and (0.95, 0.9) give tier HIGH and the fraud
    flag set, with an ensemble score that is 0.935 up to rounding: the
    double arithmetic of the code returns 0.9349999999999999, the double
    just below 0.935.  In general the tier is HIGH when the score reaches
    the high-risk threshold, MEDIUM when it reaches the fraud threshold but
    not the high-risk one, LOW otherwise, and the fraud flag holds exactly
    when the score reaches the fraud threshold. *)
Theorem predict_tiering env raw self r :
  fst (predict env raw self) = Ok r ->
  ((xgboost_weight self == 0.7)%Q -> (autoencoder_weight self == 0.3)%Q ->
   (fraud_threshold self == 0.5)%Q -> (high_risk_threshold self == 0.75)%Q ->
   ((xgb_out env == 0.9)%Q -> (ae_out env == 0.2)%Q ->
    (fraud_score r == 0.69)%Q /\ risk_level r = MEDIUM /\ is_fraud r = true) /\
   ((xgb_out env == 0.95)%Q -> (ae_out env == 0.9)%Q ->
    (0.934999999999999 <= fraud_score r <= 0.935)%Q /\
    risk_level r = HIGH /\ is_fraud r = true)) /\
  (risk_level r = HIGH <-> (high_risk_threshold self <= fraud_score r)%Q) /\
  (risk_level r = MEDIUM <->
     (fraud_threshold self <= fraud_score r)%Q /\
     (fraud_score r < high_risk_threshold self)%Q) /\
  (risk_level r = LOW <->
     (fraud_score r < high_risk_threshold self)%Q /\
     (fraud_score r < fraud_threshold self)%Q) /\
  (is_fraud r = true <-> (fraud_threshold self <= fraud_score r)%Q) /\
  (Binary64.ensemble 0.7 0.3 0.9 0.2 = 0.69%float /\
   Binary64.classify 0.5 0.75 (Binary64.ensemble 0.7 0.3 0.9 0.2) = MEDIUM /\
   Binary64.flag 0.5 (Binary64.ensemble 0.7 0.3 0.9 0.2) = true) /\
  (Binary64.ensemble 0.7 0.3 0.95 0.9 = 0.9349999999999999%float /\
   Binary64.ensemble 0.7 0.3 0.95 0.9 = next_down 0.935%float /\
   Binary64.classify 0.5 0.75 (Binary64.ensemble 0.7 0.3 0.95 0.9) = HIGH /\
   Binary64.flag 0.5 (Binary64.ensemble 0.7 0.3 0.95 0.9) = true).
Proof.
  intros H.
  destruct (predict_scores _ _ _ _ H) as (Hsum & Hx & Ha).
  unfold ensemble in Hsum.
  apply fst_predict_Ok in H as [self' H].
  apply predict_config in H as (_ & Hf & Hl).
  assert (Htier :
    (risk_level r = HIGH <-> (high_risk_threshold self <= fraud_score r)%Q) /\
    (risk_level r = MEDIUM <->
       (fraud_threshold self <= fraud_score r)%Q /\
       (fraud_score r < high_risk_threshold self)%Q) /\
    (risk_level r = LOW <->
       (fraud_score r < high_risk_threshold self)%Q /\
       (fraud_score r < fraud_threshold self)%Q) /\
    (is_fraud r = true <-> (fraud_threshold self <= fraud_score r)%Q)).
  { rewrite Hl, Hf.
    split; [apply classify_HIGH|]. split; [apply classify_MEDIUM|].
    split; [apply classify_LOW | apply Qgeb_true]. }
  assert (Hdoubles :
    (Binary64.ensemble 0.7 0.3 0.9 0.2 = 0.69%float /\
     Binary64.classify 0.5 0.75 (Binary64.ensemble 0.7 0.3 0.9 0.2) = MEDIUM /\
     Binary64.flag 0.5 (Binary64.ensemble 0.7 0.3 0.9 0.2) = true) /\
    (Binary64.ensemble 0.7 0.3 0.95 0.9 = 0.9349999999999999%float /\
     Binary64.ensemble 0.7 0.3 0.95 0.9 = next_down 0.935%float /\
     Binary64.classify 0.5 0.75 (Binary64.ensemble 0.7 0.3 0.95 0.9) = HIGH /\
     Binary64.flag 0.5 (Binary64.ensemble 0.7 0.3 0.95 0.9) = true))
    by (repeat split; vm_compute; reflexivity).
  split; [|destruct Htier as (HH & HM & HL & HF), Hdoubles as (D1 & D2);
           repeat (split; [assumption|]); exact D2].
  destruct Htier as (HH & HM & _ & HF).
  intros Hwx Hwa Hft Hht. split; intros Hxv Hav.
  - assert (Hv : (fraud_score r == 0.69)%Q).
    { rewrite Hsum, Hwx, Hwa, Hxv, Hav. reflexivity. }
    split; [exact Hv|]. split.
    + apply HM. rewrite Hv, Hft, Hht. split; [discriminate | reflexivity].
    + apply HF. rewrite Hv, Hft. discriminate.
  - assert (Hv : (fraud_score r == 0.935)%Q).
    { rewrite Hsum, Hwx, Hwa, Hxv, Hav. reflexivity. }
    split; [rewrite Hv; split; discriminate|]. split.
    + apply HH. rewrite Hv, Hht. discriminate.
    + apply HF. rewrite Hv, Hft. discriminate.
Qed.

Lemma predict_tiering_witness :
  exists r r',
    fst (predict (Samples.answers 0.9 0.2 0.5) Samples.txn_u1
           Samples.default_detector) = Ok r /\
    fst (predict (Samples.answers 0.95 0.9 0.5) Samples.txn_u1
           Samples.default_detector) = Ok r' /\
    ((fraud_score r == 0.69)%Q /\ risk_level r = MEDIUM /\ is_fraud r = true) /\
    ((0.934999999999999 <= fraud_score r' <= 0.935)%Q /\
     risk_level r' = HIGH /\ is_fraud r' = true).
Proof.
  eexists. eexists.
  split; [vm_compute; reflexivity|]. split; [vm_compute; reflexivity|].
  split.
  - edestruct (predict_tiering (Samples.answers 0.9 0.2 0.5) Samples.txn_u1
                 Samples.default_detector) as [Hscen _];
      [vm_compute; reflexivity|].
    apply Hscen; vm_compute; reflexivity.
  - edestruct (predict_tiering (Samples.answers 0.95 0.9 0.5) Samples.txn_u1
                 Samples.default_detector) as [Hscen _];
      [vm_compute; reflexivity|].
    apply Hscen; vm_compute; reflexivity.
Defined.

(** C2, refuted as stated: with weights 0.7 and 0.3 and component scores
    0.95 and 0.9 the doubles of the code give a [fraud_score] that is
    strictly below 0.935 and not equal to it.  (With 0.9 and 0.2 the
    doubles give 0.69 itself.) *)
Lemma scenario_score_below_0935 :
  (Binary64.ensemble 0.7 0.3 0.95 0.9 =? 0.935)%float = false /\
  (Binary64.ensemble 0.7 0.3 0.95 0.9 <? 0.935)%float = true /\
  (Binary64.ensemble 0.7 0.3 0.9 0.2 =? 0.69)%float = true.
Proof.
  repeat split; vm_compute; reflexivity.
Qed.

(** C4 (as amended): for fixed non-negative weights and fixed thresholds,
    a call whose component scores are each at least those of another call
    (in particular one raised, the other held fixed) reports an ensemble
    score that is not smaller and a tier that is not less severe. *)
Theorem predict_monotone env env' raw raw' self self' r r' :
  same_config self self' ->
  (0 <= xgboost_weight self)%Q -> (0 <= autoencoder_weight self)%Q ->
  (xgb_out env <= xgb_out env')%Q -> (ae_out env <= ae_out env')%Q ->
  fst (predict env raw self) = Ok r ->
  fst (predict env' raw' self') = Ok r' ->
  (fraud_score r <= fraud_score r')%Q /\
  severity (risk_level r) <= severity (risk_level r').
Proof.
  intros (Hwx & Hwa & Hft & Hht) Hx0 Ha0 Hx Ha H H'.
  destruct (predict_scores _ _ _ _ H) as (Hs & _ & _).
  destruct (predict_scores _ _ _ _ H') as (Hs' & _ & _).
  unfold ensemble in Hs, Hs'.
  apply fst_predict_Ok in H as [s1 H]. apply fst_predict_Ok in H' as [s2 H'].
  apply predict_config in H as (_ & _ & Hl).
  apply predict_config in H' as (_ & _ & Hl').
  assert (Hle : (fraud_score r <= fraud_score r')%Q).
  { rewrite Hs, Hs', <- Hwx, <- Hwa. nra. }
  split; [exact Hle|].
  rewrite Hl, Hl'. unfold classify. rewrite <- Hft, <- Hht.
  apply (classify_monotone self). exact Hle.
Qed.

Lemma predict_monotone_witness :
  exists r r',
    fst (predict (Samples.answers 0.9 0.2 0.5) Samples.txn_u1
           Samples.default_detector) = Ok r /\
    fst (predict (Samples.answers 0.95 0.2 0.5) Samples.txn_u1
           Samples.default_detector) = Ok r' /\
    (fraud_score r <= fraud_score r')%Q /\
    severity (risk_level r) <= severity (risk_level r').
Proof.
  eexists. eexists.
  split; [vm_compute; reflexivity|]. split; [vm_compute; reflexivity|].
  apply (predict_monotone (Samples.answers 0.9 0.2 0.5)
           (Samples.answers 0.95 0.2 0.5) Samples.txn_u1 Samples.txn_u1
           Samples.default_detector Samples.default_detector).
  - repeat split.
  - vm_compute. discriminate.
  - vm_compute. discriminate.
  - vm_compute. discriminate.
  - vm_compute. discriminate.
  - vm_compute. reflexivity.
  - vm_compute. reflexivity.
Defined.

(** C4, refuted as stated: with weights -1 and 1, raising the first
    component score from 0 to 1 while the second stays at 1 lowers the
    ensemble score from 1 to 0 and the tier from HIGH to LOW. *)
Lemma negative_weight_not_monotone :
  exists r r',
    fst (predict (Samples.answers 0 1 0.5) Samples.txn_u1
           Samples.negative_detector) = Ok r /\
    fst (predict (Samples.answers 1 1 0.5) Samples.txn_u1
           Samples.negative_detector) = Ok r' /\
    (xgboost_score r < xgboost_score r')%Q /\
    (autoencoder_score r == autoencoder_score r')%Q /\
    (fraud_score r' < fraud_score r)%Q /\
    risk_level r = HIGH /\ risk_level r' = LOW /\
    severity (risk_level r') < severity (risk_level r).
Proof.
  eexists. eexists.
  split; [vm_compute; reflexivity|]. split; [vm_compute; reflexivity|].
  cbn. repeat split; try reflexivity. lia.
Qed.

(** C10: when [fraud_threshold <= high_risk_threshold], a result is
    flagged as fraud exactly when its tier is not LOW; when the thresholds
    are the other way round, a score at or above the high-risk threshold
    but below the fraud threshold is tiered HIGH without the flag. *)
Theorem predict_flag_matches_tier env raw self r :
  fst (predict env raw self) = Ok r ->
  ((fraud_threshold self <= high_risk_threshold self)%Q ->
   (is_fraud r = true <-> risk_level r <> LOW)) /\
  ((high_risk_threshold self <= fraud_score r)%Q ->
   (fraud_score r < fraud_threshold self)%Q ->
   risk_level r = HIGH /\ is_fraud r = false).
Proof.
  intros H. apply fst_predict_Ok in H as [self' H].
  apply predict_config in H as (_ & Hf & Hl).
  split.
  - intros Hord. rewrite Hf, Qgeb_true. split.
    + intros Hge Hlow. rewrite Hl in Hlow.
      apply classify_LOW in Hlow. lra.
    + intros Hnot. destruct (Qlt_le_dec (fraud_score r) (fraud_threshold self))
        as [Hlt|Hge]; [|exact Hge].
      exfalso. apply Hnot. rewrite Hl. apply classify_LOW. lra.
  - intros Hh Hlt. split.
    + rewrite Hl. apply classify_HIGH. exact Hh.
    + rewrite Hf. apply Qgeb_false. exact Hlt.
Qed.

Lemma predict_flag_matches_tier_witness :
  exists r r',
    fst (predict (Samples.answers 0.9 0.2 0.5) Samples.txn_u1
           Samples.default_detector) = Ok r /\
    fst (predict (Samples.answers 0.5 0.2 0.5) Samples.txn_u1
           Samples.inverted_detector) = Ok r' /\
    (is_fraud r = true <-> risk_level r <> LOW) /\
    (risk_level r' = HIGH /\ is_fraud r' = false).
Proof.
  eexists. eexists.
  split; [vm_compute; reflexivity|]. split; [vm_compute; reflexivity|].
  split.
  - edestruct (predict_flag_matches_tier (Samples.answers 0.9 0.2 0.5)
                 Samples.txn_u1 Samples.default_detector) as [Hord _];
      [vm_compute; reflexivity|].
    apply Hord. vm_compute. discriminate.
  - edestruct (predict_flag_matches_tier (Samples.answers 0.5 0.2 0.5)
                 Samples.txn_u1 Samples.inverted_detector) as [_ Hinv];
      [vm_compute; reflexivity|].
    apply Hinv; vm_compute; [discriminate | reflexivity].
Defined.

(** ** Time arithmetic and comprehensions *)

Lemma modify_inv (f : FraudDetector -> FraudDetector) self o self' :
  modify f self = (o, self') -> o = Ok tt /\ self' = f self.
Proof. unfold modify. intros H. inversion H. split; reflexivity. Qed.

Lemma ge_inv a b res :
  Datetime.ge a b = Ok res ->
  comparable a b = true /\ res = (instant b <=? instant a)%Z.
Proof.
  unfold Datetime.ge, comparable, instant.
  destruct (utcoffset a), (utcoffset b); cbn; intros H;
    inversion H; subst; split; try reflexivity.
  f_equal; lia.
Qed.

Lemma ge_comparable a b :
  comparable a b = true ->
  Datetime.ge a b = Ok (instant b <=? instant a)%Z.
Proof.
  unfold Datetime.ge, comparable, instant.
  destruct (utcoffset a), (utcoffset b); cbn; intros H;
    try discriminate; do 2 f_equal; lia.
Qed.

Lemma sub_inv d delta c :
  Datetime.sub d delta = Ok c ->
  utcoffset c = utcoffset d /\ instant c = (instant d - delta)%Z /\
  wall c = (wall d - delta)%Z.
Proof.
  unfold Datetime.sub, instant.
  destruct (in_range (wall d - delta)); intros H; inversion H; subst; cbn.
  repeat split. lia.
Qed.

Lemma comparable_sub d now delta c :
  Datetime.sub now delta = Ok c -> comparable d c = comparable d now.
Proof.
  intros H. apply sub_inv in H as (Ho & _). unfold comparable. rewrite Ho.
  reflexivity.
Qed.

Lemma comprehension_Ok_elem {A : Type} (p : A -> outcome bool) l kept :
  comprehension p l = Ok kept ->
  forall t, t ∈ kept -> t ∈ l /\ p t = Ok true.
Proof.
  revert kept. induction l as [|x l IH]; cbn; intros kept H t Ht.
  - inversion H; subst. inversion Ht.
  - destruct (p x) as [b|e] eqn:Ep; cbn in H; [|discriminate].
    destruct (comprehension p l) as [kept'|e] eqn:Ec; cbn in H; [|discriminate].
    inversion H; subst; clear H.
    destruct b.
    + apply elem_of_cons in Ht as [->|Ht].
      * split; [left | exact Ep].
      * destruct (IH kept' eq_refl t Ht) as [Hin Hp].
        split; [right; exact Hin | exact Hp].
    + destruct (IH kept' eq_refl t Ht) as [Hin Hp].
      split; [right; exact Hin | exact Hp].
Qed.

(** When the test never raises on [l], the comprehension is a filter. *)
Lemma comprehension_filter {A : Type} (p : A -> outcome bool) (q : A -> bool) l :
  Forall (fun t => p t = Ok (q t)) l ->
  comprehension p l = Ok (List.filter q l).
Proof.
  induction 1 as [|x l Hx _ IH]; cbn; [reflexivity|].
  rewrite Hx. cbn. rewrite IH. cbn. destruct (q x); reflexivity.
Qed.

Lemma update_transaction_history_Ok_inv uid txn self self' :
  update_transaction_history uid txn self = (Ok tt, self') ->
  exists ts amt cutoff old kept,
    timestamp txn = Some ts /\ amount txn = Some amt /\
    ts_sub ts (timedelta 7 0) = Ok cutoff /\
    old = default [] (transaction_history self !! uid) /\
    comprehension (in_window cutoff)
      (old ++ [mk_record ts amt (merchant_id txn)]) = Ok kept /\
    transaction_history self' = <[uid := kept]> (transaction_history self) /\
    same_config self self' /\
    user_metadata self' = user_metadata self /\
    merchant_metadata self' = merchant_metadata self.
Proof.
  unfold update_transaction_history. intros H.
  apply bind_Ok_inv in H as (u0 & s0 & H0 & H).
  apply modify_inv in H0 as [_ ->].
  apply bind_Ok_inv in H as (ts & s1 & Hts & H).
  apply lift_inv in Hts as [Hts ->].
  apply bind_Ok_inv in H as (amt & s2 & Hamt & H).
  apply lift_inv in Hamt as [Hamt ->].
  apply bind_Ok_inv in H as (u1 & s3 & H1 & H).
  apply modify_inv in H1 as [_ ->].
  apply bind_Ok_inv in H as (cutoff & s4 & Hcut & H).
  apply lift_inv in Hcut as [Hcut ->].
  apply bind_Ok_inv in H as (kept & s5 & Hkept & H).
  apply reads_inv in Hkept as [Hkept ->].
  apply modify_inv in H as [_ ->].
  destruct (timestamp txn) as [ts'|]; [|discriminate].
  destruct (amount txn) as [amt'|]; [|discriminate].
  cbn in Hts, Hamt. injection Hts as <-. injection Hamt as <-.
  exists ts, amt, cutoff, (default [] (transaction_history self !! uid)), kept.
  split; [reflexivity|]. split; [reflexivity|]. split; [auto|].
  split; [reflexivity|].
  unfold history_of in *.
  destruct (transaction_history self !! uid) as [old|] eqn:Eold; cbn in *.
  - rewrite Eold in Hkept. cbn in Hkept. rewrite lookup_insert_eq in Hkept.
    cbn in Hkept. split; [auto|].
    rewrite Eold. cbn. rewrite !insert_insert_eq.
    repeat split.
  - rewrite lookup_insert_eq in Hkept. cbn in Hkept.
    rewrite lookup_insert_eq in Hkept. cbn in Hkept. split; [auto|].
    rewrite lookup_insert_eq. cbn. rewrite !insert_insert_eq.
    repeat split.
Qed.

(** ** The history store *)

(** C3: once [update_transaction_history] has returned for a transaction
    stamped [now], every record kept for that entity carries a datetime
    that is not earlier than [now] minus seven days. *)
Theorem update_evicts_old_records uid txn self self' :
  update_transaction_history uid txn self = (Ok tt, self') ->
  exists now kept,
    timestamp txn = Some (TsDatetime now) /\
    transaction_history self' !! uid = Some kept /\
    forall t, t ∈ kept ->
      exists d, h_timestamp t = TsDatetime d /\
                (instant now - timedelta 7 0 <= instant d)%Z.
Proof.
  intros H. apply update_transaction_history_Ok_inv in H
    as (ts & amt & cutoff & old & kept & Hts & _ & Hcut & _ & Hkept & Hh & _).
  destruct ts as [| |now]; try discriminate. cbn in Hcut.
  exists now, kept. split; [exact Hts|].
  split; [rewrite Hh; apply lookup_insert_eq|].
  intros t Ht.
  destruct (comprehension_Ok_elem _ _ _ Hkept t Ht) as [_ Hp].
  unfold in_window, ts_ge in Hp.
  destruct (h_timestamp t) as [| |d]; try discriminate.
  exists d. split; [reflexivity|].
  apply ge_inv in Hp as [_ Hle]. symmetry in Hle. apply Z.leb_le in Hle.
  apply sub_inv in Hcut as (_ & Hi & _). lia.
Qed.

Lemma update_evicts_old_records_witness :
  exists kept,
    transaction_history
      (snd (update_transaction_history "U2"
              (mk_transaction None (Some "U2") None (Some 20%Q)
                 (Some (TsDatetime
                    (naive (Samples.new_year + timedelta 7 0
                            - 30 * Samples.minute)))))
              Samples.detector_u2)) !! "U2" = Some kept /\
    length kept = 4 /\
    forall t, t ∈ kept ->
      exists d, h_timestamp t = TsDatetime d /\
                (Samples.new_year - 30 * Samples.minute <= instant d)%Z.
Proof.
  edestruct (update_evicts_old_records "U2"
               (mk_transaction None (Some "U2") None (Some 20%Q)
                  (Some (TsDatetime
                     (naive (Samples.new_year + timedelta 7 0
                             - 30 * Samples.minute)))))
               Samples.detector_u2)
    as (now & kept & Hnow & Hkept & Hall); [vm_compute; reflexivity|].
  exists kept. split; [exact Hkept|]. split.
  - vm_compute in Hkept. injection Hkept as <-. reflexivity.
  - intros t Ht. destruct (Hall t Ht) as (d & Hd & Hle).
    exists d. split; [exact Hd|]. cbn in Hnow. injection Hnow as <-.
    vm_compute in Hle. vm_compute. exact Hle.
Defined.

(** ** The velocity aggregator *)

Lemma velocity_reads_history uid ts a b :
  transaction_history a = transaction_history b ->
  calculate_velocity_features uid ts a = calculate_velocity_features uid ts b.
Proof. unfold calculate_velocity_features. intros ->. reflexivity. Qed.

Lemma not_after_comparable now history :
  Forall (not_after now) history -> Forall (comparable_record now) history.
Proof.
  intros Hall. eapply Forall_impl; [exact Hall|].
  intros t (d & Hd & Hcmp & _). exists d. auto.
Qed.

Lemma window_is_filter now delta c history :
  Datetime.sub now delta = Ok c ->
  Forall (comparable_record now) history ->
  comprehension (in_window c) history = Ok (List.filter (since now delta) history).
Proof.
  intros Hc Hall. apply comprehension_filter.
  eapply Forall_impl; [exact Hall|].
  intros t (d & Hd & Hcmp). unfold in_window, since. rewrite Hd. cbn.
  rewrite ge_comparable by (rewrite (comparable_sub _ _ _ _ Hc); exact Hcmp).
  apply sub_inv in Hc as (_ & -> & _). reflexivity.
Qed.

Lemma sub_in_range now delta :
  (0 <= delta <= timedelta 7 0)%Z ->
  (timedelta 7 0 <= wall now < wall_limit)%Z ->
  Datetime.sub now delta = Ok (mk_datetime (wall now - delta) (utcoffset now)).
Proof.
  intros Hd Hw. unfold Datetime.sub, in_range.
  destruct (0 <=? wall now - delta)%Z eqn:E1;
    [|apply Z.leb_gt in E1; lia].
  destruct (wall now - delta <? wall_limit)%Z eqn:E2;
    [reflexivity | apply Z.ltb_ge in E2; lia].
Qed.

(** With [now] at least seven days after [datetime.min] and a history of
    datetimes comparable with it, the aggregator returns, and its three
    windows are filters of the history. *)
Lemma velocity_of_history uid now history self :
  transaction_history self !! uid = Some history ->
  (timedelta 7 0 <= wall now < wall_limit)%Z ->
  Forall (comparable_record now) history ->
  exists v,
    calculate_velocity_features uid (TsDatetime now) self = Ok v /\
    txn_count_1h v = length (List.filter (since now (timedelta 0 1)) history) /\
    txn_count_24h v = length (List.filter (since now (timedelta 1 0)) history) /\
    txn_count_7d v = length (List.filter (since now (timedelta 7 0)) history).
Proof.
  intros Hh Hw Hall. unfold calculate_velocity_features. rewrite Hh.
  assert (H1 := sub_in_range now (timedelta 0 1)).
  assert (H2 := sub_in_range now (timedelta 1 0)).
  assert (H3 := sub_in_range now (timedelta 7 0)).
  specialize (H1 ltac:(vm_compute; split; discriminate) Hw).
  specialize (H2 ltac:(vm_compute; split; discriminate) Hw).
  specialize (H3 ltac:(vm_compute; split; discriminate) Hw).
  unfold ts_sub. rewrite H1, H2, H3. unfold mbind, outcome_bind.
  rewrite (window_is_filter _ _ _ _ H1 Hall).
  rewrite (window_is_filter _ _ _ _ H2 Hall).
  rewrite (window_is_filter _ _ _ _ H3 Hall).
  eexists. split; [reflexivity|]. cbn. repeat split.
Qed.

Lemma last_hour_is_window now history :
  Forall (not_after now) history ->
  List.filter (since now (timedelta 0 1)) history
  = List.filter (in_last_hour now) history.
Proof.
  induction 1 as [|t l (d & Hd & Hcmp & Hle) _ IH]; cbn; [reflexivity|].
  rewrite IH. unfold since, in_last_hour. rewrite Hd, Hcmp. cbn.
  apply Z.leb_le in Hle. rewrite Hle, andb_true_r. reflexivity.
Qed.

Lemma rule_factor_reported e draw x :
  x ∈ rule_factors e -> x ∈ _identify_risk_factors e draw.
Proof.
  intros Hx. unfold _identify_risk_factors.
  destruct (rule_factors e ++ _) as [|y l] eqn:E.
  - apply app_eq_nil in E as [E _]. rewrite E in Hx. inversion Hx.
  - rewrite <- E. apply elem_of_app. left. exact Hx.
Qed.

Lemma velocity_rule_fires e v :
  e_velocity e = Some v -> 5 < txn_count_1h v ->
  velocity_factor ∈ rule_factors e.
Proof.
  intros Hv Hc. unfold rule_factors. rewrite Hv.
  apply Nat.ltb_lt in Hc. rewrite Hc.
  apply elem_of_app. right. apply elem_of_app. left. apply list_elem_of_here.
Qed.

(** C8 (as amended): if the stored history of an entity holds exactly six
    records in the hour that ends at the current transaction's timestamp,
    and none later, then [calculate_velocity_features] at that timestamp
    reports [txn_count_1h = 6]: the current transaction is not in the
    history yet and is not counted.  Six exceeds the 5-per-hour rule, so
    the factors that [predict] reports for that transaction include the
    high-velocity one. *)
Theorem six_in_last_hour uid now history self :
  transaction_history self !! uid = Some history ->
  (timedelta 7 0 <= wall now < wall_limit)%Z ->
  Forall (not_after now) history ->
  length (List.filter (in_last_hour now) history) = 6 ->
  (exists v,
     calculate_velocity_features uid (TsDatetime now) self = Ok v /\
     txn_count_1h v = 6) /\
  (forall env raw txn r,
     parse_timestamp env raw = Ok txn ->
     timestamp txn = Some (TsDatetime now) ->
     user_id raw = Some uid ->
     fst (predict env raw self) = Ok r ->
     velocity_factor ∈ risk_factors r).
Proof.
  intros Hh Hw Hall Hsix.
  destruct (velocity_of_history uid now history self Hh Hw
              (not_after_comparable _ _ Hall)) as (v & Hv & Hc & _).
  rewrite (last_hour_is_window _ _ Hall), Hsix in Hc.
  split; [exists v; split; assumption|].
  intros env raw txn r Hparse Hts Huid H.
  apply fst_predict_Ok in H as [self' H].
  apply predict_Ok_inv in H
    as (txn' & e & mid & uid' & ts & v' & Hparse' & He & Huid' & Hts' & Hv'
        & _ & _ & _ & _ & _ & _ & _ & _ & Hf & _).
  rewrite Hparse in Hparse'. injection Hparse' as <-.
  rewrite Hts in Hts'. injection Hts' as <-.
  assert (uid' = uid) as ->.
  { unfold parse_timestamp in Hparse.
    destruct (timestamp raw) as [[|[p|]|d]|]; inversion Hparse; subst;
      cbn in Huid'; congruence. }
  destruct (enrich_transaction_Ok env txn self)
    as (e0 & mid0 & He0 & _ & Hhist & _ & _).
  rewrite He in He0. injection He0 as <- <-.
  rewrite (velocity_reads_history uid _ mid self Hhist), Hv in Hv'.
  injection Hv' as <-.
  rewrite Hf. apply rule_factor_reported.
  apply (velocity_rule_fires _ v); [reflexivity | lia].
Qed.

Lemma six_in_last_hour_witness :
  exists v r,
    calculate_velocity_features "U2" (TsDatetime (naive Samples.new_year))
      Samples.detector_u2 = Ok v /\
    fst (predict (Samples.answers 0.1 0.1 0.5) Samples.txn_u2
           Samples.detector_u2) = Ok r /\
    txn_count_1h v = 6 /\
    velocity_factor ∈ risk_factors r.
Proof.
  edestruct (six_in_last_hour "U2" (naive Samples.new_year)
               Samples.history_u2 Samples.detector_u2)
    as [(v & Hv & Hc) Hf].
  - vm_compute. reflexivity.
  - vm_compute. split; [discriminate | reflexivity].
  - repeat constructor;
      (eexists; split; [reflexivity|]; split; [reflexivity|];
       vm_compute; discriminate).
  - vm_compute. reflexivity.
  - exists v. eexists. split; [exact Hv|].
    split; [vm_compute; reflexivity|]. split; [exact Hc|].
    eapply (Hf (Samples.answers 0.1 0.1 0.5) Samples.txn_u2);
      [reflexivity | reflexivity | reflexivity | vm_compute; reflexivity].
Defined.

(** C8, refuted as stated: with six stored records in the preceding hour,
    the aggregator reports a one-hour count of 6, not 7. *)
Lemma seventh_transaction_not_counted :
  exists v,
    length (List.filter (in_last_hour (naive Samples.new_year))
              Samples.history_u2) = 6 /\
    length Samples.history_u2 = 6 /\
    calculate_velocity_features "U2" (TsDatetime (naive Samples.new_year))
      Samples.detector_u2 = Ok v /\
    txn_count_1h v = 6 /\
    txn_count_1h v <> 7.
Proof.
  eexists.
  split; [vm_compute; reflexivity|]. split; [reflexivity|].
  split; [vm_compute; reflexivity|].
  cbn. split; [reflexivity | discriminate].
Qed.

(** C9: for an entity without stored history the aggregator returns the
    all-zero statistics, whatever the reference time, and raises nothing;
    and whenever it returns, the 24-hour average is a number, which is 0
    when the 24-hour window holds no record. *)
Theorem velocity_of_unseen_entity uid current_time self :
  (transaction_history self !! uid = None ->
   calculate_velocity_features uid current_time self
   = Ok (mk_velocity 0 0 0 0%Q 0%Q 0%Q (Some 0%Q))) /\
  (forall v,
     calculate_velocity_features uid current_time self = Ok v ->
     avg_amount_24h v <> None /\
     (txn_count_24h v = 0 -> avg_amount_24h v = Some 0%Q)).
Proof.
  unfold calculate_velocity_features. split.
  - intros ->. reflexivity.
  - intros v H.
    destruct (transaction_history self !! uid) as [history|].
    + destruct (ts_sub current_time (timedelta 0 1)) as [one_hour_ago|];
        cbn in H; [|discriminate H].
      destruct (ts_sub current_time (timedelta 1 0)) as [one_day_ago|];
        cbn in H; [|discriminate H].
      destruct (ts_sub current_time (timedelta 7 0)) as [seven_days_ago|];
        cbn in H; [|discriminate H].
      destruct (comprehension (in_window one_hour_ago) history) as [txns_1h|];
        cbn in H; [|discriminate H].
      destruct (comprehension (in_window one_day_ago) history) as [txns_24h|];
        cbn in H; [|discriminate H].
      destruct (comprehension (in_window seven_days_ago) history) as [txns_7d|];
        cbn in H; [|discriminate H].
      injection H as <-. cbn.
      destruct txns_24h; cbn; split; try discriminate; reflexivity.
    + injection H as <-. cbn. split; [discriminate | reflexivity].
Qed.

Lemma velocity_of_unseen_entity_witness :
  calculate_velocity_features "U1" TsNone Samples.default_detector
  = Ok (mk_velocity 0 0 0 0%Q 0%Q 0%Q (Some 0%Q)) /\
  avg_amount_24h zero_velocity = Some 0%Q.
Proof.
  destruct (velocity_of_unseen_entity "U1" TsNone Samples.default_detector)
    as [Hunseen Havg].
  split.
  - apply Hunseen. reflexivity.
  - apply (Havg zero_velocity); [apply Hunseen|]; reflexivity.
Defined.

(** ** The explainer *)

Lemma Qltb_true a b : Qltb a b = true <-> (a < b)%Q.
Proof.
  unfold Qltb. destruct (Qle_bool b a) eqn:E; cbn.
  - apply Qle_bool_iff in E. split; [discriminate | intros; lra].
  - split; [intros _ | reflexivity].
    apply Qnot_le_lt. intros Hle. apply Qle_bool_iff in Hle. congruence.
Qed.

Lemma rule_factors_not_geographic e : geographic_factor ∉ rule_factors e.
Proof.
  unfold rule_factors.
  repeat match goal with
         | |- context [if ?b then _ else _] => destruct b
         end;
    cbn; intros H;
    repeat match goal with
           | H : _ ∈ _ :: _ |- _ => apply elem_of_cons in H as [H|H]
           | H : _ ∈ [] |- _ => inversion H
           | H : geographic_factor = _ |- _ => discriminate H
           end.
Qed.

(** C5 (as amended): the explainer is a function of the enriched
    transaction and of the number it draws from [np.random.random()].  Two
    invocations on the same enriched transaction return the same ordered
    list whenever their draws fall on the same side of 0.1, and the
    geographic-anomaly entry is reported exactly when the draw is below
    0.1. *)
Theorem explainer_determined_by_draw e draw draw' :
  (((draw < 0.1)%Q <-> (draw' < 0.1)%Q) ->
   _identify_risk_factors e draw = _identify_risk_factors e draw') /\
  (geographic_factor ∈ _identify_risk_factors e draw <-> (draw < 0.1)%Q).
Proof.
  split.
  - intros Hside. unfold _identify_risk_factors.
    assert (Qltb draw 0.1 = Qltb draw' 0.1) as ->; [|reflexivity].
    destruct (Qltb draw 0.1) eqn:E, (Qltb draw' 0.1) eqn:E'; try reflexivity.
    + apply Qltb_true in E. apply Hside, Qltb_true in E. congruence.
    + apply Qltb_true in E'. apply Hside, Qltb_true in E'. congruence.
  - pose proof (rule_factors_not_geographic e) as Hnot.
    unfold _identify_risk_factors.
    destruct (Qltb draw 0.1) eqn:E.
    + apply Qltb_true in E. split; [intros _; exact E | intros _].
      destruct (rule_factors e ++ [geographic_factor]) as [|x l] eqn:El.
      * apply app_eq_nil in El as [_ El]. discriminate El.
      * rewrite <- El. apply elem_of_app. right. apply list_elem_of_here.
    + assert (Hge : ~ (draw < 0.1)%Q).
      { intros Hlt. apply Qltb_true in Hlt. congruence. }
      split; [|intros Hlt; contradiction].
      intros Hin. exfalso. rewrite app_nil_r in Hin.
      destruct (rule_factors e) as [|x l] eqn:El.
      * apply elem_of_cons in Hin as [Hin|Hin];
          [discriminate Hin | inversion Hin].
      * contradiction.
Qed.

Lemma explainer_determined_by_draw_witness :
  _identify_risk_factors Samples.quiet 0.5 = _identify_risk_factors Samples.quiet 0.9.
Proof.
  apply (explainer_determined_by_draw Samples.quiet 0.5 0.9).
  split; intros H; vm_compute in H; discriminate H.
Defined.

(** C5, refuted as stated: on one and the same enriched transaction the
    explainer returns two different lists for the draws 0.05 and 0.5. *)
Lemma explainer_not_deterministic :
  _identify_risk_factors Samples.quiet 0.05 = [geographic_factor] /\
  _identify_risk_factors Samples.quiet 0.5 = [no_factor] /\
  _identify_risk_factors Samples.quiet 0.05
  <> _identify_risk_factors Samples.quiet 0.5.
Proof.
  split; [vm_compute; reflexivity|]. split; [vm_compute; reflexivity|].
  vm_compute. discriminate.
Qed.

(** ** Batches *)

Lemma guarded_predict env txn self :
  try_except (bind (predict env txn) (fun r => ret (Scored r)))
             (fun e => ret (error_slot txn e)) self
  = (Ok (slot_of txn (fst (predict env txn self))), snd (predict env txn self)).
Proof.
  unfold try_except, bind, ret.
  destruct (predict env txn self) as [[r|e] self']; reflexivity.
Qed.

Lemma batch_loop_slots envs transactions :
  forall k results self,
    batch_loop envs k transactions results self
    = (Ok (results ++ batch_slots envs k transactions self),
       run_state envs k transactions self).
Proof.
  induction transactions as [|txn rest IH]; intros k results self; cbn.
  - unfold ret. rewrite app_nil_r. reflexivity.
  - unfold bind at 1. rewrite guarded_predict, IH, <- app_assoc. reflexivity.
Qed.

Lemma batch_slots_length envs transactions :
  forall k self,
    length (batch_slots envs k transactions self) = length transactions.
Proof.
  induction transactions as [|txn rest IH]; intros k self; cbn;
    [reflexivity | rewrite IH; reflexivity].
Qed.

Lemma batch_slots_lookup envs transactions :
  forall k self i txn,
    transactions !! i = Some txn ->
    batch_slots envs k transactions self !! i
    = Some (slot_of txn
              (fst (predict (envs (k + i)) txn
                      (run_state envs k (take i transactions) self)))).
Proof.
  induction transactions as [|t rest IH]; intros k self i txn Hi.
  - rewrite lookup_nil in Hi. discriminate Hi.
  - destruct i as [|i]; cbn in *.
    + injection Hi as ->. rewrite Nat.add_0_r. reflexivity.
    + rewrite (IH (S k) _ i txn Hi). rewrite Nat.add_succ_r. reflexivity.
Qed.

(** C6: [batch_predict] on N transactions returns N slots, the i-th being
    made from the i-th transaction: the result of [predict] when it
    returns one, and otherwise an error slot holding the transaction id
    and the exception, no scores.  Each call runs on the detector left by
    the calls before it, failed or not, so no failure ends the batch. *)
Theorem batch_predict_slotwise envs transactions self :
  exists results,
    batch_predict envs transactions self
    = (Ok results,
       state_before envs transactions (length transactions) self) /\
    length results = length transactions /\
    forall i txn,
      transactions !! i = Some txn ->
      match fst (predict (envs i) txn
                   (state_before envs transactions i self)) with
      | Ok r => results !! i = Some (Scored r)
      | Raise e =>
          results !! i
          = Some (Failed (default "UNKNOWN"%string (transaction_id txn)) e)
      end.
Proof.
  exists (batch_slots envs 0 transactions self).
  unfold batch_predict, state_before.
  rewrite batch_loop_slots, firstn_all, app_nil_l.
  split; [reflexivity|]. split; [apply batch_slots_length|].
  intros i txn Hi.
  pose proof (batch_slots_lookup envs transactions 0 self i txn Hi) as Hslot.
  cbn [Nat.add] in Hslot. revert Hslot.
  destruct (fst (predict (envs i) txn _)); intros Hslot; exact Hslot.
Qed.

Lemma batch_predict_slotwise_witness :
  exists r r',
    fst (batch_predict (fun _ => Samples.answers 0.9 0.2 0.5)
           [Samples.txn_u1; Samples.txn_no_user; Samples.txn_u1]
           Samples.default_detector)
    = Ok [Scored r; Failed "TXN2" (KeyError "user_id"); Scored r'].
Proof.
  destruct (batch_predict_slotwise (fun _ => Samples.answers 0.9 0.2 0.5)
              [Samples.txn_u1; Samples.txn_no_user; Samples.txn_u1]
              Samples.default_detector) as (results & Hrun & Hlen & Hslot).
  rewrite Hrun. cbn [fst].
  destruct results as [|s0 [|s1 [|s2 [|s3 rest]]]]; try discriminate Hlen.
  pose proof (Hslot 0 _ eq_refl) as H0.
  pose proof (Hslot 1 _ eq_refl) as H1.
  pose proof (Hslot 2 _ eq_refl) as H2.
  vm_compute in H0, H1, H2.
  injection H0 as ->. injection H1 as ->. injection H2 as ->.
  eexists. eexists. reflexivity.
Defined.

(** ** State left behind by a rejected transaction *)

Lemma parse_timestamp_ids env raw txn :
  parse_timestamp env raw = Ok txn ->
  user_id txn = user_id raw /\ merchant_id txn = merchant_id raw.
Proof.
  unfold parse_timestamp.
  destruct (timestamp raw) as [[|[p|]|d]|]; intros H; inversion H; subst;
    split; reflexivity.
Qed.

Lemma enrich_transaction_frame env txn self e mid :
  enrich_transaction env txn self = (Ok e, mid) ->
  (forall k, k <> user_id txn ->
     user_metadata mid !! k = user_metadata self !! k) /\
  (forall k, k <> merchant_id txn ->
     merchant_metadata mid !! k = merchant_metadata self !! k).
Proof.
  unfold enrich_transaction, bind, ret.
  destruct (user_metadata self !! user_id txn) as [um|] eqn:Hu;
  destruct (merchant_metadata self !! merchant_id txn) as [mm|] eqn:Hm;
  cbn; rewrite ?Hm; cbn; intros H; inversion H; subst; cbn;
  split; intros k Hk; try reflexivity;
  rewrite lookup_insert_ne by congruence; reflexivity.
Qed.

(** Whatever its outcome, [update_transaction_history] touches nothing but
    the history of [uid]. *)
Lemma update_transaction_history_frame uid txn self o self' :
  update_transaction_history uid txn self = (o, self') ->
  same_config self self' /\
  user_metadata self' = user_metadata self /\
  merchant_metadata self' = merchant_metadata self /\
  forall other, other <> uid ->
    transaction_history self' !! other = transaction_history self !! other.
Proof.
  unfold update_transaction_history, bind, modify, lift, reads, history_of.
  intros H.
  repeat match type of H with
         | context [match ?x with _ => _ end] => destruct x eqn:?
         end;
    inversion H; subst; cbn;
    (split; [repeat split|]); (split; [reflexivity|]);
    (split; [reflexivity|]);
    intros other Hne; rewrite ?lookup_insert_ne by congruence; reflexivity.
Qed.

(** Where the detector can be left by a [predict] call. *)
Lemma predict_final_state env raw self o self' :
  predict env raw self = (o, self') ->
  (parse_timestamp env raw = Raise ValueError /\ o = Raise ValueError
   /\ self' = self) \/
  exists txn e mid,
    parse_timestamp env raw = Ok txn /\
    enrich_transaction env txn self = (Ok e, mid) /\
    ((user_id txn = None /\ self' = mid) \/
     (exists uid, user_id txn = Some uid /\
        (self' = mid \/
         exists o', update_transaction_history uid txn mid = (o', self')))).
Proof.
  unfold predict. intros H.
  apply bind_inv in H as [(ex & Hc & ->) | (txn & s0 & Hp & H)].
  { left. apply lift_inv in Hc as [Hc ->]. unfold parse_timestamp in *.
    destruct (timestamp raw) as [[|[p|]|d]|]; inversion Hc; subst.
    repeat split. }
  apply lift_inv in Hp as [Hp ->]. symmetry in Hp. right.
  destruct (enrich_transaction_Ok env txn self) as (e & mid & He & _).
  exists txn, e, mid. split; [exact Hp|]. split; [exact He|].
  apply bind_inv in H as [(ex & Hc & ->) | (e' & mid' & He' & H)];
    [congruence|].
  rewrite He in He'. injection He' as <- <-.
  apply bind_inv in H as [(ex & Hc & ->) | (uid & s1 & Hu & H)].
  { left. apply lift_inv in Hc as [Hc ->].
    destruct (user_id txn); [discriminate Hc | split; reflexivity]. }
  apply lift_inv in Hu as [Hu ->]. right. exists uid.
  split; [destruct (user_id txn); inversion Hu; reflexivity|].
  apply bind_inv in H as [(ex & Hc & ->) | (ts & s2 & Hts & H)];
    [apply lift_inv in Hc as [_ ->]; left; reflexivity|].
  apply lift_inv in Hts as [_ ->].
  apply bind_inv in H as [(ex & Hc & ->) | (v & s3 & Hv & H)];
    [apply reads_inv in Hc as [_ ->]; left; reflexivity|].
  apply reads_inv in Hv as [_ ->].
  apply bind_inv in H as [(ex & Hc & ->) | (u & s4 & Htr & H)];
    [apply lift_inv in Hc as [_ ->]; left; reflexivity|].
  apply lift_inv in Htr as [_ ->].
  apply bind_inv in H as [(ex & Hc & ->) | (score & s5 & Hsc & H)];
    [apply reads_inv in Hc as [_ ->]; left; reflexivity|].
  apply reads_inv in Hsc as [_ ->].
  apply bind_inv in H as [(ex & Hc & ->) | (fraud & s6 & Hfr & H)];
    [apply reads_inv in Hc as [_ ->]; left; reflexivity|].
  apply reads_inv in Hfr as [_ ->].
  apply bind_inv in H as [(ex & Hc & ->) | (level & s7 & Hlv & H)];
    [apply reads_inv in Hc as [_ ->]; left; reflexivity|].
  apply reads_inv in Hlv as [_ ->].
  right.
  apply bind_inv in H as [(ex & Hc & ->) | (u' & s8 & Hup & H)];
    [exists (Raise ex); exact Hc|].
  exists (Ok u').
  apply bind_inv in H as [(ex & Hc & ->) | (stamp & s9 & Hst & H)];
    [apply lift_inv in Hc as [_ ->]; exact Hup|].
  apply lift_inv in Hst as [_ ->].
  unfold ret in H. injection H as _ <-. exact Hup.
Qed.

Lemma comprehension_snoc {A : Type} (p : A -> outcome bool) l x kept b :
  comprehension p l = Ok kept -> p x = Ok b ->
  comprehension p (l ++ [x]) = Ok (kept ++ (if b then [x] else [])).
Proof.
  intros Hl Hx. revert kept Hl.
  induction l as [|t l IH]; cbn; intros kept Hl.
  - injection Hl as <-. rewrite Hx. cbn. destruct b; reflexivity.
  - destruct (p t) as [bt|]; cbn in *; [|discriminate Hl].
    destruct (comprehension p l) as [kl|]; cbn in *; [|discriminate Hl].
    injection Hl as <-. rewrite (IH kl eq_refl). cbn.
    destruct bt; reflexivity.
Qed.

Lemma parse_timestamp_amount env raw txn :
  parse_timestamp env raw = Ok txn -> amount txn = amount raw.
Proof.
  unfold parse_timestamp.
  destruct (timestamp raw) as [[|[p|]|d]|]; intros H; inversion H; subst;
    reflexivity.
Qed.

(** A rejected [predict] call stopped before enrichment, after it, or
    inside [update_transaction_history], which then ran on a naive
    datetime for which the velocity step had gone through. *)
Lemma predict_Raise_inv env raw self ex self' :
  predict env raw self = (Raise ex, self') ->
  self' = self \/
  exists txn e mid,
    parse_timestamp env raw = Ok txn /\
    enrich_transaction env txn self = (Ok e, mid) /\
    (self' = mid \/
     exists uid now v,
       user_id txn = Some uid /\
       timestamp txn = Some (TsDatetime now) /\
       utcoffset now = None /\
       calculate_velocity_features uid (TsDatetime now) mid = Ok v /\
       update_transaction_history uid txn mid = (Raise ex, self')).
Proof.
  unfold predict. intros H.
  apply bind_inv in H as [(ex0 & Hc & _) | (txn & s0 & Hp & H)].
  { left. apply lift_inv in Hc as [_ ->]. reflexivity. }
  apply lift_inv in Hp as [Hp ->]. symmetry in Hp. right.
  destruct (enrich_transaction_Ok env txn self)
    as (e & mid & He & _ & _ & Het & _).
  exists txn, e, mid. split; [exact Hp|]. split; [exact He|].
  apply bind_inv in H as [(ex0 & Hc & _) | (e' & mid' & He' & H)];
    [congruence|].
  rewrite He in He'. injection He' as <- <-.
  apply bind_inv in H as [(ex0 & Hc & _) | (uid & s1 & Hu & H)];
    [apply lift_inv in Hc as [_ ->]; left; reflexivity|].
  apply lift_inv in Hu as [Hu ->].
  apply bind_inv in H as [(ex0 & Hc & _) | (ts & s2 & Hts & H)];
    [apply lift_inv in Hc as [_ ->]; left; reflexivity|].
  apply lift_inv in Hts as [Hts ->].
  apply bind_inv in H as [(ex0 & Hc & _) | (v & s3 & Hv & H)];
    [apply reads_inv in Hc as [_ ->]; left; reflexivity|].
  apply reads_inv in Hv as [Hv ->]. symmetry in Hv.
  apply bind_inv in H as [(ex0 & Hc & _) | (u & s4 & Htr & H)];
    [apply lift_inv in Hc as [_ ->]; left; reflexivity|].
  apply lift_inv in Htr as [Htr ->]. symmetry in Htr. destruct u.
  apply bind_inv in H as [(ex0 & Hc & _) | (score & s5 & Hsc & H)];
    [apply reads_inv in Hc as [_ ->]; left; reflexivity|].
  apply reads_inv in Hsc as [_ ->].
  apply bind_inv in H as [(ex0 & Hc & _) | (fraud & s6 & Hfr & H)];
    [apply reads_inv in Hc as [_ ->]; left; reflexivity|].
  apply reads_inv in Hfr as [_ ->].
  apply bind_inv in H as [(ex0 & Hc & _) | (level & s7 & Hlv & H)];
    [apply reads_inv in Hc as [_ ->]; left; reflexivity|].
  apply reads_inv in Hlv as [_ ->].
  right.
  destruct (user_id txn) as [uid'|] eqn:Euid; [|discriminate Hu].
  destruct (timestamp txn) as [ts'|] eqn:Ets; [|discriminate Hts].
  cbn in Hu, Hts. injection Hu as ->. injection Hts as ->.
  assert (Hnaive : exists now, ts' = TsDatetime now /\ utcoffset now = None).
  { unfold transform, with_velocity in Htr. cbn in Htr.
    rewrite Het, Ets in Htr.
    destruct ts' as [| |now]; try discriminate Htr.
    exists now. split; [reflexivity|].
    destruct (utcoffset now); [discriminate Htr | reflexivity]. }
  destruct Hnaive as (now & -> & Hnaive).
  exists uid', now, v.
  apply bind_inv in H as [(ex0 & Hc & Hex) | (u' & s8 & Hup & H)].
  { injection Hex as ->. repeat split; auto. }
  apply bind_inv in H as [(ex0 & Hc & _) | (stamp & s9 & Hst & H)].
  { apply lift_inv in Hc as [Hc _]. discriminate Hc. }
  unfold ret in H. discriminate H.
Qed.

(** What [update_transaction_history] leaves under [uid] when it raises
    after the velocity step went through for the same timestamp. *)
Lemma rejected_update_history uid txn mid ex self' now v :
  timestamp txn = Some (TsDatetime now) ->
  calculate_velocity_features uid (TsDatetime now) mid = Ok v ->
  update_transaction_history uid txn mid = (Raise ex, self') ->
  match transaction_history mid !! uid with
  | Some h => transaction_history self' !! uid = Some h
  | None =>
      (amount txn = None /\ ex = KeyError "amount" /\
       transaction_history self' !! uid = Some []) \/
      (exists amt,
         amount txn = Some amt /\ ex = OverflowError /\
         Datetime.sub now (timedelta 7 0) = Raise OverflowError /\
         transaction_history self' !! uid
         = Some [mk_record (TsDatetime now) amt (merchant_id txn)])
  end.
Proof.
  intros Hts Hv.
  unfold update_transaction_history, bind, modify, lift, reads, history_of.
  rewrite Hts. cbn.
  destruct (transaction_history mid !! uid) as [h|] eqn:Eh.
  - destruct (amount txn) as [amt|]; cbn;
      [|intros H; injection H as _ <-; exact Eh].
    unfold calculate_velocity_features in Hv. rewrite Eh in Hv.
    cbn in Hv.
    destruct (Datetime.sub now (timedelta 0 1)) as [c1|];
      cbn in Hv; [|discriminate Hv].
    destruct (Datetime.sub now (timedelta 1 0)) as [c2|];
      cbn in Hv; [|discriminate Hv].
    destruct (Datetime.sub now (timedelta 7 0)) as [c3|] eqn:E3;
      cbn in Hv; [|discriminate Hv].
    destruct (comprehension (in_window c1) h) as [l1|];
      cbn in Hv; [|discriminate Hv].
    destruct (comprehension (in_window c2) h) as [l2|];
      cbn in Hv; [|discriminate Hv].
    destruct (comprehension (in_window c3) h) as [l3|] eqn:L3;
      cbn in Hv; [|discriminate Hv].
    cbn. rewrite Eh. cbn. rewrite lookup_insert_eq. cbn.
    assert (Hnew : in_window c3 (mk_record (TsDatetime now) amt (merchant_id txn))
                   = Ok (instant c3 <=? instant now)%Z).
    { unfold in_window, ts_ge. cbn. apply ge_comparable.
      apply sub_inv in E3 as (Ho & _). unfold comparable. rewrite Ho.
      destruct (utcoffset now); reflexivity. }
    rewrite (comprehension_snoc _ _ _ _ _ L3 Hnew). cbn.
    intros H. discriminate H.
  - cbn. destruct (amount txn) as [amt|]; cbn.
    + rewrite !lookup_insert_eq. cbn.
      destruct (Datetime.sub now (timedelta 7 0)) as [c3|] eqn:E3; cbn.
      * rewrite ?lookup_insert_eq. cbn.
        assert (Hnew : in_window c3
                         (mk_record (TsDatetime now) amt (merchant_id txn))
                       = Ok (instant c3 <=? instant now)%Z).
        { unfold in_window, ts_ge. cbn. apply ge_comparable.
          apply sub_inv in E3 as (Ho & _). unfold comparable. rewrite Ho.
          destruct (utcoffset now); reflexivity. }
        unfold in_window, ts_ge in Hnew. cbn in Hnew.
        unfold in_window, ts_ge. cbn. rewrite Hnew. cbn.
        intros H. discriminate H.
      * intros H. injection H as <- <-. right. exists amt.
        split; [reflexivity|].
        assert (e = OverflowError) as ->.
        { unfold Datetime.sub in E3.
          destruct (in_range (wall now - timedelta 7 0)); congruence. }
        split; [reflexivity|]. split; [reflexivity|].
        cbn. rewrite lookup_insert_eq. reflexivity.
    + intros H. injection H as <- <-. left.
      split; [reflexivity|]. split; [reflexivity|].
      cbn. rewrite lookup_insert_eq. reflexivity.
Qed.

(** The stored histories after a rejected call. *)
Lemma rejected_predict_histories env raw self ex self' :
  predict env raw self = (Raise ex, self') ->
  (forall uid h,
     transaction_history self !! uid = Some h ->
     transaction_history self' !! uid = Some h) /\
  (forall uid,
     transaction_history self !! uid = None ->
     transaction_history self' !! uid = None \/
     (user_id raw = Some uid /\
      ((amount raw = None /\ ex = KeyError "amount" /\
        transaction_history self' !! uid = Some []) \/
       (exists txn now amt,
          parse_timestamp env raw = Ok txn /\
          timestamp txn = Some (TsDatetime now) /\
          utcoffset now = None /\
          amount raw = Some amt /\
          Datetime.sub now (timedelta 7 0) = Raise OverflowError /\
          ex = OverflowError /\
          transaction_history self' !! uid
          = Some [mk_record (TsDatetime now) amt (merchant_id raw)])))).
Proof.
  intros H.
  apply predict_Raise_inv in H
    as [-> | (txn & e & mid & Hp & He & Hcases)].
  { split; [intros uid h Hh; exact Hh | intros uid Hn; left; exact Hn]. }
  destruct (parse_timestamp_ids _ _ _ Hp) as [Huid Hmid].
  pose proof (parse_timestamp_amount _ _ _ Hp) as Hamt.
  destruct (enrich_transaction_Ok env txn self)
    as (e0 & mid0 & He0 & _ & Hhist & _).
  rewrite He in He0. injection He0 as <- <-.
  destruct Hcases as [-> | (uid & now & v & Hu & Hts & Hn & Hv & Hup)].
  { rewrite Hhist.
    split; [intros uid h Hh; exact Hh | intros uid Hnone; left; exact Hnone]. }
  pose proof (rejected_update_history _ _ _ _ _ _ _ Hts Hv Hup) as Hown.
  apply update_transaction_history_frame in Hup as (_ & _ & _ & Hother).
  rewrite Hhist in Hown.
  split.
  - intros uid0 h Hh. destruct (decide (uid0 = uid)) as [-> | Hne].
    + rewrite Hh in Hown. exact Hown.
    + rewrite (Hother uid0 Hne), Hhist. exact Hh.
  - intros uid0 Hnone. destruct (decide (uid0 = uid)) as [-> | Hne].
    + right. rewrite Hnone in Hown.
      split; [congruence|].
      destruct Hown as [(Ha & Hex & Hl) | (amt & Ha & Hex & Hsub & Hl)].
      * left. split; [congruence|]. split; [exact Hex | exact Hl].
      * right. exists txn, now, amt.
        split; [exact Hp|]. split; [exact Hts|]. split; [exact Hn|].
        split; [congruence|]. split; [exact Hsub|]. split; [exact Hex|].
        rewrite <- Hmid. exact Hl.
    + left. rewrite (Hother uid0 Hne), Hhist. exact Hnone.
Qed.

Lemma enrich_transaction_caches env txn self e mid :
  enrich_transaction env txn self = (Ok e, mid) ->
  (user_metadata mid = user_metadata self \/
   user_metadata self !! user_id txn = None /\
   user_metadata mid
   = <[user_id txn := lookup_user env]> (user_metadata self)) /\
  (merchant_metadata mid = merchant_metadata self \/
   merchant_metadata self !! merchant_id txn = None /\
   merchant_metadata mid
   = <[merchant_id txn := lookup_merchant env]> (merchant_metadata self)).
Proof.
  unfold enrich_transaction, bind, ret.
  destruct (user_metadata self !! user_id txn) as [um|] eqn:Hu;
  destruct (merchant_metadata self !! merchant_id txn) as [mm|] eqn:Hm;
  cbn; rewrite ?Hm; cbn; intros H; inversion H; subst; cbn;
  split; auto.
Qed.

(** The caches after a rejected call: as before, or with the entry that
    enrichment looked up for the transaction's own id. *)
Lemma rejected_predict_caches env raw self ex self' :
  predict env raw self = (Raise ex, self') ->
  (user_metadata self' = user_metadata self \/
   user_metadata self !! user_id raw = None /\
   user_metadata self'
   = <[user_id raw := lookup_user env]> (user_metadata self)) /\
  (merchant_metadata self' = merchant_metadata self \/
   merchant_metadata self !! merchant_id raw = None /\
   merchant_metadata self'
   = <[merchant_id raw := lookup_merchant env]> (merchant_metadata self)).
Proof.
  intros H.
  apply predict_Raise_inv in H
    as [-> | (txn & e & mid & Hp & He & Hcases)]; [split; left; reflexivity|].
  destruct (parse_timestamp_ids _ _ _ Hp) as [Huid Hmid].
  pose proof (enrich_transaction_caches _ _ _ _ _ He) as Hc.
  rewrite Huid, Hmid in Hc.
  destruct Hcases as [-> | (uid & now & v & _ & _ & _ & _ & Hup)];
    [exact Hc|].
  apply update_transaction_history_frame in Hup as (_ & -> & -> & _).
  exact Hc.
Qed.

(** The configuration, the caches and the other entities' histories after
    a rejected call. *)
Lemma rejected_predict_frame env raw self ex self' :
  predict env raw self = (Raise ex, self') ->
  same_config self self' /\
  user_metadata self ⊆ user_metadata self' /\
  merchant_metadata self ⊆ merchant_metadata self' /\
  (forall k, k <> user_id raw ->
     user_metadata self' !! k = user_metadata self !! k) /\
  (forall k, k <> merchant_id raw ->
     merchant_metadata self' !! k = merchant_metadata self !! k) /\
  (user_id raw = None ->
   transaction_history self' = transaction_history self) /\
  (forall uid other, user_id raw = Some uid -> other <> uid ->
     transaction_history self' !! other = transaction_history self !! other).
Proof.
  intros H.
  apply predict_final_state in H
    as [(_ & _ & ->) | (txn & e & mid & Hp & He & Hcases)].
  { split; [apply same_config_refl|]. repeat split; reflexivity. }
  destruct (parse_timestamp_ids _ _ _ Hp) as [Huid Hmid].
  destruct (enrich_transaction_frame _ _ _ _ _ He) as [Hfu Hfm].
  rewrite Huid in Hfu. rewrite Hmid in Hfm.
  destruct (enrich_transaction_Ok env txn self)
    as (e0 & mid0 & He0 & Hcfg & Hhist & _ & _ & _ & _ & Hsu & Hsm).
  rewrite He in He0. injection He0 as <- <-.
  assert (Hmid_ok :
    same_config self mid /\
    user_metadata self ⊆ user_metadata mid /\
    merchant_metadata self ⊆ merchant_metadata mid /\
    (forall k, k <> user_id raw ->
       user_metadata mid !! k = user_metadata self !! k) /\
    (forall k, k <> merchant_id raw ->
       merchant_metadata mid !! k = merchant_metadata self !! k) /\
    (user_id raw = None ->
     transaction_history mid = transaction_history self) /\
    (forall uid other, user_id raw = Some uid -> other <> uid ->
       transaction_history mid !! other = transaction_history self !! other)).
  { repeat split; try apply Hcfg; auto.
    intros uid other _ _. rewrite Hhist. reflexivity. }
  destruct Hcases as [[_ ->] | (uid & Hu & [-> | (o' & Hup)])];
    [exact Hmid_ok | exact Hmid_ok |].
  apply update_transaction_history_frame in Hup as (Hcfg' & Hu' & Hm' & Hh').
  rewrite Hu', Hm'.
  split; [eapply same_config_trans; eassumption|].
  split; [exact Hsu|]. split; [exact Hsm|]. split; [exact Hfu|].
  split; [exact Hfm|]. split.
  - intros Hnone. congruence.
  - intros uid' other Huid' Hne.
    assert (uid' = uid) as -> by congruence.
    rewrite (Hh' other Hne), Hhist. reflexivity.
Qed.

(** C7 (as amended): a transaction whose timestamp string cannot be parsed
    is rejected with the detector unchanged.  Every other rejected
    transaction leaves the configuration, every cache entry that existed
    before and every history list that existed before exactly as they
    were, the history of the transaction's own user included.  What a
    rejected call can add is: the cache entries that enrichment looked
    up for the transaction's user and merchant ids; and, for a user who
    had no history list, either an empty list (the amount is missing,
    [KeyError('amount')]) or the one record of the rejected transaction
    (its naive timestamp lies within seven days of [datetime.min],
    [OverflowError]).  Nothing is added to the histories when the user id
    is missing. *)
Theorem rejected_predict_state env raw self :
  (timestamp raw = Some (TsStr None) ->
   predict env raw self = (Raise ValueError, self)) /\
  (forall e self',
     predict env raw self = (Raise e, self') ->
     same_config self self' /\
     user_metadata self ⊆ user_metadata self' /\
     merchant_metadata self ⊆ merchant_metadata self' /\
     (forall k, k <> user_id raw ->
        user_metadata self' !! k = user_metadata self !! k) /\
     (forall k, k <> merchant_id raw ->
        merchant_metadata self' !! k = merchant_metadata self !! k) /\
     (user_id raw = None ->
      transaction_history self' = transaction_history self) /\
     (forall uid other, user_id raw = Some uid -> other <> uid ->
        transaction_history self' !! other = transaction_history self !! other) /\
     (forall uid h,
        transaction_history self !! uid = Some h ->
        transaction_history self' !! uid = Some h) /\
     (forall uid,
        transaction_history self !! uid = None ->
        transaction_history self' !! uid = None \/
        (user_id raw = Some uid /\
         ((amount raw = None /\ e = KeyError "amount" /\
           transaction_history self' !! uid = Some []) \/
          (exists txn now amt,
             parse_timestamp env raw = Ok txn /\
             timestamp txn = Some (TsDatetime now) /\
             utcoffset now = None /\
             amount raw = Some amt /\
             Datetime.sub now (timedelta 7 0) = Raise OverflowError /\
             e = OverflowError /\
             transaction_history self' !! uid
             = Some [mk_record (TsDatetime now) amt (merchant_id raw)])))) /\
     (user_metadata self' = user_metadata self \/
      user_metadata self !! user_id raw = None /\
      user_metadata self'
      = <[user_id raw := lookup_user env]> (user_metadata self)) /\
     (merchant_metadata self' = merchant_metadata self \/
      merchant_metadata self !! merchant_id raw = None /\
      merchant_metadata self'
      = <[merchant_id raw := lookup_merchant env]> (merchant_metadata self))).
Proof.
  split.
  { intros Hts. unfold predict, bind, lift, parse_timestamp.
    rewrite Hts. reflexivity. }
  intros ex self' H.
  destruct (rejected_predict_frame _ _ _ _ _ H)
    as (Hcfg & Hsu & Hsm & Hfu & Hfm & Hnone & Hother).
  destruct (rejected_predict_histories _ _ _ _ _ H) as (Hkept & Hnew).
  destruct (rejected_predict_caches _ _ _ _ _ H) as (Hcu & Hcm).
  repeat (split; [assumption|]). exact Hcm.
Qed.

Lemma rejected_predict_state_witness :
  predict (Samples.answers 0.9 0.2 0.5) Samples.txn_bad_timestamp
    Samples.default_detector
  = (Raise ValueError, Samples.default_detector) /\
  exists self',
    predict (Samples.answers 0.9 0.2 0.5)
      (mk_transaction (Some "TXN8"%string) (Some "U2"%string)
         (Some "M1"%string) None None)
      Samples.detector_u2
    = (Raise (KeyError "amount"), self') /\
    transaction_history self' !! "U2"%string = Some Samples.history_u2.
Proof.
  split.
  - apply (rejected_predict_state (Samples.answers 0.9 0.2 0.5)
             Samples.txn_bad_timestamp Samples.default_detector).
    reflexivity.
  - assert (Hrun : exists self',
              predict (Samples.answers 0.9 0.2 0.5)
                (mk_transaction (Some "TXN8"%string) (Some "U2"%string)
                   (Some "M1"%string) None None)
                Samples.detector_u2
              = (Raise (KeyError "amount"), self'))
      by (eexists; vm_compute; reflexivity).
    destruct Hrun as [self' Hrun]. exists self'. split; [exact Hrun|].
    destruct (proj2 (rejected_predict_state (Samples.answers 0.9 0.2 0.5)
                       (mk_transaction (Some "TXN8"%string)
                          (Some "U2"%string) (Some "M1"%string) None None)
                       Samples.detector_u2) _ _ Hrun)
      as (_ & _ & _ & _ & _ & _ & _ & Hkept & _).
    apply Hkept. vm_compute. reflexivity.
Defined.

(** C7, refuted as stated, in the three ways a rejected call changes the
    shared state.  A transaction without ['user_id'] is rejected with
    [KeyError], yet the call has stored a user entry under [None] and a
    merchant entry under ["M1"] in the caches.  A transaction without
    ['amount'] from a user without history is rejected with [KeyError],
    and the user now has an empty history list.  A transaction stamped
    0001-01-03 from a user without history is rejected with
    [OverflowError], and its record is the user's history. *)
Lemma rejected_predict_fills_caches :
  (exists self',
     predict (Samples.answers 0.9 0.2 0.5) Samples.txn_no_user
       Samples.default_detector
     = (Raise (KeyError "user_id"), self') /\
     user_metadata Samples.default_detector !! None = None /\
     user_metadata self' !! None = Some Samples.alice /\
     merchant_metadata Samples.default_detector !! Some "M1"%string = None /\
     merchant_metadata self' !! Some "M1"%string = Some Samples.shop /\
     self' <> Samples.default_detector) /\
  (exists self',
     predict (Samples.answers 0.9 0.2 0.5)
       (mk_transaction (Some "TXN5"%string) (Some "U1"%string)
          (Some "M1"%string) None None)
       Samples.default_detector
     = (Raise (KeyError "amount"), self') /\
     transaction_history Samples.default_detector !! "U1"%string = None /\
     transaction_history self' !! "U1"%string = Some []) /\
  (exists self',
     predict (Samples.answers 0.9 0.2 0.5)
       (mk_transaction (Some "TXN6"%string) (Some "U1"%string)
          (Some "M1"%string) (Some 150%Q)
          (Some (TsDatetime (naive (2 * 86400 * 1000000)))))
       Samples.default_detector
     = (Raise OverflowError, self') /\
     transaction_history Samples.default_detector !! "U1"%string = None /\
     transaction_history self' !! "U1"%string
     = Some [mk_record (TsDatetime (naive (2 * 86400 * 1000000))) 150%Q
               (Some "M1"%string)]).
Proof.
  split; [|split].
  - eexists. split; [vm_compute; reflexivity|].
    split; [reflexivity|]. split; [vm_compute; reflexivity|].
    split; [reflexivity|]. split; [vm_compute; reflexivity|].
    intros Heq. apply (f_equal (fun d => user_metadata d !! None)) in Heq.
    vm_compute in Heq. discriminate Heq.
  - eexists. split; [vm_compute; reflexivity|].
    split; vm_compute; reflexivity.
  - eexists. split; [vm_compute; reflexivity|].
    split; vm_compute; reflexivity.
Qed.

(** The same happens to what the HTTP layer sends when the timestamp is
    omitted (the key holds [None]): [transform] raises [AttributeError]
    after enrichment has run. *)
Example null_timestamp_fills_caches :
  exists self',
    predict (Samples.answers 0.9 0.2 0.5) Samples.txn_null_timestamp
      Samples.default_detector
    = (Raise AttributeError, self') /\
    user_metadata self' !! Some "U1"%string = Some Samples.alice /\
    transaction_history self' = ∅.
Proof.
  eexists. split; [vm_compute; reflexivity|].
  split; vm_compute; reflexivity.
Qed.

(** ** Calls that return *)

Lemma bind_run {A B : Type} (c : M A) (k : A -> M B) self a mid :
  c self = (Ok a, mid) -> bind c k self = k a mid.
Proof. unfold bind. intros ->. reflexivity. Qed.

Lemma comparable_refl now : comparable now now = true.
Proof. unfold comparable. destruct (utcoffset now); reflexivity. Qed.

(** A transaction stamped with a datetime at least seven days after
    [datetime.min] and carrying an amount is always appended, provided
    the entity's stored records are datetimes comparable with it. *)
Lemma update_transaction_history_returns uid txn self now amt :
  timestamp txn = Some (TsDatetime now) ->
  amount txn = Some amt ->
  (timedelta 7 0 <= wall now < wall_limit)%Z ->
  Forall (comparable_record now) (default [] (transaction_history self !! uid)) ->
  exists self', update_transaction_history uid txn self = (Ok tt, self').
Proof.
  intros Hts Hamt Hw Hall.
  pose proof (sub_in_range now (timedelta 7 0)
                ltac:(vm_compute; split; discriminate) Hw) as Hcut.
  assert (Hnew : Forall (comparable_record now)
            (default [] (transaction_history self !! uid)
             ++ [mk_record (TsDatetime now) amt (merchant_id txn)])).
  { apply Forall_app. split; [exact Hall|].
    constructor; [|constructor].
    exists now. split; [reflexivity | apply comparable_refl]. }
  pose proof (window_is_filter _ _ _ _ Hcut Hnew) as Hkept.
  unfold update_transaction_history, bind, modify, lift, reads, history_of.
  rewrite Hts, Hamt. cbn. rewrite Hcut.
  destruct (transaction_history self !! uid) as [old|] eqn:Eold; cbn in *.
  - rewrite Eold. cbn. rewrite lookup_insert_eq. cbn.
    rewrite Hkept. eexists. reflexivity.
  - rewrite !lookup_insert_eq. cbn. rewrite Hkept. eexists. reflexivity.
Qed.

Lemma enrich_transaction_shape env txn self e mid :
  enrich_transaction env txn self = (Ok e, mid) ->
  e_txn e = txn /\ transaction_history mid = transaction_history self.
Proof.
  intros He.
  destruct (enrich_transaction_Ok env txn self)
    as (e0 & mid0 & He0 & _ & Hh & Ht & _).
  rewrite He in He0. injection He0 as <- <-. auto.
Qed.

(** [predict] returns a result for every transaction that names its user
    and amount and whose timestamp, once resolved, is a naive datetime at
    least seven days after [datetime.min], provided the user's stored
    records are naive datetimes too. *)
Lemma predict_returns env raw txn self uid amt now :
  parse_timestamp env raw = Ok txn ->
  timestamp txn = Some (TsDatetime now) ->
  utcoffset now = None ->
  user_id raw = Some uid ->
  amount raw = Some amt ->
  (timedelta 7 0 <= wall now < wall_limit)%Z ->
  Forall (comparable_record now) (default [] (transaction_history self !! uid)) ->
  exists r self', predict env raw self = (Ok r, self').
Proof.
  intros Hp Hts Hnaive Huid Hamt Hw Hall.
  assert (Hids : user_id txn = Some uid /\ amount txn = Some amt).
  { unfold parse_timestamp in Hp.
    destruct (timestamp raw) as [[|[p|]|d]|]; inversion Hp; subst; auto. }
  destruct Hids as [Huid' Hamt'].
  destruct (enrich_transaction_Ok env txn self) as (e & mid & He & _).
  destruct (enrich_transaction_shape _ _ _ _ _ He) as [Het Hh].
  assert (Hv : exists v, calculate_velocity_features uid (TsDatetime now) mid = Ok v).
  { rewrite (velocity_reads_history uid _ mid self Hh).
    destruct (transaction_history self !! uid) as [history|] eqn:Eh.
    - destruct (velocity_of_history uid now history self Eh Hw Hall)
        as (v & Hv & _). exists v. exact Hv.
    - unfold calculate_velocity_features. rewrite Eh. eexists. reflexivity. }
  destruct Hv as [v Hv].
  rewrite <- Hh in Hall.
  destruct (update_transaction_history_returns uid txn mid now amt
              Hts Hamt' Hw Hall) as [self' Hup].
  unfold predict.
  erewrite bind_run by (unfold lift; rewrite Hp; reflexivity).
  erewrite bind_run by exact He.
  erewrite bind_run by (unfold lift; rewrite Huid'; reflexivity).
  erewrite bind_run by (unfold lift; rewrite Hts; reflexivity).
  erewrite bind_run by (unfold reads; rewrite Hv; reflexivity).
  erewrite bind_run
    by (unfold lift, transform, with_velocity; cbn; rewrite Het, Hts, Hnaive;
        reflexivity).
  erewrite bind_run by (unfold reads; reflexivity).
  erewrite bind_run by (unfold reads; reflexivity).
  erewrite bind_run by (unfold reads; reflexivity).
  erewrite bind_run by exact Hup.
  erewrite bind_run by (unfold lift; reflexivity).
  unfold ret. eexists. eexists. reflexivity.
Qed.

(** * Further properties of the detector *)

(** ** The metadata cache *)

(** X1: once [enrich_transaction] has run for a transaction, enriching any
    transaction with the same user and merchant ids returns the same two
    metadata values, whatever a fresh lookup would have answered, and
    leaves the detector exactly as it was. *)
Theorem enrich_transaction_cached env env' txn txn' self e mid :
  enrich_transaction env txn self = (Ok e, mid) ->
  user_id txn' = user_id txn ->
  merchant_id txn' = merchant_id txn ->
  exists e',
    enrich_transaction env' txn' mid = (Ok e', mid) /\
    e_user_metadata e' = e_user_metadata e /\
    e_merchant_metadata e' = e_merchant_metadata e.
Proof.
  intros He Hu Hm.
  destruct (enrich_transaction_Ok env txn self)
    as (e0 & mid0 & He0 & _ & _ & _ & _ & Hum & Hmm & _).
  rewrite He in He0. injection He0 as <- <-.
  assert (Hsu : is_Some (user_metadata mid !! user_id txn)).
  { unfold enrich_transaction, bind, ret in He.
    destruct (user_metadata self !! user_id txn) as [um|] eqn:Eu;
    destruct (merchant_metadata self !! merchant_id txn) as [mm|] eqn:Em;
      cbn in He; rewrite ?Em in He; cbn in He; inversion He; subst; cbn;
      rewrite ?lookup_insert_eq, ?Eu; eauto. }
  assert (Hsm : is_Some (merchant_metadata mid !! merchant_id txn)).
  { unfold enrich_transaction, bind, ret in He.
    destruct (user_metadata self !! user_id txn) as [um|] eqn:Eu;
    destruct (merchant_metadata self !! merchant_id txn) as [mm|] eqn:Em;
      cbn in He; rewrite ?Em in He; cbn in He; inversion He; subst; cbn;
      rewrite ?lookup_insert_eq, ?Em; eauto. }
  destruct Hsu as [um Hsu]. destruct Hsm as [mm Hsm].
  unfold enrich_transaction, bind, ret. rewrite Hu, Hm, Hsu. cbn.
  rewrite Hsm. cbn. eexists. split; [reflexivity|]. cbn.
  rewrite Hum, Hmm, Hsu, Hsm. split; reflexivity.
Qed.

Lemma enrich_transaction_cached_witness :
  exists e mid e',
    enrich_transaction (Samples.answers 0.9 0.2 0.5) Samples.txn_u1
      Samples.default_detector = (Ok e, mid) /\
    enrich_transaction
      (mk_oracle 0 (mk_user_meta None None None None None)
         (mk_merchant_meta None None None) 0 0 0)
      Samples.txn_u1 mid = (Ok e', mid) /\
    e_user_metadata e' = Some Samples.alice /\
    e_merchant_metadata e' = Some Samples.shop.
Proof.
  edestruct (enrich_transaction_cached (Samples.answers 0.9 0.2 0.5)
               (mk_oracle 0 (mk_user_meta None None None None None)
                  (mk_merchant_meta None None None) 0 0 0)
               Samples.txn_u1 Samples.txn_u1 Samples.default_detector)
    as (e' & Hrun & Hu & Hm);
    [vm_compute; reflexivity | reflexivity | reflexivity |].
  eexists _, _, e'.
  split; [|split; [exact Hrun|]]; [vm_compute; reflexivity|].
  split; [rewrite Hu | rewrite Hm]; reflexivity.
Defined.

(** ** More on the velocity aggregator *)

Lemma comprehension_length_le {A : Type} (p q : A -> outcome bool) l lp lq :
  comprehension p l = Ok lp ->
  comprehension q l = Ok lq ->
  (forall t, t ∈ l -> p t = Ok true -> q t = Ok true) ->
  length lp <= length lq.
Proof.
  revert lp lq. induction l as [|x l IH]; cbn; intros lp lq Hp Hq Himp.
  - injection Hp as <-. cbn. lia.
  - destruct (p x) as [bp|] eqn:Epx; cbn in Hp; [|discriminate Hp].
    destruct (comprehension p l) as [lp'|]; cbn in Hp; [|discriminate Hp].
    destruct (q x) as [bq|] eqn:Eqx; cbn in Hq; [|discriminate Hq].
    destruct (comprehension q l) as [lq'|]; cbn in Hq; [|discriminate Hq].
    injection Hp as <-. injection Hq as <-.
    assert (Hrec : length lp' <= length lq').
    { apply IH; [reflexivity | reflexivity |].
      intros t Ht. apply Himp. right. exact Ht. }
    destruct bp.
    + rewrite (Himp x ltac:(left) Epx) in Eqx. injection Eqx as <-.
      cbn. lia.
    + destruct bq; cbn; lia.
Qed.

Lemma in_window_widens c c' t :
  utcoffset c' = utcoffset c -> (instant c' <= instant c)%Z ->
  in_window c t = Ok true -> in_window c' t = Ok true.
Proof.
  unfold in_window, ts_ge. intros Ho Hle H.
  destruct (h_timestamp t) as [| |d]; try discriminate H.
  apply ge_inv in H as [Hcmp Hb].
  rewrite ge_comparable by (unfold comparable in *; rewrite Ho; exact Hcmp).
  f_equal. symmetry in Hb. apply Z.leb_le in Hb. apply Z.leb_le. lia.
Qed.

Lemma windows_nested uid current_time self v :
  calculate_velocity_features uid current_time self = Ok v ->
  txn_count_1h v <= txn_count_24h v /\ txn_count_24h v <= txn_count_7d v.
Proof.
  unfold calculate_velocity_features. intros H.
  destruct (transaction_history self !! uid) as [history|].
  - destruct (ts_sub current_time (timedelta 0 1)) as [c1|] eqn:E1;
      cbn in H; [|discriminate H].
    destruct (ts_sub current_time (timedelta 1 0)) as [c2|] eqn:E2;
      cbn in H; [|discriminate H].
    destruct (ts_sub current_time (timedelta 7 0)) as [c3|] eqn:E3;
      cbn in H; [|discriminate H].
    destruct (comprehension (in_window c1) history) as [l1|] eqn:L1;
      cbn in H; [|discriminate H].
    destruct (comprehension (in_window c2) history) as [l2|] eqn:L2;
      cbn in H; [|discriminate H].
    destruct (comprehension (in_window c3) history) as [l3|] eqn:L3;
      cbn in H; [|discriminate H].
    injection H as <-. cbn.
    destruct current_time as [| |now]; try discriminate E1. cbn in E1, E2, E3.
    apply sub_inv in E1 as (O1 & I1 & _).
    apply sub_inv in E2 as (O2 & I2 & _).
    apply sub_inv in E3 as (O3 & I3 & _).
    split.
    + apply (comprehension_length_le _ _ _ _ _ L1 L2).
      intros t _. apply in_window_widens; [congruence|].
      rewrite I1, I2. unfold timedelta. lia.
    + apply (comprehension_length_le _ _ _ _ _ L2 L3).
      intros t _. apply in_window_widens; [congruence|].
      rewrite I2, I3. unfold timedelta. lia.
  - injection H as <-. cbn. lia.
Qed.

(** X2: in every dict that [calculate_velocity_features] returns the three
    windows are nested: the one-hour count is at most the 24-hour count,
    which is at most the 7-day count. *)
Theorem velocity_counts_nested uid current_time self v :
  calculate_velocity_features uid current_time self = Ok v ->
  txn_count_1h v <= txn_count_24h v /\ txn_count_24h v <= txn_count_7d v.
Proof.
  exact (windows_nested uid current_time self v).
Qed.

Lemma velocity_counts_nested_witness :
  exists v,
    calculate_velocity_features "U2" (TsDatetime (naive Samples.new_year))
      Samples.detector_u2 = Ok v /\
    txn_count_1h v <= txn_count_24h v /\ txn_count_24h v <= txn_count_7d v.
Proof.
  eexists. split; [vm_compute; reflexivity|].
  apply (velocity_counts_nested "U2" (TsDatetime (naive Samples.new_year))
           Samples.detector_u2).
  vm_compute. reflexivity.
Defined.

Lemma sum_amounts_from (l : list txn_record) (acc : Q) :
  (fold_left (fun a t => a + h_amount t) l acc
   == acc + sum_amounts l)%Q.
Proof.
  unfold sum_amounts. revert acc.
  induction l as [|x l IH]; intros acc; cbn.
  - ring.
  - rewrite (IH (acc + h_amount x)%Q), (IH (0 + h_amount x)%Q). ring.
Qed.

Lemma sum_amounts_cons x l :
  (sum_amounts (x :: l) == h_amount x + sum_amounts l)%Q.
Proof.
  unfold sum_amounts at 1. cbn. rewrite sum_amounts_from. ring.
Qed.

Lemma sum_amounts_app l l' :
  (sum_amounts (l ++ l') == sum_amounts l + sum_amounts l')%Q.
Proof.
  induction l as [|x l IH]; cbn [app].
  - unfold sum_amounts at 2. cbn. ring.
  - rewrite !sum_amounts_cons, IH. ring.
Qed.

Lemma average_is_mean uid current_time self v :
  calculate_velocity_features uid current_time self = Ok v ->
  exists avg,
    avg_amount_24h v = Some avg /\
    (avg * inject_Z (Z.of_nat (txn_count_24h v)) == total_amount_24h v)%Q.
Proof.
  unfold calculate_velocity_features. intros H.
  destruct (transaction_history self !! uid) as [history|].
  - destruct (ts_sub current_time (timedelta 0 1)) as [c1|];
      cbn in H; [|discriminate H].
    destruct (ts_sub current_time (timedelta 1 0)) as [c2|];
      cbn in H; [|discriminate H].
    destruct (ts_sub current_time (timedelta 7 0)) as [c3|];
      cbn in H; [|discriminate H].
    destruct (comprehension (in_window c1) history) as [l1|];
      cbn in H; [|discriminate H].
    destruct (comprehension (in_window c2) history) as [l2|];
      cbn in H; [|discriminate H].
    destruct (comprehension (in_window c3) history) as [l3|];
      cbn in H; [|discriminate H].
    injection H as <-. cbn.
    destruct l2 as [|x l2].
    + exists 0%Q. split; [reflexivity|]. vm_compute. reflexivity.
    + eexists. split; [reflexivity|].
      field. intros Hz.
      assert (Hpos : (0 < inject_Z (Z.of_nat (length (x :: l2))))%Q).
      { rewrite <- (Zlt_Qlt 0). cbn [length]. lia. }
      rewrite Hz in Hpos. discriminate Hpos.
  - injection H as <-. exists 0%Q. split; [reflexivity|].
    vm_compute. reflexivity.
Qed.

Lemma sum_amounts_nonneg l :
  Forall (fun t => 0 <= h_amount t)%Q l -> (0 <= sum_amounts l)%Q.
Proof.
  induction 1 as [|x l Hx _ IH]; [vm_compute; discriminate|].
  rewrite sum_amounts_cons. lra.
Qed.

Lemma comprehension_sum_le (p q : txn_record -> outcome bool) l lp lq :
  comprehension p l = Ok lp ->
  comprehension q l = Ok lq ->
  (forall t, t ∈ l -> p t = Ok true -> q t = Ok true) ->
  Forall (fun t => 0 <= h_amount t)%Q l ->
  (0 <= sum_amounts lp <= sum_amounts lq)%Q.
Proof.
  revert lp lq. induction l as [|x l IH]; cbn; intros lp lq Hp Hq Himp Hall.
  - injection Hp as <-. injection Hq as <-. vm_compute.
    split; discriminate.
  - destruct (p x) as [bp|] eqn:Epx; cbn in Hp; [|discriminate Hp].
    destruct (comprehension p l) as [lp'|]; cbn in Hp; [|discriminate Hp].
    destruct (q x) as [bq|] eqn:Eqx; cbn in Hq; [|discriminate Hq].
    destruct (comprehension q l) as [lq'|]; cbn in Hq; [|discriminate Hq].
    injection Hp as <-. injection Hq as <-.
    apply Forall_cons in Hall as [Hx Hall].
    assert (Hrec : (0 <= sum_amounts lp' <= sum_amounts lq')%Q).
    { apply IH; [reflexivity | reflexivity | | exact Hall].
      intros t Ht. apply Himp. right. exact Ht. }
    destruct bp.
    + rewrite (Himp x ltac:(left) Epx) in Eqx. injection Eqx as <-.
      rewrite !sum_amounts_cons. lra.
    + destruct bq; rewrite ?sum_amounts_cons; lra.
Qed.

(** X3: for a user whose stored amounts are all non-negative (the HTTP
    layer accepts positive amounts only), the three window totals that
    [calculate_velocity_features] returns are nested like the counts:
    0 <= total_amount_1h <= total_amount_24h <= total_amount_7d. *)
Theorem velocity_totals_nested uid current_time self v :
  Forall (fun t => 0 <= h_amount t)%Q
    (default [] (transaction_history self !! uid)) ->
  calculate_velocity_features uid current_time self = Ok v ->
  (0 <= total_amount_1h v)%Q /\
  (total_amount_1h v <= total_amount_24h v)%Q /\
  (total_amount_24h v <= total_amount_7d v)%Q.
Proof.
  unfold calculate_velocity_features. intros Hall H.
  destruct (transaction_history self !! uid) as [history|]; cbn in Hall.
  - destruct (ts_sub current_time (timedelta 0 1)) as [c1|] eqn:E1;
      cbn in H; [|discriminate H].
    destruct (ts_sub current_time (timedelta 1 0)) as [c2|] eqn:E2;
      cbn in H; [|discriminate H].
    destruct (ts_sub current_time (timedelta 7 0)) as [c3|] eqn:E3;
      cbn in H; [|discriminate H].
    destruct (comprehension (in_window c1) history) as [l1|] eqn:L1;
      cbn in H; [|discriminate H].
    destruct (comprehension (in_window c2) history) as [l2|] eqn:L2;
      cbn in H; [|discriminate H].
    destruct (comprehension (in_window c3) history) as [l3|] eqn:L3;
      cbn in H; [|discriminate H].
    injection H as <-. cbn.
    destruct current_time as [| |now]; try discriminate E1. cbn in E1, E2, E3.
    apply sub_inv in E1 as (O1 & I1 & _).
    apply sub_inv in E2 as (O2 & I2 & _).
    apply sub_inv in E3 as (O3 & I3 & _).
    assert (H12 : (0 <= sum_amounts l1 <= sum_amounts l2)%Q).
    { apply (comprehension_sum_le _ _ _ _ _ L1 L2); [|exact Hall].
      intros t _. apply in_window_widens; [congruence|].
      rewrite I1, I2. unfold timedelta. lia. }
    assert (H23 : (0 <= sum_amounts l2 <= sum_amounts l3)%Q).
    { apply (comprehension_sum_le _ _ _ _ _ L2 L3); [|exact Hall].
      intros t _. apply in_window_widens; [congruence|].
      rewrite I2, I3. unfold timedelta. lia. }
    repeat split; lra.
  - injection H as <-. cbn. repeat split; discriminate.
Qed.

Lemma velocity_totals_nested_witness :
  exists v,
    calculate_velocity_features "U2" (TsDatetime (naive Samples.new_year))
      Samples.detector_u2 = Ok v /\
    (0 <= total_amount_1h v)%Q /\
    (total_amount_1h v <= total_amount_24h v)%Q /\
    (total_amount_24h v <= total_amount_7d v)%Q.
Proof.
  eexists. split; [vm_compute; reflexivity|].
  apply (velocity_totals_nested "U2" (TsDatetime (naive Samples.new_year))
           Samples.detector_u2).
  - vm_compute. repeat constructor; discriminate.
  - vm_compute. reflexivity.
Defined.

(** ** More on the history store *)

Lemma comprehension_Ok_filter {A : Type} (p : A -> outcome bool)
  (q : A -> bool) l kept :
  comprehension p l = Ok kept ->
  (forall t b, t ∈ l -> p t = Ok b -> b = q t) ->
  kept = List.filter q l.
Proof.
  revert kept. induction l as [|x l IH]; cbn; intros kept H Hq.
  - injection H as <-. reflexivity.
  - destruct (p x) as [b|] eqn:Ex; cbn in H; [|discriminate H].
    destruct (comprehension p l) as [kept'|]; cbn in H; [|discriminate H].
    injection H as <-.
    rewrite <- (Hq x b ltac:(left) Ex).
    rewrite <- (IH kept' eq_refl); [reflexivity|].
    intros t b' Ht. apply Hq. right. exact Ht.
Qed.

Lemma in_window_since now delta c t b :
  Datetime.sub now delta = Ok c ->
  in_window c t = Ok b -> b = since now delta t.
Proof.
  intros Hc H. unfold in_window, ts_ge in H. unfold since.
  destruct (h_timestamp t) as [| |d]; try discriminate H.
  apply ge_inv in H as [_ ->].
  apply sub_inv in Hc as (_ & -> & _). reflexivity.
Qed.

Lemma update_stored_history uid txn self self' :
  update_transaction_history uid txn self = (Ok tt, self') ->
  exists now amt,
    timestamp txn = Some (TsDatetime now) /\
    amount txn = Some amt /\
    transaction_history self' !! uid
    = Some (List.filter (since now (timedelta 7 0))
              (default [] (transaction_history self !! uid))
            ++ [record_of txn (TsDatetime now) amt]).
Proof.
  intros H. apply update_transaction_history_Ok_inv in H
    as (ts & amt & cutoff & old & kept & Hts & Hamt & Hcut & -> & Hkept
        & Hh & _).
  destruct ts as [| |now]; try discriminate Hcut. cbn in Hcut.
  exists now, amt. split; [exact Hts|]. split; [exact Hamt|].
  rewrite Hh, lookup_insert_eq. f_equal.
  rewrite (comprehension_Ok_filter _ (since now (timedelta 7 0)) _ _ Hkept)
    by (intros t b _; apply (in_window_since _ _ _ _ _ Hcut)).
  rewrite List.filter_app. f_equal. cbn. unfold since. cbn.
  assert ((instant now - timedelta 7 0 <=? instant now)%Z = true) as ->
    by (apply Z.leb_le; unfold timedelta; lia).
  reflexivity.
Qed.

(** X4: when [update_transaction_history] returns for a transaction
    stamped [now], the entity's history is exactly its earlier records
    that are not older than [now] minus seven days, in their earlier
    order, followed by the record of this transaction. *)
Theorem update_appends_then_evicts uid txn self self' :
  update_transaction_history uid txn self = (Ok tt, self') ->
  exists now amt,
    timestamp txn = Some (TsDatetime now) /\
    amount txn = Some amt /\
    transaction_history self' !! uid
    = Some (List.filter (since now (timedelta 7 0))
              (default [] (transaction_history self !! uid))
            ++ [record_of txn (TsDatetime now) amt]).
Proof. exact (update_stored_history uid txn self self'). Qed.

Lemma update_appends_then_evicts_witness :
  exists self',
    update_transaction_history "U2"
      (mk_transaction None (Some "U2") None (Some 20%Q)
         (Some (TsDatetime
            (naive (Samples.new_year + timedelta 7 0
                    - 30 * Samples.minute)))))
      Samples.detector_u2 = (Ok tt, self') /\
    transaction_history self' !! "U2"
    = Some [Samples.purchase 25; Samples.purchase 15; Samples.purchase 5;
            mk_record
              (TsDatetime (naive (Samples.new_year + timedelta 7 0
                                  - 30 * Samples.minute)))
              20%Q None].
Proof.
  edestruct (update_appends_then_evicts "U2"
               (mk_transaction None (Some "U2") None (Some 20%Q)
                  (Some (TsDatetime
                     (naive (Samples.new_year + timedelta 7 0
                             - 30 * Samples.minute)))))
               Samples.detector_u2)
    as (now & amt & Hnow & Hamt & Hkept); [vm_compute; reflexivity|].
  eexists. split; [vm_compute; reflexivity|].
  etrans; [exact Hkept|].
  cbn in Hnow, Hamt. injection Hnow as <-. injection Hamt as <-.
  vm_compute. reflexivity.
Defined.

(** ** What [predict] accepts *)

Lemma parse_timestamp_resolved env raw txn :
  parse_timestamp env raw = Ok txn ->
  amount txn = amount raw /\ transaction_id txn = transaction_id raw /\
  match timestamp raw with
  | None => timestamp txn = Some (TsDatetime (naive (clock_now env)))
  | Some (TsStr (Some d)) => timestamp txn = Some (TsDatetime d)
  | Some (TsStr None) => False
  | Some v => timestamp txn = Some v
  end.
Proof.
  unfold parse_timestamp.
  destruct (timestamp raw) as [[|[p|]|d]|] eqn:E; intros H; inversion H;
    subst; cbn; rewrite ?E; repeat split.
Qed.

(** X5: whenever [predict] returns a result, the timestamp it reports is
    a naive datetime: the transaction's own datetime, the datetime its
    string parsed to, or the clock reading when the key was absent.  A
    transaction whose timestamp is [None] or timezone-aware is never
    scored. *)
Theorem predict_scores_naive_timestamps_only env raw self r self' :
  predict env raw self = (Ok r, self') ->
  utcoffset (r_timestamp r) = None /\
  match timestamp raw with
  | None => r_timestamp r = naive (clock_now env)
  | Some (TsDatetime d) | Some (TsStr (Some d)) => r_timestamp r = d
  | Some TsNone | Some (TsStr None) => False
  end.
Proof.
  intros H. apply predict_Ok_inv in H
    as (txn & e & mid & uid & ts & v & Hp & He & _ & Hts & _ & Htr & _ & _
        & _ & _ & _ & _ & _ & _ & ->).
  destruct (enrich_transaction_shape _ _ _ _ _ He) as [Het _].
  unfold transform, with_velocity in Htr. cbn in Htr.
  rewrite Het, Hts in Htr.
  split.
  - destruct (utcoffset (r_timestamp r)); [discriminate Htr | reflexivity].
  - apply parse_timestamp_resolved in Hp as (_ & _ & Hres).
    destruct (timestamp raw) as [[|[p|]|d]|]; try exact Hres;
      rewrite Hts in Hres;
      first [discriminate Hres | injection Hres as <-; reflexivity].
Qed.

Lemma predict_scores_naive_timestamps_only_witness :
  exists r self',
    predict (Samples.answers 0.9 0.2 0.5) Samples.txn_u1
      Samples.default_detector = (Ok r, self') /\
    r_timestamp r = naive Samples.new_year.
Proof.
  eexists. eexists. split; [vm_compute; reflexivity|].
  edestruct (predict_scores_naive_timestamps_only
               (Samples.answers 0.9 0.2 0.5) Samples.txn_u1
               Samples.default_detector) as [_ Hres];
    [vm_compute; reflexivity|].
  exact Hres.
Defined.


Lemma transform_naive e v now :
  timestamp (e_txn e) = Some (TsDatetime now) ->
  transform (with_velocity e v) = Ok tt -> utcoffset now = None.
Proof.
  unfold transform, with_velocity. cbn. intros ->.
  destruct (utcoffset now); [discriminate | reflexivity].
Qed.

(** Where a [predict] call leaves the detector, whatever its outcome:
    untouched, as enrichment left it, or as [update_transaction_history]
    left it after the velocity and feature steps went through. *)
Lemma predict_state_after env raw self o self' :
  predict env raw self = (o, self') ->
  self' = self \/
  exists txn e mid,
    parse_timestamp env raw = Ok txn /\
    enrich_transaction env txn self = (Ok e, mid) /\
    (self' = mid \/
     exists uid now v o',
       user_id txn = Some uid /\
       timestamp txn = Some (TsDatetime now) /\
       utcoffset now = None /\
       calculate_velocity_features uid (TsDatetime now) mid = Ok v /\
       update_transaction_history uid txn mid = (o', self') /\
       (forall r, o = Ok r -> o' = Ok tt)).
Proof.
  unfold predict. intros H.
  apply bind_inv in H as [(ex & Hc & ->) | (txn & s0 & Hp & H)].
  { left. apply lift_inv in Hc as [_ ->]. reflexivity. }
  apply lift_inv in Hp as [Hp ->]. symmetry in Hp. right.
  destruct (enrich_transaction_Ok env txn self) as (e & mid & He & _).
  destruct (enrich_transaction_shape _ _ _ _ _ He) as [Het _].
  exists txn, e, mid. split; [exact Hp|]. split; [exact He|].
  apply bind_inv in H as [(ex & Hc & ->) | (e' & mid' & He' & H)];
    [congruence|].
  rewrite He in He'. injection He' as <- <-.
  apply bind_inv in H as [(ex & Hc & ->) | (uid & s1 & Hu & H)];
    [apply lift_inv in Hc as [_ ->]; left; reflexivity|].
  apply lift_inv in Hu as [Hu ->].
  apply bind_inv in H as [(ex & Hc & ->) | (ts & s2 & Hts & H)];
    [apply lift_inv in Hc as [_ ->]; left; reflexivity|].
  apply lift_inv in Hts as [Hts ->].
  apply bind_inv in H as [(ex & Hc & ->) | (v & s3 & Hv & H)];
    [apply reads_inv in Hc as [_ ->]; left; reflexivity|].
  apply reads_inv in Hv as [Hv ->]. symmetry in Hv.
  apply bind_inv in H as [(ex & Hc & ->) | (u & s4 & Htr & H)];
    [apply lift_inv in Hc as [_ ->]; left; reflexivity|].
  apply lift_inv in Htr as [Htr ->]. symmetry in Htr. destruct u.
  apply bind_inv in H as [(ex & Hc & ->) | (score & s5 & Hsc & H)];
    [apply reads_inv in Hc as [_ ->]; left; reflexivity|].
  apply reads_inv in Hsc as [_ ->].
  apply bind_inv in H as [(ex & Hc & ->) | (fraud & s6 & Hfr & H)];
    [apply reads_inv in Hc as [_ ->]; left; reflexivity|].
  apply reads_inv in Hfr as [_ ->].
  apply bind_inv in H as [(ex & Hc & ->) | (level & s7 & Hlv & H)];
    [apply reads_inv in Hc as [_ ->]; left; reflexivity|].
  apply reads_inv in Hlv as [_ ->].
  right.
  destruct (user_id txn) as [uid'|] eqn:Euid; [|discriminate Hu].
  destruct (timestamp txn) as [ts'|] eqn:Ets; [|discriminate Hts].
  cbn in Hu, Hts. injection Hu as ->. injection Hts as ->.
  assert (Hnaive : exists now, ts' = TsDatetime now /\ utcoffset now = None).
  { unfold transform, with_velocity in Htr. cbn in Htr.
    rewrite Het, Ets in Htr.
    destruct ts' as [| |now]; try discriminate Htr.
    exists now. split; [reflexivity|].
    destruct (utcoffset now); [discriminate Htr | reflexivity]. }
  destruct Hnaive as (now & -> & Hnaive).
  exists uid', now, v.
  apply bind_inv in H as [(ex & Hc & ->) | (u' & s8 & Hup & H)].
  { exists (Raise ex). repeat split; auto. intros r Hr. discriminate Hr. }
  destruct u'. exists (Ok tt).
  apply bind_inv in H as [(ex & Hc & ->) | (stamp & s9 & Hst & H)].
  { apply lift_inv in Hc as [_ ->]. repeat split; auto. }
  apply lift_inv in Hst as [_ ->].
  unfold ret in H. injection H as _ <-. repeat split; auto.
Qed.

Lemma naive_histories_insert uid l self :
  naive_histories self -> Forall naive_record l ->
  naive_histories (set_history (<[uid := l]> (transaction_history self)) self).
Proof.
  intros Hinv Hl u h. cbn. rewrite lookup_insert.
  case_decide as Hu; [intros [= <-]; exact Hl | apply Hinv].
Qed.

Lemma naive_history_of uid self :
  naive_histories self -> Forall naive_record (history_of uid self).
Proof.
  intros Hinv. unfold history_of.
  destruct (transaction_history self !! uid) as [h|] eqn:E; cbn;
    [exact (Hinv uid h E) | constructor].
Qed.

Lemma comprehension_Forall {A : Type} (P : A -> Prop) p l kept :
  comprehension p l = Ok kept -> Forall P l -> Forall P kept.
Proof.
  intros H Hall. apply Forall_forall. intros t Ht.
  destruct (comprehension_Ok_elem p l kept H t Ht) as [Hin _].
  rewrite Forall_forall in Hall. apply Hall. exact Hin.
Qed.

Lemma update_transaction_history_naive uid txn self o self' now :
  timestamp txn = Some (TsDatetime now) -> utcoffset now = None ->
  naive_histories self ->
  update_transaction_history uid txn self = (o, self') ->
  naive_histories self'.
Proof.
  intros Hts Hnaive Hinv H. unfold update_transaction_history in H.
  apply bind_inv in H as [(ex & Hc & ->) | (u0 & s0 & H0 & H)];
    [apply modify_inv in Hc as [Hc _]; discriminate Hc|].
  apply modify_inv in H0 as [_ ->].
  set (s0 := match transaction_history self !! uid with
             | Some _ => self
             | None => set_history (<[uid:=[]]> (transaction_history self)) self
             end) in *.
  assert (Hinv0 : naive_histories s0).
  { subst s0. destruct (transaction_history self !! uid);
      [exact Hinv | apply naive_histories_insert; [exact Hinv | constructor]]. }
  apply bind_inv in H as [(ex & Hc & ->) | (ts & s1 & H1 & H)];
    [apply lift_inv in Hc as [_ ->]; exact Hinv0|].
  apply lift_inv in H1 as [H1 ->]. rewrite Hts in H1. injection H1 as ->.
  apply bind_inv in H as [(ex & Hc & ->) | (amt & s2 & H2 & H)];
    [apply lift_inv in Hc as [_ ->]; exact Hinv0|].
  apply lift_inv in H2 as [_ ->].
  apply bind_inv in H as [(ex & Hc & ->) | (u3 & s3 & H3 & H)];
    [apply modify_inv in Hc as [Hc _]; discriminate Hc|].
  apply modify_inv in H3 as [_ ->].
  match type of H with bind _ _ ?s = _ => set (s3 := s) in * end.
  assert (Hinv3 : naive_histories s3).
  { subst s3. apply naive_histories_insert; [exact Hinv0|].
    apply Forall_app. split; [apply naive_history_of; exact Hinv0|].
    constructor; [|constructor]. exists now. split; [reflexivity | exact Hnaive]. }
  apply bind_inv in H as [(ex & Hc & ->) | (cutoff & s4 & H4 & H)];
    [apply lift_inv in Hc as [_ ->]; exact Hinv3|].
  apply lift_inv in H4 as [_ ->].
  apply bind_inv in H as [(ex & Hc & ->) | (kept & s5 & H5 & H)];
    [apply reads_inv in Hc as [_ ->]; exact Hinv3|].
  apply reads_inv in H5 as [H5 ->]. symmetry in H5.
  apply modify_inv in H as [_ ->].
  apply naive_histories_insert; [exact Hinv3|].
  apply (comprehension_Forall _ _ _ _ H5).
  apply naive_history_of. exact Hinv3.
Qed.

Lemma predict_keeps_histories_naive env raw self o self' :
  naive_histories self ->
  predict env raw self = (o, self') ->
  naive_histories self'.
Proof.
  intros Hinv H.
  apply predict_state_after in H
    as [-> | (txn & e & mid & _ & He & Hcases)]; [exact Hinv|].
  destruct (enrich_transaction_shape _ _ _ _ _ He) as [_ Hh].
  assert (Hmid : naive_histories mid).
  { intros u h. rewrite Hh. apply Hinv. }
  destruct Hcases as [-> | (uid & now & v & o' & _ & Hts & Hn & _ & Hup & _)];
    [exact Hmid|].
  eapply update_transaction_history_naive; eassumption.
Qed.

Lemma run_state_keeps_histories_naive envs transactions :
  forall k self,
    naive_histories self ->
    naive_histories (run_state envs k transactions self).
Proof.
  induction transactions as [|txn rest IH]; intros k self Hinv;
    cbn [run_state]; [exact Hinv|].
  apply IH.
  destruct (predict (envs k) txn self) as [o s] eqn:E. cbn [snd].
  eapply predict_keeps_histories_naive; eassumption.
Qed.

(** X6: naive timestamps are an invariant of the history store.  If every
    stored record carries a naive datetime, this is still so after
    [batch_predict] has processed any list of transactions, accepted or
    rejected; a detector that starts empty therefore never stores anything
    else. *)
Theorem batch_predict_keeps_histories_naive envs transactions self :
  naive_histories self ->
  naive_histories (snd (batch_predict envs transactions self)).
Proof.
  intros Hinv. unfold batch_predict. rewrite batch_loop_slots. cbn.
  apply run_state_keeps_histories_naive. exact Hinv.
Qed.

Lemma naive_histories_init wx wa ft ht : naive_histories (init wx wa ft ht).
Proof. intros uid h H. cbn in H. rewrite lookup_empty in H. discriminate H. Qed.

Lemma batch_predict_keeps_histories_naive_witness :
  naive_histories
    (snd (batch_predict (fun _ => Samples.answers 0.9 0.2 0.5)
            [Samples.txn_u1; Samples.txn_no_user; Samples.txn_null_timestamp]
            Samples.default_detector)).
Proof.
  apply (batch_predict_keeps_histories_naive
           (fun _ => Samples.answers 0.9 0.2 0.5)
           [Samples.txn_u1; Samples.txn_no_user; Samples.txn_null_timestamp]
           Samples.default_detector).
  intros uid h H. vm_compute in H. discriminate H.
Defined.

Lemma naive_records_comparable now l :
  utcoffset now = None ->
  Forall naive_record l -> Forall (comparable_record now) l.
Proof.
  intros Hn Hall. eapply Forall_impl; [exact Hall|].
  intros t (d & Hd & Ho). exists d. split; [exact Hd|].
  unfold comparable. rewrite Ho, Hn. reflexivity.
Qed.

(** X7: a detector that started empty and went through any batch scores
    every transaction that names its user and amount and whose timestamp
    resolves to a naive datetime at least seven days after [datetime.min];
    no earlier transaction, accepted or rejected, can make such a
    transaction fail. *)
Theorem predict_returns_after_any_batch
  wx wa ft ht envs transactions env raw txn uid amt now :
  parse_timestamp env raw = Ok txn ->
  timestamp txn = Some (TsDatetime now) ->
  utcoffset now = None ->
  user_id raw = Some uid ->
  amount raw = Some amt ->
  (timedelta 7 0 <= wall now < wall_limit)%Z ->
  exists r self',
    predict env raw
      (snd (batch_predict envs transactions (init wx wa ft ht)))
    = (Ok r, self').
Proof.
  intros Hp Hts Hn Hu Ha Hw.
  assert (Hinv : naive_histories
            (snd (batch_predict envs transactions (init wx wa ft ht)))).
  { unfold batch_predict. rewrite batch_loop_slots. cbn [snd].
    apply run_state_keeps_histories_naive, naive_histories_init. }
  eapply predict_returns; try eassumption.
  apply naive_records_comparable; [exact Hn|].
  destruct (transaction_history _ !! uid) as [h|] eqn:E; cbn;
    [exact (Hinv uid h E) | constructor].
Qed.

Lemma predict_returns_after_any_batch_witness :
  exists r self',
    predict (Samples.answers 0.1 0.1 0.5) Samples.txn_u2
      (snd (batch_predict (fun _ => Samples.answers 0.9 0.2 0.5)
              [Samples.txn_u1; Samples.txn_no_user]
              (init 0.7 0.3 0.5 0.75)))
    = (Ok r, self').
Proof.
  apply (predict_returns_after_any_batch 0.7 0.3 0.5 0.75
           (fun _ => Samples.answers 0.9 0.2 0.5)
           [Samples.txn_u1; Samples.txn_no_user]
           (Samples.answers 0.1 0.1 0.5) Samples.txn_u2 Samples.txn_u2
           "U2" 20%Q (naive Samples.new_year));
    try reflexivity.
  vm_compute. split; [discriminate | reflexivity].
Defined.

(** ** Isolation between entities *)

Lemma predict_frame env raw self o self' :
  predict env raw self = (o, self') ->
  same_config self self' /\
  user_metadata self ⊆ user_metadata self' /\
  merchant_metadata self ⊆ merchant_metadata self' /\
  forall other, user_id raw <> Some other ->
    transaction_history self' !! other = transaction_history self !! other.
Proof.
  intros H. apply predict_final_state in H
    as [(_ & _ & ->) | (txn & e & mid & Hp & He & Hcases)].
  { split; [apply same_config_refl|]. repeat split; reflexivity. }
  destruct (parse_timestamp_ids _ _ _ Hp) as [Huid _].
  destruct (enrich_transaction_Ok env txn self)
    as (e0 & mid0 & He0 & Hcfg & Hhist & _ & _ & _ & _ & Hsu & Hsm).
  rewrite He in He0. injection He0 as <- <-.
  destruct Hcases as [[_ ->] | (uid & Hu & [-> | (o' & Hup)])].
  - repeat split; try apply Hcfg; auto. intros other _. rewrite Hhist. reflexivity.
  - repeat split; try apply Hcfg; auto. intros other _. rewrite Hhist. reflexivity.
  - apply update_transaction_history_frame in Hup as (Hcfg' & Hu' & Hm' & Hh').
    rewrite Hu', Hm'.
    split; [eapply same_config_trans; eassumption|].
    split; [exact Hsu|]. split; [exact Hsm|].
    intros other Hne. rewrite Hh', Hhist; [reflexivity|].
    intros ->. apply Hne. congruence.
Qed.

Lemma run_state_frame envs transactions :
  forall k self,
    same_config self (run_state envs k transactions self) /\
    user_metadata self ⊆ user_metadata (run_state envs k transactions self) /\
    merchant_metadata self
      ⊆ merchant_metadata (run_state envs k transactions self) /\
    forall other,
      Forall (fun txn => user_id txn <> Some other) transactions ->
      transaction_history (run_state envs k transactions self) !! other
      = transaction_history self !! other.
Proof.
  induction transactions as [|txn rest IH]; intros k self; cbn [run_state].
  - split; [apply same_config_refl|]. repeat split; reflexivity.
  - destruct (predict (envs k) txn self) as [o s] eqn:E. cbn [snd].
    destruct (predict_frame _ _ _ _ _ E) as (Hc & Hu & Hm & Hh).
    destruct (IH (S k) s) as (Hc' & Hu' & Hm' & Hh').
    split; [eapply same_config_trans; eassumption|].
    split; [etrans; eassumption|]. split; [etrans; eassumption|].
    intros other Hall. inversion Hall; subst.
    rewrite Hh' by assumption. apply Hh. assumption.
Qed.

(** X8: a batch touches only the entities it names.  After
    [batch_predict], whatever was accepted or rejected, the weights and
    thresholds are unchanged, every metadata entry cached before is still
    cached with the same value, and the history of every user that no
    transaction of the batch names is exactly as before. *)
Theorem batch_predict_isolates_entities envs transactions self :
  let self' := snd (batch_predict envs transactions self) in
  same_config self self' /\
  user_metadata self ⊆ user_metadata self' /\
  merchant_metadata self ⊆ merchant_metadata self' /\
  forall other,
    Forall (fun txn => user_id txn <> Some other) transactions ->
    transaction_history self' !! other = transaction_history self !! other.
Proof.
  cbn zeta. unfold batch_predict. rewrite batch_loop_slots. cbn [snd].
  apply run_state_frame.
Qed.

Lemma batch_predict_isolates_entities_witness :
  transaction_history
    (snd (batch_predict (fun _ => Samples.answers 0.9 0.2 0.5)
            [Samples.txn_u1; Samples.txn_no_user] Samples.detector_u2))
    !! "U2"
  = Some Samples.history_u2.
Proof.
  destruct (batch_predict_isolates_entities
              (fun _ => Samples.answers 0.9 0.2 0.5)
              [Samples.txn_u1; Samples.txn_no_user] Samples.detector_u2)
    as (_ & _ & _ & Hh).
  rewrite Hh; [vm_compute; reflexivity|].
  repeat constructor; vm_compute; discriminate.
Defined.

(** ** Batches compose *)

Lemma batch_slots_app envs l1 l2 :
  forall k self,
    batch_slots envs k (l1 ++ l2) self
    = batch_slots envs k l1 self
      ++ batch_slots envs (k + length l1) l2 (run_state envs k l1 self).
Proof.
  induction l1 as [|txn l1 IH]; intros k self; cbn.
  - rewrite Nat.add_0_r. reflexivity.
  - rewrite IH. rewrite Nat.add_succ_r. reflexivity.
Qed.

Lemma run_state_app envs l1 l2 :
  forall k self,
    run_state envs k (l1 ++ l2) self
    = run_state envs (k + length l1) l2 (run_state envs k l1 self).
Proof.
  induction l1 as [|txn l1 IH]; intros k self; cbn.
  - rewrite Nat.add_0_r. reflexivity.
  - rewrite IH. rewrite Nat.add_succ_r. reflexivity.
Qed.

Lemma batch_slots_shift envs l :
  forall k j self,
    batch_slots envs (k + j) l self
    = batch_slots (fun i => envs (k + i)) j l self.
Proof.
  induction l as [|txn l IH]; intros k j self; cbn; [reflexivity|].
  rewrite <- Nat.add_succ_r, IH. reflexivity.
Qed.

Lemma run_state_shift envs l :
  forall k j self,
    run_state envs (k + j) l self
    = run_state (fun i => envs (k + i)) j l self.
Proof.
  induction l as [|txn l IH]; intros k j self; cbn; [reflexivity|].
  rewrite <- Nat.add_succ_r, IH. reflexivity.
Qed.

(** X9: one batch over a concatenated list does what two batches in a row
    do: the slots are those of the first batch followed by those of a
    second batch run on the detector the first one left, and the final
    detector is the one the second batch leaves. *)
Theorem batch_predict_app envs l1 l2 self :
  let first := batch_predict envs l1 self in
  let second :=
    batch_predict (fun i => envs (length l1 + i)) l2 (snd first) in
  exists slots1 slots2,
    fst first = Ok slots1 /\
    fst second = Ok slots2 /\
    batch_predict envs (l1 ++ l2) self = (Ok (slots1 ++ slots2), snd second).
Proof.
  cbn zeta. unfold batch_predict. rewrite !batch_loop_slots. cbn [fst snd].
  rewrite !app_nil_l.
  exists (batch_slots envs 0 l1 self).
  exists (batch_slots (fun i => envs (length l1 + i)) 0 l2
            (run_state envs 0 l1 self)).
  split; [reflexivity|]. split; [reflexivity|].
  rewrite batch_slots_app, run_state_app. cbn [Nat.add].
  rewrite <- (batch_slots_shift envs l2 (length l1) 0).
  rewrite <- (run_state_shift envs l2 (length l1) 0).
  rewrite Nat.add_0_r. reflexivity.
Qed.

(** ** Shape of the explainer's output *)

Lemma rule_factors_no_sentinel e : no_factor ∉ rule_factors e.
Proof.
  unfold rule_factors.
  repeat match goal with
         | |- context [if ?b then _ else _] => destruct b
         end;
    cbn; intros H;
    repeat match goal with
           | H : _ ∈ _ :: _ |- _ => apply elem_of_cons in H as [H|H]
           | H : _ ∈ [] |- _ => inversion H
           | H : no_factor = _ |- _ => discriminate H
           end.
Qed.

Lemma rule_factors_length e : length (rule_factors e) <= 6.
Proof.
  unfold rule_factors.
  repeat match goal with
         | |- context [if ?b then _ else _] => destruct b
         end; cbn; lia.
Qed.

(** X10: the explainer never returns an empty list and never more than
    seven entries; the entry "No specific risk factors identified" is
    returned only on its own, when no rule fired. *)
Theorem explainer_output_shape e draw :
  1 <= length (_identify_risk_factors e draw) <= 7 /\
  (no_factor ∈ _identify_risk_factors e draw <->
   _identify_risk_factors e draw = [no_factor]) /\
  (_identify_risk_factors e draw = [no_factor] <->
   rule_factors e = [] /\ ~ (draw < 0.1)%Q).
Proof.
  pose proof (rule_factors_no_sentinel e) as Hno.
  pose proof (rule_factors_length e) as Hlen.
  unfold _identify_risk_factors.
  destruct (Qltb draw 0.1) eqn:Ed.
  - apply Qltb_true in Ed.
    destruct (rule_factors e ++ [geographic_factor]) as [|x l] eqn:El.
    { apply app_eq_nil in El as [_ El]. discriminate El. }
    rewrite <- El. rewrite length_app. cbn [length].
    split; [lia|].
    assert (Hne : rule_factors e ++ [geographic_factor] <> [no_factor]).
    { intros Heq. destruct (rule_factors e) as [|y l'] eqn:Er; cbn in Heq.
      - discriminate Heq.
      - injection Heq as -> Heq. apply Hno. left. }
    split; split.
    + intros Hin. apply elem_of_app in Hin as [Hin|Hin];
        [contradiction|].
      apply elem_of_cons in Hin as [Hin|Hin];
        [discriminate Hin | inversion Hin].
    + intros Heq. contradiction.
    + intros Heq. contradiction.
    + intros [_ Hge]. contradiction.
  - assert (Hge : ~ (draw < 0.1)%Q).
    { intros Hlt. apply Qltb_true in Hlt. congruence. }
    rewrite app_nil_r.
    destruct (rule_factors e) as [|x l] eqn:Er.
    + cbn. split; [lia|]. split; split; auto.
      intros _. left.
    + split; [cbn [length] in *; lia|].
      assert (Hne : x :: l <> [no_factor]).
      { intros Heq. injection Heq as -> _. apply Hno. left. }
      split; split.
      * intros Hin. contradiction.
      * intros Heq. contradiction.
      * intros Heq. contradiction.
      * intros [Hnil _]. discriminate Hnil.
Qed.

Lemma rule_factors_amount_block e :
  exists block rest,
    rule_factors e = block ++ rest /\
    (high_entry ∉ rest) /\ (unusual_entry ∉ rest) /\
    (block = [unusual_entry] /\
       (exists v avg,
          e_velocity e = Some v /\ avg_amount_24h v = Some avg /\
          (0 < avg)%Q /\ (avg * 3 < default 0%Q (amount (e_txn e)))%Q)
     \/ block = [high_entry] /\ (1000 < default 0%Q (amount (e_txn e)))%Q
     \/ block = []).
Proof.
  unfold rule_factors.
  set (amt := default 0%Q (amount (e_txn e))).
  set (avg_amount := match e_velocity e with
                     | Some v => avg_amount_24h v
                     | None => Some 0%Q
                     end).
  set (unusual := match avg_amount with
                  | Some avg => Qgtb avg 0 && Qgtb amt (avg * 3)
                  | None => false
                  end).
  assert (Hgt : forall a b, Qgtb a b = true -> (b < a)%Q).
  { intros a b Hb. unfold Qgtb in Hb. apply negb_true_iff in Hb.
    apply Qnot_le_lt. intros Hle. apply Qle_bool_iff in Hle. congruence. }
  assert (Hun : unusual = true ->
            exists v avg, e_velocity e = Some v /\
              avg_amount_24h v = Some avg /\ (0 < avg)%Q /\ (avg * 3 < amt)%Q).
  { subst unusual avg_amount. destruct (e_velocity e) as [v|].
    - destruct (avg_amount_24h v) as [avg|] eqn:Eavg; [|discriminate].
      intros Hb. apply andb_true_iff in Hb as [H1 H2].
      exists v, avg. split; [reflexivity|]. split; [exact Eavg|].
      split; apply Hgt; assumption.
    - intros Hb. apply andb_true_iff in Hb as [H1 _].
      apply Hgt in H1. discriminate H1. }
  eexists. eexists. split; [reflexivity|].
  split; [|split].
  - repeat match goal with
           | |- context [if ?b then _ else _] => destruct b
           end;
      cbn; intros H;
      repeat match goal with
             | H : _ ∈ _ :: _ |- _ => apply elem_of_cons in H as [H|H]
             | H : _ ∈ [] |- _ => inversion H
             | H : high_entry = _ |- _ => discriminate H
             end.
  - repeat match goal with
           | |- context [if ?b then _ else _] => destruct b
           end;
      cbn; intros H;
      repeat match goal with
             | H : _ ∈ _ :: _ |- _ => apply elem_of_cons in H as [H|H]
             | H : _ ∈ [] |- _ => inversion H
             | H : unusual_entry = _ |- _ => discriminate H
             end.
  - destruct unusual; [left; split; [reflexivity | apply Hun; reflexivity]|].
    destruct (Qgtb amt 1000) eqn:Eh;
      [right; left; split; [reflexivity | apply Hgt; exact Eh]
      | right; right; reflexivity].
Qed.

Lemma named_rule_factor e draw x :
  x <> no_factor -> x <> geographic_factor ->
  x ∈ _identify_risk_factors e draw -> x ∈ rule_factors e.
Proof.
  intros Hx1 Hx2. unfold _identify_risk_factors.
  destruct (rule_factors e ++ _) as [|y l] eqn:El.
  - intros Hin. apply elem_of_cons in Hin as [Hin|Hin];
      [contradiction | inversion Hin].
  - rewrite <- El. intros Hin. apply elem_of_app in Hin as [Hin|Hin];
      [exact Hin|].
    destruct (Qltb draw 0.1); [|inversion Hin].
    apply elem_of_cons in Hin as [Hin|Hin]; [contradiction | inversion Hin].
Qed.

(** X11: the two amount entries exclude each other, and each needs its
    own condition: "Unusual transaction amount (3x average)" is reported
    only when the 24-hour average is positive and the amount exceeds three
    times it, "High transaction amount" only when the amount exceeds
    1000. *)
Theorem explainer_amount_entries e draw :
  let amt := default 0%Q (amount (e_txn e)) in
  let factors := _identify_risk_factors e draw in
  ~ (unusual_entry ∈ factors /\ high_entry ∈ factors) /\
  (high_entry ∈ factors -> (1000 < amt)%Q) /\
  (unusual_entry ∈ factors ->
   exists v avg,
     e_velocity e = Some v /\ avg_amount_24h v = Some avg /\
     (0 < avg)%Q /\ (avg * 3 < amt)%Q).
Proof.
  cbn zeta.
  destruct (rule_factors_amount_block e)
    as (block & rest & Hsplit & Hh & Hu & Hblock).
  assert (Hin_h : high_entry ∈ _identify_risk_factors e draw ->
            block = [high_entry]).
  { intros Hin. apply named_rule_factor in Hin; [|discriminate|discriminate].
    rewrite Hsplit in Hin. apply elem_of_app in Hin as [Hin|Hin];
      [|contradiction].
    destruct Hblock as [[-> _] | [[-> _] | ->]]; [|reflexivity|inversion Hin].
    apply elem_of_cons in Hin as [Hin|Hin]; [discriminate Hin | inversion Hin]. }
  assert (Hin_u : unusual_entry ∈ _identify_risk_factors e draw ->
            block = [unusual_entry]).
  { intros Hin. apply named_rule_factor in Hin; [|discriminate|discriminate].
    rewrite Hsplit in Hin. apply elem_of_app in Hin as [Hin|Hin];
      [|contradiction].
    destruct Hblock as [[-> _] | [[-> _] | ->]]; [reflexivity| |inversion Hin].
    apply elem_of_cons in Hin as [Hin|Hin]; [discriminate Hin | inversion Hin]. }
  split; [|split].
  - intros [H1 H2]. apply Hin_u in H1. apply Hin_h in H2.
    rewrite H1 in H2. discriminate H2.
  - intros Hin. apply Hin_h in Hin.
    destruct Hblock as [[-> _] | [[_ Hgt] | ->]];
      [discriminate Hin | exact Hgt | discriminate Hin].
  - intros Hin. apply Hin_u in Hin.
    destruct Hblock as [[_ Hex] | [[-> _] | ->]];
      [exact Hex | discriminate Hin | discriminate Hin].
Qed.

Lemma explainer_amount_entries_witness :
  (high_entry
   ∈ _identify_risk_factors
       (mk_enriched
          (mk_transaction None (Some "U1"%string) None (Some 1500%Q) None)
          None None None) 0.5) /\
  (1000 < 1500)%Q.
Proof.
  split; [vm_compute; left|].
  apply (explainer_amount_entries
           (mk_enriched
              (mk_transaction None (Some "U1"%string) None (Some 1500%Q) None)
              None None None) 0.5).
  vm_compute. left.
Defined.

(** ** A scored transaction is counted by the next call *)

Lemma velocity_full uid now history self :
  transaction_history self !! uid = Some history ->
  (timedelta 7 0 <= wall now < wall_limit)%Z ->
  Forall (comparable_record now) history ->
  calculate_velocity_features uid (TsDatetime now) self
  = Ok (mk_velocity
          (length (List.filter (since now (timedelta 0 1)) history))
          (length (List.filter (since now (timedelta 1 0)) history))
          (length (List.filter (since now (timedelta 7 0)) history))
          (sum_amounts (List.filter (since now (timedelta 0 1)) history))
          (sum_amounts (List.filter (since now (timedelta 1 0)) history))
          (sum_amounts (List.filter (since now (timedelta 7 0)) history))
          (match List.filter (since now (timedelta 1 0)) history with
           | [] => Some 0%Q
           | _ => np_mean (List.filter (since now (timedelta 1 0)) history)
           end)).
Proof.
  intros Hh Hw Hall. unfold calculate_velocity_features. rewrite Hh.
  assert (H1 := sub_in_range now (timedelta 0 1)).
  assert (H2 := sub_in_range now (timedelta 1 0)).
  assert (H3 := sub_in_range now (timedelta 7 0)).
  specialize (H1 ltac:(vm_compute; split; discriminate) Hw).
  specialize (H2 ltac:(vm_compute; split; discriminate) Hw).
  specialize (H3 ltac:(vm_compute; split; discriminate) Hw).
  unfold ts_sub. rewrite H1, H2, H3. unfold mbind, outcome_bind.
  rewrite (window_is_filter _ _ _ _ H1 Hall).
  rewrite (window_is_filter _ _ _ _ H2 Hall).
  rewrite (window_is_filter _ _ _ _ H3 Hall).
  reflexivity.
Qed.

Lemma comprehension_all_Ok {A : Type} (p : A -> outcome bool) l kept :
  comprehension p l = Ok kept ->
  Forall (fun t => exists b, p t = Ok b) l.
Proof.
  revert kept. induction l as [|x l IH]; cbn; intros kept H;
    [constructor|].
  destruct (p x) as [b|] eqn:Ex; cbn in H; [|discriminate H].
  destruct (comprehension p l) as [kept'|]; cbn in H; [|discriminate H].
  constructor; [exists b; exact Ex | apply (IH kept'); reflexivity].
Qed.

Lemma in_window_comparable now delta c t b :
  Datetime.sub now delta = Ok c ->
  in_window c t = Ok b -> comparable_record now t.
Proof.
  intros Hc H. unfold in_window, ts_ge in H.
  destruct (h_timestamp t) as [| |d] eqn:Ed; try discriminate H.
  apply ge_inv in H as [Hcmp _].
  exists d. split; [exact Ed|].
  rewrite <- (comparable_sub d now delta c Hc). exact Hcmp.
Qed.

Lemma velocity_Ok_comparable uid now history self v :
  transaction_history self !! uid = Some history ->
  calculate_velocity_features uid (TsDatetime now) self = Ok v ->
  Forall (comparable_record now) history /\ (wall now < wall_limit + timedelta 0 1)%Z.
Proof.
  intros Hh H. unfold calculate_velocity_features in H. rewrite Hh in H.
  cbn [ts_sub] in H.
  destruct (Datetime.sub now (timedelta 0 1)) as [c1|] eqn:E1;
    cbn in H; [|discriminate H].
  destruct (Datetime.sub now (timedelta 1 0)) as [c2|] eqn:E2;
    cbn in H; [|discriminate H].
  destruct (Datetime.sub now (timedelta 7 0)) as [c3|] eqn:E3;
    cbn in H; [|discriminate H].
  destruct (comprehension (in_window c1) history) as [l1|] eqn:L1;
    cbn in H; [|discriminate H].
  split.
  - apply comprehension_all_Ok in L1.
    eapply Forall_impl; [exact L1|].
    intros t [b Hb]. exact (in_window_comparable now _ c1 t b E1 Hb).
  - unfold Datetime.sub, in_range in E1.
    destruct (0 <=? wall now - timedelta 0 1)%Z; [|discriminate E1].
    destruct (wall now - timedelta 0 1 <? wall_limit)%Z eqn:Elt;
      [|discriminate E1].
    apply Z.ltb_lt in Elt. lia.
Qed.

Lemma since_nested now delta delta' l :
  (delta <= delta')%Z ->
  List.filter (since now delta) (List.filter (since now delta') l)
  = List.filter (since now delta) l.
Proof.
  intros Hle. induction l as [|t l IH]; cbn; [reflexivity|].
  destruct (since now delta' t) eqn:E'; cbn.
  - rewrite IH. reflexivity.
  - rewrite IH.
    assert (since now delta t = false) as ->; [|reflexivity].
    unfold since in *. destruct (h_timestamp t) as [| |d]; try reflexivity.
    apply Z.leb_gt in E'. apply Z.leb_gt. lia.
Qed.

Lemma since_now now delta amt m :
  (0 <= delta)%Z ->
  since now delta (mk_record (TsDatetime now) amt m) = true.
Proof. intros Hd. unfold since. cbn. apply Z.leb_le. lia. Qed.

Lemma filter_comparable now (q : txn_record -> bool) l :
  Forall (comparable_record now) l ->
  Forall (comparable_record now) (List.filter q l).
Proof.
  induction 1 as [|t l Ht _ IH]; cbn; [constructor|].
  destruct (q t); [constructor; assumption | assumption].
Qed.

(** X12: a transaction that [predict] has scored is in the history when
    the next one arrives.  Computed again at the same timestamp, on the
    detector the call left, each of the three window counts of that user
    is one more than the call itself saw, and each window total has grown
    by the transaction's amount. *)
Theorem scored_transaction_is_counted_next env raw self r self' uid amt :
  predict env raw self = (Ok r, self') ->
  user_id raw = Some uid ->
  amount raw = Some amt ->
  (wall (r_timestamp r) < wall_limit)%Z ->
  exists v v',
    calculate_velocity_features uid (TsDatetime (r_timestamp r)) self = Ok v /\
    calculate_velocity_features uid (TsDatetime (r_timestamp r)) self' = Ok v' /\
    txn_count_1h v' = S (txn_count_1h v) /\
    txn_count_24h v' = S (txn_count_24h v) /\
    txn_count_7d v' = S (txn_count_7d v) /\
    (total_amount_1h v' == total_amount_1h v + amt)%Q /\
    (total_amount_24h v' == total_amount_24h v + amt)%Q /\
    (total_amount_7d v' == total_amount_7d v + amt)%Q.
Proof.
  intros H Huid Hamt Hlim.
  apply predict_Ok_inv in H
    as (txn & e & mid & uid' & ts & v & Hp & He & Huid' & Hts & Hv & Htr
        & Hup & _ & _ & _ & _ & _ & _ & _ & ->).
  set (now := r_timestamp r) in *.
  destruct (parse_timestamp_ids _ _ _ Hp) as [Hu _].
  destruct (parse_timestamp_resolved _ _ _ Hp) as (Ha & _ & _).
  assert (uid' = uid) as -> by congruence.
  destruct (enrich_transaction_shape _ _ _ _ _ He) as [Het Hh].
  assert (Hnaive : utcoffset now = None).
  { eapply transform_naive; [|exact Htr]. rewrite Het. exact Hts. }
  rewrite (velocity_reads_history uid _ mid self Hh) in Hv.
  pose proof (update_stored_history _ _ _ _ Hup)
    as (now' & amt' & Hts' & Hamt' & Hkept).
  rewrite Hts in Hts'. injection Hts' as <-.
  assert (amt' = amt) as -> by congruence.
  apply update_transaction_history_Ok_inv in Hup
    as (ts0 & amt0 & cutoff & old & kept & Hts0 & _ & Hcut & _ & _ & _).
  rewrite Hts in Hts0. injection Hts0 as <-. cbn in Hcut.
  assert (Hw : (timedelta 7 0 <= wall now < wall_limit)%Z).
  { split; [|exact Hlim].
    unfold Datetime.sub, in_range in Hcut.
    destruct (0 <=? wall now - timedelta 7 0)%Z eqn:E0; [|discriminate Hcut].
    apply Z.leb_le in E0. lia. }
  rewrite Hh in Hkept.
  set (old' := default [] (transaction_history self !! uid)) in *.
  set (new := record_of txn (TsDatetime now) amt) in *.
  assert (Hold : Forall (comparable_record now) old').
  { subst old'. destruct (transaction_history self !! uid) as [h|] eqn:Eh;
      cbn; [|constructor].
    apply (velocity_Ok_comparable uid now h self v Eh Hv). }
  assert (Hnew : Forall (comparable_record now)
            (List.filter (since now (timedelta 7 0)) old' ++ [new])).
  { apply Forall_app. split; [apply filter_comparable; exact Hold|].
    constructor; [|constructor].
    exists now. split; [reflexivity | apply comparable_refl]. }
  pose proof (velocity_full uid now _ self' Hkept Hw Hnew) as Hv'.
  assert (Hv0 : v = mk_velocity
            (length (List.filter (since now (timedelta 0 1)) old'))
            (length (List.filter (since now (timedelta 1 0)) old'))
            (length (List.filter (since now (timedelta 7 0)) old'))
            (sum_amounts (List.filter (since now (timedelta 0 1)) old'))
            (sum_amounts (List.filter (since now (timedelta 1 0)) old'))
            (sum_amounts (List.filter (since now (timedelta 7 0)) old'))
            (avg_amount_24h v)).
  { subst old'. destruct (transaction_history self !! uid) as [h|] eqn:Eh; cbn.
    - rewrite (velocity_full uid now h self Eh Hw Hold) in Hv.
      injection Hv as <-. reflexivity.
    - unfold calculate_velocity_features in Hv. rewrite Eh in Hv.
      injection Hv as <-. reflexivity. }
  exists v. eexists. split; [exact Hv|]. split; [exact Hv'|].
  rewrite Hv0. cbn [txn_count_1h txn_count_24h txn_count_7d
                    total_amount_1h total_amount_24h total_amount_7d].
  rewrite !List.filter_app, !since_nested
    by (vm_compute; discriminate).
  unfold new, record_of. cbn [List.filter].
  rewrite !since_now by (vm_compute; discriminate).
  rewrite !length_app, !sum_amounts_app. cbn [length].
  repeat split; try lia; unfold sum_amounts at 2; cbn; ring.
Qed.

Lemma scored_transaction_is_counted_next_witness :
  exists r self' v',
    predict (Samples.answers 0.1 0.1 0.5) Samples.txn_u2 Samples.detector_u2
    = (Ok r, self') /\
    calculate_velocity_features "U2" (TsDatetime (naive Samples.new_year))
      self' = Ok v' /\
    txn_count_1h v' = 7.
Proof.
  edestruct (scored_transaction_is_counted_next
               (Samples.answers 0.1 0.1 0.5) Samples.txn_u2
               Samples.detector_u2)
    as (v & v' & Hv & Hv' & Hc & _);
    [vm_compute; reflexivity | reflexivity | reflexivity
    | vm_compute; reflexivity |].
  eexists _, _, v'. split; [vm_compute; reflexivity|].
  split; [exact Hv'|].
  rewrite Hc. vm_compute in Hv. injection Hv as <-. reflexivity.
Defined.

(** ** What [get_stats] reports *)

Lemma count_records_insert_None (m : gmap string (list txn_record)) i l :
  m !! i = None ->
  count_records (<[i := l]> m) = count_records m + length l.
Proof.
  intros Hi. unfold count_records.
  rewrite map_fold_insert_L; [reflexivity | | exact Hi].
  intros. lia.
Qed.

Lemma count_records_insert_Some (m : gmap string (list txn_record)) i l old :
  m !! i = Some old ->
  count_records (<[i := l]> m) + length old = count_records m + length l.
Proof.
  intros Hi.
  rewrite <- (insert_delete_eq m i l).
  rewrite count_records_insert_None by apply lookup_delete_eq.
  unfold count_records.
  rewrite (map_fold_delete_L _ 0 i old m); [lia | | exact Hi].
  intros. lia.
Qed.

Lemma enrich_transaction_sizes env txn self e mid :
  enrich_transaction env txn self = (Ok e, mid) ->
  size (user_metadata mid)
  = size (user_metadata self)
    + match user_metadata self !! user_id txn with
      | Some _ => 0 | None => 1 end /\
  size (merchant_metadata mid)
  = size (merchant_metadata self)
    + match merchant_metadata self !! merchant_id txn with
      | Some _ => 0 | None => 1 end.
Proof.
  unfold enrich_transaction, bind, ret.
  destruct (user_metadata self !! user_id txn) as [um|] eqn:Hu;
  destruct (merchant_metadata self !! merchant_id txn) as [mm|] eqn:Hm;
  cbn; rewrite ?Hm; cbn; intros H; inversion H; subst; cbn;
  rewrite ?map_size_insert_None by assumption; split; lia.
Qed.

(** X13: what one scored transaction does to [get_stats].  The tracked
    users, the tracked merchants and the users with history each grow by
    one exactly when the transaction's user id, merchant id, or user
    history was not there before; the number of stored records grows by
    at most one (eviction may lower it); the weights and thresholds
    reported are those before the call. *)
Theorem get_stats_after_predict env raw self r self' uid :
  predict env raw self = (Ok r, self') ->
  user_id raw = Some uid ->
  let before := get_stats self in
  let after := get_stats self' in
  users_tracked after
  = users_tracked before
    + match user_metadata self !! Some uid with
      | Some _ => 0 | None => 1 end /\
  merchants_tracked after
  = merchants_tracked before
    + match merchant_metadata self !! merchant_id raw with
      | Some _ => 0 | None => 1 end /\
  users_with_history after
  = users_with_history before
    + match transaction_history self !! uid with
      | Some _ => 0 | None => 1 end /\
  total_historical_transactions after
  <= total_historical_transactions before + 1 /\
  weight_xgboost after = weight_xgboost before /\
  weight_autoencoder after = weight_autoencoder before /\
  threshold_fraud after = threshold_fraud before /\
  threshold_high_risk after = threshold_high_risk before.
Proof.
  intros H Huid. cbn zeta.
  apply predict_Ok_inv in H
    as (txn & e & mid & uid' & ts & v & Hp & He & Huid' & _ & _ & _
        & Hup & _).
  destruct (parse_timestamp_ids _ _ _ Hp) as [Hu Hm].
  assert (uid' = uid) as -> by congruence.
  destruct (enrich_transaction_sizes _ _ _ _ _ He) as [Hsu Hsm].
  destruct (enrich_transaction_Ok env txn self)
    as (e0 & mid0 & He0 & (Hwx & Hwa & Hft & Hht) & Hhist & _).
  rewrite He in He0. injection He0 as <- <-.
  pose proof (update_stored_history _ _ _ _ Hup)
    as (now & amt & _ & _ & Hkept).
  apply update_transaction_history_Ok_inv in Hup
    as (ts0 & amt0 & cutoff & old & kept & _ & _ & _ & _ & _ & Hh
        & (Hwx' & Hwa' & Hft' & Hht') & Hum & Hmm).
  rewrite Hh, lookup_insert_eq in Hkept. injection Hkept as Hkept.
  unfold get_stats. cbn. rewrite Hum, Hmm, Hsu, Hsm, Hu, Hm, Huid, Hh, Hhist.
  split; [reflexivity|]. split; [reflexivity|].
  rewrite map_size_insert.
  assert (Hlen : length kept
                 <= length (default [] (transaction_history self !! uid)) + 1).
  { rewrite Hkept, Hhist, length_app. cbn.
    pose proof (List.filter_length_le (since now (timedelta 7 0))
                  (default [] (transaction_history self !! uid))). lia. }
  destruct (transaction_history self !! uid) as [h|] eqn:Eh; cbn in *.
  - split; [lia|]. split.
    + pose proof (count_records_insert_Some _ uid kept h Eh). lia.
    + repeat split; congruence.
  - split; [lia|]. split.
    + rewrite (count_records_insert_None _ uid kept Eh). lia.
    + repeat split; congruence.
Qed.

Lemma get_stats_after_predict_witness :
  exists r self',
    predict (Samples.answers 0.9 0.2 0.5) Samples.txn_u1
      Samples.default_detector = (Ok r, self') /\
    users_tracked (get_stats self') = 1 /\
    merchants_tracked (get_stats self') = 1 /\
    users_with_history (get_stats self') = 1.
Proof.
  edestruct (get_stats_after_predict (Samples.answers 0.9 0.2 0.5)
               Samples.txn_u1 Samples.default_detector)
    as (Hu & Hm & Hh & _); [vm_compute; reflexivity | reflexivity |].
  eexists. eexists. split; [vm_compute; reflexivity|].
  rewrite Hu, Hm, Hh.
  split; [vm_compute; reflexivity|].
  split; vm_compute; reflexivity.
Defined.

(** ** A transaction without an amount *)



(** * The HTTP layer *)

Lemma inject_nat_succ (n : nat) :
  (inject_Z (Z.of_nat (S n)) == inject_Z (Z.of_nat n) + 1)%Q.
Proof.
  rewrite Nat2Z.inj_succ. unfold Z.succ. rewrite inject_Z_plus. reflexivity.
Qed.

Lemma inject_nat_succ_pos (n : nat) : ~ (inject_Z (Z.of_nat (S n)) == 0)%Q.
Proof.
  intros H. assert (Hpos : (0 < inject_Z (Z.of_nat (S n)))%Q).
  { rewrite <- (Zlt_Qlt 0). lia. }
  rewrite H in Hpos. discriminate Hpos.
Qed.

Lemma update_stats_mean s elapsed st :
  (Api.avg_processing_time_ms (Api.update_stats s elapsed st)
   * inject_Z (Z.of_nat (Api.total_requests (Api.update_stats s elapsed st)))
   == Api.avg_processing_time_ms st
      * inject_Z (Z.of_nat (Api.total_requests st))
      + Api.get_processing_time s elapsed)%Q.
Proof.
  unfold Api.update_stats. cbn.
  set (n := Api.total_requests st).
  assert (Hn : (inject_Z (Z.of_nat (S n) - 1) == inject_Z (Z.of_nat n))%Q).
  { replace (Z.of_nat (S n) - 1)%Z with (Z.of_nat n) by lia. reflexivity. }
  rewrite Hn. field. apply inject_nat_succ_pos.
Qed.

Lemma run_tasks_accumulate elapsed results :
  forall k st,
    let st' := Api.run_tasks elapsed k results st in
    Api.total_requests st' = Api.total_requests st + length results /\
    Api.fraud_detected st'
    = Api.fraud_detected st + Api.count_fraud results /\
    Api.legitimate_transactions st'
    = Api.legitimate_transactions st + Api.count_legitimate results /\
    (Api.avg_processing_time_ms st' * inject_Z (Z.of_nat (Api.total_requests st'))
     == Api.avg_processing_time_ms st * inject_Z (Z.of_nat (Api.total_requests st))
        + total_time elapsed k results)%Q.
Proof.
  induction results as [|s rest IH]; intros k st; cbn zeta.
  - cbn. repeat split; try lia. ring.
  - cbn [Api.run_tasks total_time length].
    destruct (IH (S k) (Api.update_stats s (elapsed k) st))
      as (Ht & Hf & Hl & Ha).
    rewrite Ht, Hf, Hl. rewrite Ht in Ha. rewrite Ha.
    rewrite update_stats_mean.
    unfold Api.count_fraud, Api.count_legitimate. cbn [List.filter].
    unfold Api.update_stats at 1 2 3. cbn.
    destruct (Api.get_is_fraud s); cbn; repeat split; try lia; ring.
Qed.

(** X15: the counters kept by [update_stats] add up.  After the results
    of any batch have been recorded, the request count has grown by their
    number, the fraud count by the number of results flagged as fraud, and
    the legitimate count by all the others: an error slot, whose
    ['is_fraud'] is [None], is counted as a legitimate transaction. *)
Theorem update_stats_accumulates elapsed k results st :
  let st' := Api.run_tasks elapsed k results st in
  Api.total_requests st' = Api.total_requests st + length results /\
  Api.fraud_detected st'
  = Api.fraud_detected st + Api.count_fraud results /\
  Api.legitimate_transactions st'
  = Api.legitimate_transactions st + Api.count_legitimate results /\
  Api.count_legitimate results
  = length (List.filter (fun s => match s with
                                  | Failed _ _ => true
                                  | Scored r => negb (is_fraud r)
                                  end) results).
Proof.
  cbn zeta.
  destruct (run_tasks_accumulate elapsed results k st) as (Ht & Hf & Hl & _).
  split; [exact Ht|]. split; [exact Hf|]. split; [exact Hl|].
  unfold Api.count_legitimate. f_equal. apply List.filter_ext.
  intros [r|id e]; reflexivity.
Qed.

Lemma count_fraud_legitimate results :
  Api.count_fraud results + Api.count_legitimate results = length results.
Proof.
  unfold Api.count_fraud, Api.count_legitimate.
  induction results as [|s rest IH]; cbn; [reflexivity|].
  destruct (Api.get_is_fraud s); cbn; lia.
Qed.

(** X16: counted from a reset, the statistics are consistent: the fraud
    and legitimate counts sum to the request count, and the [fraud_rate]
    that [get_statistics] reports is the number of flagged results over
    the number of results, a number between 0 and 1, and 0 when nothing
    was recorded. *)
Theorem fraud_rate_from_reset elapsed results :
  let st := Api.run_tasks elapsed 0 results Api.reset_stats in
  Api.fraud_detected st + Api.legitimate_transactions st
  = Api.total_requests st /\
  Api.total_requests st = length results /\
  (0 <= Api.fraud_rate st <= 1)%Q /\
  (Api.fraud_rate st
   == match results with
      | [] => 0
      | _ => inject_Z (Z.of_nat (Api.count_fraud results))
             / inject_Z (Z.of_nat (length results))
      end)%Q.
Proof.
  cbn zeta.
  destruct (run_tasks_accumulate elapsed results 0 Api.reset_stats)
    as (Ht & Hf & Hl & _).
  cbn in Ht, Hf, Hl.
  pose proof (count_fraud_legitimate results) as Hsum.
  split; [lia|]. split; [exact Ht|].
  unfold Api.fraud_rate. rewrite Ht, Hf.
  destruct results as [|s rest].
  - cbn. split; [split; discriminate | reflexivity].
  - set (results := s :: rest) in *.
    assert (Hlen : length results = S (length rest)) by reflexivity.
    rewrite Hlen in *.
    assert ((0 <? S (length rest))%nat = true) as -> by reflexivity.
    assert (Hpos : (0 < inject_Z (Z.of_nat (S (length rest))))%Q).
    { rewrite <- (Zlt_Qlt 0). lia. }
    assert (Hle : (inject_Z (Z.of_nat (Api.count_fraud results))
                   <= inject_Z (Z.of_nat (S (length rest))))%Q).
    { rewrite <- Zle_Qle. lia. }
    assert (Hnn : (0 <= inject_Z (Z.of_nat (Api.count_fraud results)))%Q).
    { rewrite <- (Zle_Qle 0). lia. }
    split; [split|].
    + apply Qle_shift_div_l; [exact Hpos | lra].
    + apply Qle_shift_div_r; [exact Hpos | lra].
    + reflexivity.
Qed.
Lemma predict_Ok_timestamp env raw self r self' :
  predict env raw self = (Ok r, self') ->
  utcoffset (r_timestamp r) = None /\
  timestamp raw <> Some TsNone /\
  (forall p, timestamp raw = Some (TsStr p) -> p = Some (r_timestamp r)) /\
  r_transaction_id r = default "UNKNOWN"%string (transaction_id raw).
Proof.
  intros H. apply predict_Ok_inv in H
    as (txn & e & mid & uid & ts & v & Hp & He & _ & Hts & _ & Htr & _ & Hid
        & _ & _ & _ & _ & _ & _ & ->).
  destruct (enrich_transaction_shape _ _ _ _ _ He) as [Het _].
  pose proof (transform_naive e v (r_timestamp r)
                ltac:(rewrite Het; exact Hts) Htr) as Hn.
  apply parse_timestamp_resolved in Hp as (_ & Htid & Hres).
  rewrite Hid, Htid.
  split; [exact Hn|]. split; [|split; [|reflexivity]].
  - intros Hnone. rewrite Hnone in Hres. congruence.
  - intros p Hstr. rewrite Hstr in Hres. destruct p as [d|]; [|contradiction].
    congruence.
Qed.

(** X17: the single-transaction endpoint answers 200 only for a request
    whose timestamp string parsed to a naive datetime, which the result
    then reports; the request is then counted in the statistics.  Every
    other request, with the timestamp omitted, unparsable or carrying a
    UTC offset, is answered 500 and leaves the statistics as they were. *)
Theorem check_fraud_answers env elapsed req srv response srv' :
  Api.check_fraud env elapsed req srv = (response, srv') ->
  match response with
  | Api.Http200 r =>
      Api.req_timestamp req = Some (Some (r_timestamp r)) /\
      utcoffset (r_timestamp r) = None /\
      r_transaction_id r = Api.req_transaction_id req /\
      Api.total_requests (Api.stats srv')
      = S (Api.total_requests (Api.stats srv))
  | Api.HttpError status_code _ =>
      status_code = 500 /\ Api.stats srv' = Api.stats srv
  end.
Proof.
  unfold Api.check_fraud. intros H.
  destruct (predict env (Api.model_dump req) (Api.fraud_detector srv))
    as [[r|e] d] eqn:E; injection H as <- <-; cbn.
  - apply predict_Ok_timestamp in E as (Hn & Hnone & Hstr & Hid).
    cbn in Hnone, Hstr, Hid.
    destruct (Api.req_timestamp req) as [p|]; [|contradiction].
    rewrite (Hstr p eq_refl). repeat split; assumption.
  - split; reflexivity.
Qed.

Lemma check_fraud_answers_witness :
  exists what srv',
    Api.check_fraud (Samples.answers 0.9 0.2 0.5) 12%Q
      (Api.mk_request "TXN1" "U1" "M1" 150%Q None)
      (Api.mk_server Samples.default_detector Api.reset_stats)
    = (Api.HttpError 500 what, srv') /\
    Api.stats srv' = Api.reset_stats.
Proof.
  eexists. eexists. split; [vm_compute; reflexivity|].
  refine (proj2 (check_fraud_answers (Samples.answers 0.9 0.2 0.5) 12%Q
                   (Api.mk_request "TXN1" "U1" "M1" 150%Q None)
                   (Api.mk_server Samples.default_detector Api.reset_stats)
                   (Api.HttpError 500 _) _ _)).
  vm_compute. reflexivity.
Defined.

Lemma sum_scores_from (results : list slot) (acc : Q) :
  (fold_left (fun a r => a + Api.get_fraud_score r) results acc
   == acc + Api.sum_scores results)%Q.
Proof.
  unfold Api.sum_scores. revert acc.
  induction results as [|s rest IH]; intros acc; cbn.
  - ring.
  - rewrite (IH (acc + Api.get_fraud_score s)%Q),
            (IH (0 + Api.get_fraud_score s)%Q). ring.
Qed.

(** X18: the batch endpoint.  More than 1000 transactions are refused
    with 400 before anything is touched; an empty list is answered 500,
    because the summary divides by the number of results; any other batch
    is answered 200 with one result per transaction, every result counted
    either as fraud or as legitimate in the summary, an average score
    that is the sum of the scores (0 for an error slot) divided by the
    batch size, and the request count raised by the batch size. *)
Theorem batch_check_fraud_answers envs elapsed transactions srv :
  let answer := Api.batch_check_fraud envs elapsed transactions srv in
  (1000 < length transactions ->
   answer
   = (Api.HttpError 400
        (Api.Text "Maximum 1000 transactions per batch request"), srv)) /\
  (transactions = [] ->
   answer = (Api.HttpError 500 (Api.StrOf Api.ZeroDivisionError), srv)) /\
  (0 < length transactions <= 1000 ->
   exists body,
     fst answer = Api.Http200 body /\
     Api.total_transactions body = length transactions /\
     length (Api.results body) = length transactions /\
     Api.summary_fraud_detected body + Api.summary_legitimate body
     = length transactions /\
     (Api.summary_avg_fraud_score body
      == Api.sum_scores (Api.results body)
         / inject_Z (Z.of_nat (length transactions)))%Q /\
     Api.total_requests (Api.stats (snd answer))
     = Api.total_requests (Api.stats srv) + length transactions).
Proof.
  cbn zeta. unfold Api.batch_check_fraud. split; [|split].
  - intros Hbig. apply Nat.ltb_lt in Hbig. rewrite Hbig. reflexivity.
  - intros ->. cbn. destruct srv. reflexivity.
  - intros [Hpos Hle].
    assert ((1000 <? length transactions)%nat = false) as ->
      by (apply Nat.ltb_ge; exact Hle).
    unfold batch_predict. rewrite batch_loop_slots, app_nil_l.
    set (results := batch_slots envs 0 (map Api.model_dump transactions)
                      (Api.fraud_detector srv)).
    assert (Hlen : length results = length transactions)
      by (subst results; rewrite batch_slots_length; apply length_map).
    destruct (length results) as [|n] eqn:En; [lia|].
    cbn [Api.divide_by_len].
    eexists. cbn [fst snd]. split; [reflexivity|].
    cbn [Api.total_transactions Api.results Api.summary_fraud_detected
         Api.summary_legitimate Api.summary_avg_fraud_score Api.stats].
    split; [exact Hlen|]. split; [congruence|].
    split; [rewrite count_fraud_legitimate; congruence|].
    split.
    + rewrite <- Hlen. reflexivity.
    + destruct (run_tasks_accumulate elapsed results 0 (Api.stats srv))
        as (Ht & _).
      rewrite Ht. congruence.
Qed.

Lemma batch_check_fraud_answers_witness :
  Api.batch_check_fraud (fun _ => Samples.answers 0.9 0.2 0.5) (fun _ => 12%Q)
    [] (Api.mk_server Samples.default_detector Api.reset_stats)
  = (Api.HttpError 500 (Api.StrOf Api.ZeroDivisionError),
     Api.mk_server Samples.default_detector Api.reset_stats).
Proof.
  apply (batch_check_fraud_answers (fun _ => Samples.answers 0.9 0.2 0.5)
           (fun _ => 12%Q) []
           (Api.mk_server Samples.default_detector Api.reset_stats)).
  reflexivity.
Defined.

(** * The stand-alone demo *)

Lemma Qgtb_true a b : Qgtb a b = true <-> (b < a)%Q.
Proof.
  unfold Qgtb. destruct (Qle_bool a b) eqn:E; cbn.
  - apply Qle_bool_iff in E. split; [discriminate | intros; lra].
  - split; [intros _ | reflexivity].
    apply Qnot_le_lt. intros Hle. apply Qle_bool_iff in Hle. congruence.
Qed.

Lemma Qgtb_false a b : Qgtb a b = false <-> (a <= b)%Q.
Proof.
  unfold Qgtb. destruct (Qle_bool a b) eqn:E; cbn.
  - apply Qle_bool_iff in E. tauto.
  - split; [discriminate|]. intros Hle. apply Qle_bool_iff in Hle. congruence.
Qed.

Lemma Qltb_false a b : Qltb a b = false <-> (b <= a)%Q.
Proof.
  unfold Qltb. destruct (Qle_bool b a) eqn:E; cbn.
  - apply Qle_bool_iff in E. tauto.
  - split; [discriminate|]. intros Hle. apply Qle_bool_iff in Hle. congruence.
Qed.

Lemma py_min_spec a b :
  (Demo.py_min a b = a /\ (a <= b)%Q) \/ (Demo.py_min a b = b /\ (b < a)%Q).
Proof.
  unfold Demo.py_min. destruct (Qltb b a) eqn:E.
  - right. split; [reflexivity | apply Qltb_true; exact E].
  - left. split; [reflexivity | apply Qltb_false; exact E].
Qed.

Lemma py_max_spec a b :
  (Demo.py_max a b = a /\ (b <= a)%Q) \/ (Demo.py_max a b = b /\ (a < b)%Q).
Proof.
  unfold Demo.py_max. destruct (Qgtb b a) eqn:E.
  - right. split; [reflexivity | apply Qgtb_true; exact E].
  - left. split; [reflexivity | apply Qgtb_false; exact E].
Qed.

Lemma clamp_range x : (0 <= Demo.py_max 0 (Demo.py_min 1 x) <= 1)%Q.
Proof.
  destruct (py_min_spec 1 x) as [[-> H1] | [-> H1]].
  - destruct (py_max_spec 0 1) as [[-> H2] | [-> H2]]; split; lra.
  - destruct (py_max_spec 0 x) as [[-> H2] | [-> H2]]; split; lra.
Qed.

Lemma demo_fields txn d :
  let r := Demo.detect_fraud_simple txn d in
  let pre := fst (Demo.rules (default 0%Q (amount txn)) d) in
  xgboost_score r = Demo.py_min (pre + Demo.noise_xgboost d) 1 /\
  autoencoder_score r = Demo.py_min (pre + Demo.noise_autoencoder d) 1 /\
  fraud_score r
  = Demo.py_max 0
      (Demo.py_min 1 (0.7 * xgboost_score r + 0.3 * autoencoder_score r)) /\
  is_fraud r = Qgeb (fraud_score r) 0.5 /\
  risk_level r
  = (if Qgeb (fraud_score r) 0.75 then HIGH
     else if Qgeb (fraud_score r) 0.5 then MEDIUM else LOW) /\
  risk_factors r
  = match snd (Demo.rules (default 0%Q (amount txn)) d) with
    | [] => ["No specific risk factors identified"%string]
    | l => l
    end.
Proof.
  cbn zeta. unfold Demo.detect_fraud_simple.
  destruct (Demo.rules (default 0%Q (amount txn)) d) as [pre factors].
  cbn. repeat split. destruct factors; reflexivity.
Qed.

(** X19: whatever the amount and whatever the random numbers, the demo
    detector reports a fraud score between 0 and 1 and component scores of
    at most 1, flags a transaction exactly when the score reaches 0.5,
    which is exactly when its tier is not LOW, and lists at least one
    factor. *)
Theorem demo_result_well_formed txn d :
  let r := Demo.detect_fraud_simple txn d in
  (0 <= fraud_score r <= 1)%Q /\
  (xgboost_score r <= 1)%Q /\
  (autoencoder_score r <= 1)%Q /\
  (is_fraud r = true <-> (0.5 <= fraud_score r)%Q) /\
  (is_fraud r = true <-> risk_level r <> LOW) /\
  (risk_level r = HIGH <-> (0.75 <= fraud_score r)%Q) /\
  risk_factors r <> [].
Proof.
  cbn zeta.
  destruct (demo_fields txn d) as (Hx & Ha & Hs & Hf & Hl & Hr).
  set (r := Demo.detect_fraud_simple txn d) in *.
  set (pre := fst (Demo.rules (default 0%Q (amount txn)) d)) in *.
  split; [rewrite Hs; apply clamp_range|].
  split.
  { rewrite Hx.
    destruct (py_min_spec (pre + Demo.noise_xgboost d) 1)
      as [[-> H] | [-> H]]; lra. }
  split.
  { rewrite Ha.
    destruct (py_min_spec (pre + Demo.noise_autoencoder d) 1)
      as [[-> H] | [-> H]]; lra. }
  split; [rewrite Hf; apply Qgeb_true|].
  split; [|split].
  - rewrite Hl, Hf.
    destruct (Qgeb (fraud_score r) 0.75) eqn:Eh;
      destruct (Qgeb (fraud_score r) 0.5) eqn:Ef;
      split; try discriminate; try reflexivity; try congruence.
    apply Qgeb_true in Eh. apply Qgeb_false in Ef. lra.
  - rewrite Hl.
    destruct (Qgeb (fraud_score r) 0.75) eqn:Eh.
    + apply Qgeb_true in Eh. tauto.
    + apply Qgeb_false in Eh.
      destruct (Qgeb (fraud_score r) 0.5);
        split; try discriminate; intros; lra.
  - rewrite Hr.
    destruct (snd (Demo.rules (default 0%Q (amount txn)) d)); discriminate.
Qed.

Lemma demo_rules_score amt d :
  (fst (Demo.rules amt d)
   == (if Qgtb amt 1000 then 0.3 else 0)
      + (if Qgtb amt 2000 then 0.3 else 0)
      + (if Qltb (Demo.draw_merchant d) 0.2 then 0.2 else 0)
      + (if Qltb (Demo.draw_geographic d) 0.15 then 0.15 else 0))%Q.
Proof.
  unfold Demo.rules, Demo.rule.
  destruct (Qgtb amt 1000), (Qgtb amt 2000),
    (Qltb (Demo.draw_merchant d) 0.2), (Qltb (Demo.draw_geographic d) 0.15);
    cbn; ring.
Qed.

(** X20: with the noise inside the ranges it is drawn from, the amount
    alone decides two cases of the demo detector: a transaction of at most
    1000 is never flagged and always tiered LOW, and a transaction above
    2000 on which one of the two random rules fires is always flagged. *)
Theorem demo_amount_decides txn d :
  (-0.1 <= Demo.noise_xgboost d <= 0.1)%Q ->
  (-0.15 <= Demo.noise_autoencoder d <= 0.15)%Q ->
  let amt := default 0%Q (amount txn) in
  let r := Demo.detect_fraud_simple txn d in
  ((amt <= 1000)%Q -> is_fraud r = false /\ risk_level r = LOW) /\
  ((2000 < amt)%Q ->
   (Demo.draw_merchant d < 0.2)%Q \/ (Demo.draw_geographic d < 0.15)%Q ->
   is_fraud r = true).
Proof.
  intros Hnx Hna. cbn zeta.
  destruct (demo_fields txn d) as (Hx & Ha & Hs & Hf & Hl & _).
  pose proof (demo_rules_score (default 0%Q (amount txn)) d) as Hpre.
  set (pre := fst (Demo.rules (default 0%Q (amount txn)) d)) in *.
  set (r := Demo.detect_fraud_simple txn d) in *.
  set (mix := (0.7 * xgboost_score r + 0.3 * autoencoder_score r)%Q) in *.
  split.
  - intros Hamt.
    assert (E1 : Qgtb (default 0%Q (amount txn)) 1000 = false)
      by (apply Qgtb_false; exact Hamt).
    assert (E2 : Qgtb (default 0%Q (amount txn)) 2000 = false)
      by (apply Qgtb_false; lra).
    rewrite E1, E2 in Hpre.
    assert (Hle : (0 <= pre <= 0.35)%Q).
    { rewrite Hpre.
      destruct (Qltb (Demo.draw_merchant d) 0.2),
        (Qltb (Demo.draw_geographic d) 0.15); split; lra. }
    assert (Hxv : (xgboost_score r <= 0.45)%Q).
    { rewrite Hx.
      destruct (py_min_spec (pre + Demo.noise_xgboost d) 1)
        as [[-> H] | [-> H]]; lra. }
    assert (Hav : (autoencoder_score r <= 0.5)%Q).
    { rewrite Ha.
      destruct (py_min_spec (pre + Demo.noise_autoencoder d) 1)
        as [[-> H] | [-> H]]; lra. }
    assert (Hmix : (mix <= 0.465)%Q) by (subst mix; lra).
    assert (Hlt : (fraud_score r < 0.5)%Q).
    { rewrite Hs.
      destruct (py_min_spec 1 mix) as [[-> H] | [-> H]]; [lra|].
      destruct (py_max_spec 0 mix) as [[-> H'] | [-> H']]; lra. }
    assert (Ef : Qgeb (fraud_score r) 0.5 = false)
      by (apply Qgeb_false; exact Hlt).
    assert (Eh : Qgeb (fraud_score r) 0.75 = false)
      by (apply Qgeb_false; lra).
    rewrite Hf, Hl, Ef, Eh. split; reflexivity.
  - intros Hamt Hrule.
    assert (E1 : Qgtb (default 0%Q (amount txn)) 1000 = true)
      by (apply Qgtb_true; lra).
    assert (E2 : Qgtb (default 0%Q (amount txn)) 2000 = true)
      by (apply Qgtb_true; exact Hamt).
    rewrite E1, E2 in Hpre.
    assert (Hge : (0.75 <= pre)%Q).
    { rewrite Hpre. destruct Hrule as [Hm | Hg].
      - apply Qltb_true in Hm. rewrite Hm.
        destruct (Qltb (Demo.draw_geographic d) 0.15); lra.
      - apply Qltb_true in Hg. rewrite Hg.
        destruct (Qltb (Demo.draw_merchant d) 0.2); lra. }
    assert (Hxv : (0.65 <= xgboost_score r)%Q).
    { rewrite Hx.
      destruct (py_min_spec (pre + Demo.noise_xgboost d) 1)
        as [[-> H] | [-> H]]; lra. }
    assert (Hav : (0.6 <= autoencoder_score r)%Q).
    { rewrite Ha.
      destruct (py_min_spec (pre + Demo.noise_autoencoder d) 1)
        as [[-> H] | [-> H]]; lra. }
    assert (Hmix : (0.635 <= mix)%Q) by (subst mix; lra).
    rewrite Hf. apply Qgeb_true. rewrite Hs.
    destruct (py_min_spec 1 mix) as [[-> H] | [-> H]].
    + destruct (py_max_spec 0 1) as [[-> H'] | [-> H']]; lra.
    + destruct (py_max_spec 0 mix) as [[-> H'] | [-> H']]; lra.
Qed.

Lemma demo_amount_decides_witness :
  is_fraud
    (Demo.detect_fraud_simple
       (mk_transaction (Some "T"%string) (Some "U"%string) (Some "M"%string)
          (Some 900%Q) (Some TsNone))
       (Demo.mk_draws 0.1 0.1 0.1 0.15 0)) = false.
Proof.
  apply (demo_amount_decides
           (mk_transaction (Some "T"%string) (Some "U"%string)
              (Some "M"%string) (Some 900%Q) (Some TsNone))
           (Demo.mk_draws 0.1 0.1 0.1 0.15 0));
    vm_compute; try split; discriminate.
Defined.

(** * The anomaly score *)

Lemma fold_Qplus_nonneg (l : list Q) (acc : Q) :
  Forall (fun x => 0 <= x)%Q l -> (0 <= acc)%Q ->
  (0 <= fold_left Qplus l acc)%Q.
Proof.
  intros Hall. revert acc.
  induction Hall as [|x l Hx _ IH]; intros acc Hacc; cbn; [exact Hacc|].
  apply IH. lra.
Qed.

Lemma squares_nonneg (x y : list Q) :
  Forall (fun e => 0 <= e)%Q (zip_with (fun a b => (a - b) * (a - b))%Q x y).
Proof.
  revert y. induction x as [|a x IH]; intros [|b y]; cbn; constructor.
  - destruct (Qlt_le_dec (a - b) 0) as [Hneg | Hpos].
    + assert (E : ((a - b) * (a - b) == (- (a - b)) * (- (a - b)))%Q) by ring.
      rewrite E. apply Qmult_le_0_compat; lra.
    + apply Qmult_le_0_compat; exact Hpos.
  - apply IH.
Qed.

Lemma mean_nonneg (row : list Q) m :
  Forall (fun x => 0 <= x)%Q row ->
  Autoencoder.mean row = Some m -> (0 <= m)%Q.
Proof.
  intros Hall. unfold Autoencoder.mean.
  destruct row as [|x row]; [discriminate|].
  intros [= <-].
  assert (Hpos : (0 < inject_Z (Z.of_nat (length (x :: row))))%Q).
  { rewrite <- (Zlt_Qlt 0). cbn [length]. lia. }
  apply Qle_shift_div_l; [exact Hpos|].
  rewrite Qmult_0_l.
  apply (fold_Qplus_nonneg (x :: row) 0%Q); [exact Hall | lra].
Qed.

Lemma normalise_range thr err s :
  (forall e, err = Some e -> (0 <= e)%Q) ->
  Autoencoder.normalise thr err = Some s -> (0 <= s <= 1)%Q.
Proof.
  intros Hnn. unfold Autoencoder.normalise.
  destruct err as [e|]; [|discriminate].
  specialize (Hnn e eq_refl).
  assert (Hmin : forall y, (0 <= y)%Q -> (0 <= Demo.py_min y 1 <= 1)%Q).
  { intros y Hy. destruct (py_min_spec y 1) as [[-> H] | [-> H]]; lra. }
  destruct thr as [t|].
  - destruct (Qgtb t 0) eqn:Et; intros [= <-]; apply Hmin; [|exact Hnn].
    apply Qgtb_true in Et.
    apply Qle_shift_div_l; [exact Et | lra].
  - intros [= <-]. apply Hmin. exact Hnn.
Qed.

(** X21: a trained autoencoder never reports an anomaly score below 0 or
    above 1: whatever the scaled row, its reconstruction and the stored
    threshold, [predict_anomaly_score] returns a number between 0 and 1
    for every non-empty row that the network reconstructs at full length,
    and every number in the output of [predict_batch] is between 0 and 1
    too. *)
Theorem anomaly_score_in_unit_interval thr draw x_scaled reconstruction :
  (x_scaled <> [] -> length reconstruction = length x_scaled ->
   exists s,
     Autoencoder.predict_anomaly_score true thr draw x_scaled reconstruction
     = Some s) /\
  (forall s,
     Autoencoder.predict_anomaly_score true thr draw x_scaled reconstruction
     = Some s -> (0 <= s <= 1)%Q) /\
  (forall rows s,
     Some s ∈ Autoencoder.predict_batch true thr rows -> (0 <= s <= 1)%Q).
Proof.
  assert (Herr : forall x y e,
            Autoencoder.reconstruction_error x y = Some e -> (0 <= e)%Q).
  { intros x y e. unfold Autoencoder.reconstruction_error.
    apply mean_nonneg, squares_nonneg. }
  split; [|split].
  - intros Hx Hr. unfold Autoencoder.predict_anomaly_score,
      Autoencoder.reconstruction_error, Autoencoder.normalise.
    destruct x_scaled as [|a x]; [contradiction|].
    destruct reconstruction as [|b y]; [discriminate Hr|].
    cbn [zip_with Autoencoder.mean].
    destruct thr as [t|]; [destruct (Qgtb t 0)|]; eexists; reflexivity.
  - intros s. unfold Autoencoder.predict_anomaly_score.
    apply normalise_range. apply Herr.
  - intros rows s. unfold Autoencoder.predict_batch.
    intros Hin. apply list_elem_of_fmap in Hin as (row & Hs & _).
    symmetry in Hs. revert Hs. apply normalise_range. apply Herr.
Qed.

Lemma anomaly_score_in_unit_interval_witness :
  exists s,
    Autoencoder.predict_anomaly_score true (Some 0.5%Q) 0%Q
      [1%Q; 2%Q] [1%Q; 4%Q] = Some s /\ (0 <= s <= 1)%Q.
Proof.
  eexists. split; [vm_compute; reflexivity|].
  apply (anomaly_score_in_unit_interval (Some 0.5%Q) 0%Q [1%Q; 2%Q] [1%Q; 4%Q]).
  vm_compute. reflexivity.
Defined.

(** * Rates from a confusion matrix *)






(** * The velocity block of the feature vector *)

Lemma true_div_count (a b : nat) :
  a <= Nat.max b 1 ->
  exists r,
    Features.true_div (Features.of_count a)
      (Features.of_count (Nat.max b 1)) = Some r /\
    (0 <= r <= 1)%Q.
Proof.
  intros Hle. unfold Features.true_div, Features.of_count.
  assert (Hpos : (0 < inject_Z (Z.of_nat (Nat.max b 1)))%Q).
  { rewrite <- (Zlt_Qlt 0). lia. }
  destruct (Qeq_bool (inject_Z (Z.of_nat (Nat.max b 1))) 0) eqn:E.
  { apply Qeq_bool_iff in E. rewrite E in Hpos. discriminate Hpos. }
  eexists. split; [reflexivity|].
  assert (Hn : (0 <= inject_Z (Z.of_nat a))%Q).
  { rewrite <- (Zle_Qle 0). lia. }
  assert (Hnd : (inject_Z (Z.of_nat a)
                 <= inject_Z (Z.of_nat (Nat.max b 1)))%Q).
  { rewrite <- Zle_Qle. lia. }
  split.
  - apply Qle_shift_div_l; [exact Hpos | lra].
  - apply Qle_shift_div_r; [exact Hpos | lra].
Qed.

(** X23: what [predict] hands to the feature engineer always yields a
    velocity block of ten numbers.  On the dict that
    [calculate_velocity_features] returned, [_extract_velocity_features]
    raises no [ZeroDivisionError] and produces no NaN, the first seven
    entries are the counts, the totals and the average as returned, and
    the two velocity ratios (1h over 24h, 24h over 7d) lie between 0
    and 1. *)
Theorem velocity_block_in_predict uid current_time self v e :
  calculate_velocity_features uid current_time self = Ok v ->
  exists avg amount_vs_avg velocity_1h_24h velocity_24h_7d,
    Features._extract_velocity_features (with_velocity e v)
    = Some [Features.Num (Features.of_count (txn_count_1h v));
            Features.Num (Features.of_count (txn_count_24h v));
            Features.Num (Features.of_count (txn_count_7d v));
            Features.Num (total_amount_1h v);
            Features.Num (total_amount_24h v);
            Features.Num (total_amount_7d v);
            Features.Num avg;
            Features.Num amount_vs_avg;
            Features.Num velocity_1h_24h;
            Features.Num velocity_24h_7d] /\
    avg_amount_24h v = Some avg /\
    (0 <= velocity_1h_24h <= 1)%Q /\
    (0 <= velocity_24h_7d <= 1)%Q.
Proof.
  intros H.
  destruct (windows_nested _ _ _ _ H) as [H12 H23].
  destruct (average_is_mean _ _ _ _ H) as (avg & Havg & _).
  destruct (true_div_count (txn_count_1h v) (txn_count_24h v) ltac:(lia))
    as (r1 & Hr1 & Hb1).
  destruct (true_div_count (txn_count_24h v) (txn_count_7d v) ltac:(lia))
    as (r2 & Hr2 & Hb2).
  assert (Hdiv : exists r0,
            Features.true_div (default 0%Q (amount (e_txn e)))
              (Demo.py_max avg 1) = Some r0).
  { unfold Features.true_div.
    destruct (Qeq_bool (Demo.py_max avg 1) 0) eqn:E; [|eexists; reflexivity].
    apply Qeq_bool_iff in E.
    destruct (py_max_spec avg 1) as [[Hm Hle] | [Hm Hlt]];
      rewrite Hm in E; lra. }
  destruct Hdiv as (r0 & Hr0).
  exists avg, r0, r1, r2.
  unfold Features._extract_velocity_features, Features.get, with_velocity.
  cbn [e_velocity e_txn]. rewrite Havg, Hr0, Hr1, Hr2. cbn.
  repeat split; solve [reflexivity | apply Hb1 | apply Hb2].
Qed.

Lemma velocity_block_in_predict_witness :
  exists v block,
    calculate_velocity_features "U2" (TsDatetime (naive Samples.new_year))
      Samples.detector_u2 = Ok v /\
    Features._extract_velocity_features (with_velocity Samples.quiet v)
    = Some block /\
    length block = 10.
Proof.
  edestruct velocity_block_in_predict
    with (uid := "U2"%string)
         (current_time := TsDatetime (naive Samples.new_year))
         (self := Samples.detector_u2) (e := Samples.quiet)
    as (avg & r0 & r1 & r2 & Hrun & _); [vm_compute; reflexivity|].
  eexists. eexists.
  split; [|split; [exact Hrun | reflexivity]].
  vm_compute. reflexivity.
Defined.

(** * Feature importance *)

Lemma insert_desc_perm x l : XGBoost.insert_desc x l ≡ₚ x :: l.
Proof.
  induction l as [|h t IH]; cbn; [reflexivity|].
  destruct (Qgtb (snd h) (snd x)); [|reflexivity].
  rewrite IH. apply Permutation_swap.
Qed.

Lemma sorted_desc_perm items : XGBoost.sorted_desc items ≡ₚ items.
Proof.
  induction items as [|x l IH]; cbn; [reflexivity|].
  rewrite insert_desc_perm, IH. reflexivity.
Qed.

Lemma insert_desc_sorted x l :
  StronglySorted XGBoost.at_least_as_important l ->
  StronglySorted XGBoost.at_least_as_important (XGBoost.insert_desc x l).
Proof.
  induction 1 as [|h t Hs IH Hh]; cbn.
  - repeat constructor.
  - destruct (Qgtb (snd h) (snd x)) eqn:E.
    + constructor; [exact IH|].
      apply Qgtb_true in E.
      rewrite (insert_desc_perm x t). constructor; [|exact Hh].
      unfold XGBoost.at_least_as_important. lra.
    + apply Qgtb_false in E.
      constructor; [constructor; assumption|].
      constructor; [exact E|].
      eapply Forall_impl; [exact Hh|].
      unfold XGBoost.at_least_as_important. intros b Hb. lra.
Qed.

Lemma sorted_desc_sorted items :
  StronglySorted XGBoost.at_least_as_important (XGBoost.sorted_desc items).
Proof.
  induction items as [|x l IH]; cbn; [constructor|].
  apply insert_desc_sorted. exact IH.
Qed.

Lemma sorted_app_split (l1 l2 : list (string * Q)) :
  StronglySorted XGBoost.at_least_as_important (l1 ++ l2) ->
  StronglySorted XGBoost.at_least_as_important l1 /\
  forall a b, a ∈ l1 -> b ∈ l2 -> XGBoost.at_least_as_important a b.
Proof.
  induction l1 as [|h t IH]; cbn; intros Hs.
  - split; [constructor|]. intros a b Ha. inversion Ha.
  - apply StronglySorted_inv in Hs as [Hs Hh].
    destruct (IH Hs) as [Ht Hcross].
    apply Forall_app in Hh as [Hh1 Hh2].
    split; [constructor; assumption|].
    intros a b Ha Hb. apply elem_of_cons in Ha as [-> | Ha].
    + rewrite Forall_forall in Hh2. apply Hh2. exact Hb.
    + apply Hcross; assumption.
Qed.

(** X24: [get_feature_importance] returns the most important features,
    most important first.  The dict returned and the features left out
    together are exactly the stored ones, no feature left out is more
    important than one returned, and for [top_n >= 0] the dict has
    [min(top_n, number of features)] entries.  A negative [top_n] does not
    give an empty dict: it drops the [-top_n] least important features.
    An untrained model gives the empty dict. *)
Theorem top_features_most_important items top_n :
  let top := XGBoost.get_feature_importance (Some items) top_n in
  XGBoost.get_feature_importance None top_n = [] /\
  StronglySorted XGBoost.at_least_as_important top /\
  length top
  = (if (top_n <? 0)%Z then length items - Z.to_nat (- top_n)
     else Nat.min (Z.to_nat top_n) (length items)) /\
  exists rest,
    items ≡ₚ top ++ rest /\
    forall a b, a ∈ top -> b ∈ rest -> (snd b <= snd a)%Q.
Proof.
  cbn zeta. split; [reflexivity|].
  unfold XGBoost.get_feature_importance, XGBoost.slice_to.
  set (sorted := XGBoost.sorted_desc items).
  assert (Hlen : length sorted = length items)
    by (apply Permutation_length, sorted_desc_perm).
  set (n := if (top_n <? 0)%Z then length sorted - Z.to_nat (- top_n)
            else Z.to_nat top_n).
  assert (Htop : (if (top_n <? 0)%Z
                  then take (length sorted - Z.to_nat (- top_n)) sorted
                  else take (Z.to_nat top_n) sorted) = take n sorted)
    by (subst n; destruct (top_n <? 0)%Z; reflexivity).
  rewrite Htop.
  pose proof (sorted_desc_sorted items) as Hs. fold sorted in Hs.
  rewrite <- (take_drop n sorted) in Hs.
  apply sorted_app_split in Hs as [Hs Hcross].
  split; [exact Hs|]. split.
  - rewrite length_take. subst n. destruct (top_n <? 0)%Z; lia.
  - exists (drop n sorted). split; [|exact Hcross].
    rewrite take_drop. symmetry. apply sorted_desc_perm.
Qed.

(** * Business metrics *)



